(** * ntp-clock: the NTP client (ntp_client.c / ntp_client.h)

    A shallow embedding of the NTP client of the clock: the epoch
    conversions, the layout of the 48-byte packet, the request/response
    exchange over UDP, the retry loop of [ntp_sync], and the query
    functions over the client state; and of what the display
    (clock_display.c) computes from them: when it syncs, the texts of the
    status bar, the place and the rows of the clock.

    Conventions of the embedding (LP64, little-endian, as on x86-64 and
    arm64 Linux):
    - [uint8_t], [uint32_t], [size_t] and [unsigned long] values are [Z]
      with the reduction modulo 2^8, 2^32, 2^64 written where the C
      arithmetic reduces;
    - [time_t] and [int64_t] are signed 64-bit: results are brought back to
      the signed range by [to_int64] (two's complement);
    - [double] is IEEE binary64, modelled by the kernel's primitive floats;
    - the outcome of every system call (socket, DNS, send, select, receive,
      the clock) is supplied by an explicit environment;
    - the mutex and the blocking calls are recorded in a trace of events.  *)

From Stdlib Require Import ZArith List Bool Lia.
From Stdlib Require Import Floats Uint63.
From Stdlib Require String Ascii.
Import ListNotations.
Import String.StringSyntax.
Delimit Scope string_scope with string.

Local Open Scope Z_scope.

(* ------------------------------------------------------------------ *)
(** ** Machine integers *)

Module CInt.

Definition UINT8_MOD  : Z := 2 ^ 8.
Definition UINT32_MOD : Z := 2 ^ 32.
Definition UINT64_MOD : Z := 2 ^ 64.
Definition INT64_MIN  : Z := - 2 ^ 63.
Definition INT64_MAX  : Z := 2 ^ 63 - 1.
Definition INT32_MIN  : Z := - 2 ^ 31.
Definition INT32_MAX  : Z := 2 ^ 31 - 1.

Definition to_uint8  (z : Z) : Z := z mod UINT8_MOD.
Definition to_uint32 (z : Z) : Z := z mod UINT32_MOD.
Definition to_uint64 (z : Z) : Z := z mod UINT64_MOD.

(** Conversion to a signed 64-bit integer (two's complement). *)
Definition to_int64 (z : Z) : Z :=
  (z + 2 ^ 63) mod UINT64_MOD - 2 ^ 63.

Definition is_uint8  (z : Z) : Prop := 0 <= z < UINT8_MOD.
Definition is_uint32 (z : Z) : Prop := 0 <= z < UINT32_MOD.
Definition is_int64  (z : Z) : Prop := INT64_MIN <= z <= INT64_MAX.

End CInt.
Import CInt.

(* ------------------------------------------------------------------ *)
(** ** Protocol constants (ntp_client.c, lines 17-23) *)

Definition NTP_PORT : Z := 123.
Definition NTP_TIMESTAMP_DELTA : Z := 2208988800.
Definition NTP_VERSION : Z := 4.
Definition NTP_MODE_CLIENT : Z := 3.
Definition NTP_STRATUM_MAX : Z := 16.
Definition NTP_TIMEOUT_SEC : Z := 5.

(** ** Epoch conversions (ntp_client.c, lines 67-76)

    [ntp_seconds] is a [uint32_t]; the constant is an [unsigned long], so
    the subtraction is done on 64 bits, modulo 2^64, and the result is
    converted to [time_t]. *)
Definition ntp_time_to_unix_time (ntp_seconds : Z) : Z :=
  to_int64 (to_uint64 (ntp_seconds - NTP_TIMESTAMP_DELTA)).

(** [unix_seconds] is a [time_t]; the sum is an [unsigned long] and the
    return type [uint32_t] keeps its low 32 bits. *)
Definition unix_time_to_ntp_time (unix_seconds : Z) : Z :=
  to_uint32 (to_uint64 (to_uint64 unix_seconds + NTP_TIMESTAMP_DELTA)).

(** The specification's reading of the two conversions, in unbounded
    integer arithmetic (spec, section 4.1). *)
Definition spec_ntp_to_unix (seconds : Z) : Z := seconds - 2208988800.
Definition spec_unix_to_ntp (seconds : Z) : Z := seconds + 2208988800.

(* ------------------------------------------------------------------ *)
(** ** Status codes (ntp_client.h, lines 22-29) *)

Inductive ntp_status_t : Type :=
| NTP_OK
| NTP_ERROR_NETWORK
| NTP_ERROR_TIMEOUT
| NTP_ERROR_SERVER
| NTP_ERROR_INVALID_PARAM
| NTP_ERROR_NOT_INIT.

Definition status_eqb (a b : ntp_status_t) : bool :=
  match a, b with
  | NTP_OK, NTP_OK
  | NTP_ERROR_NETWORK, NTP_ERROR_NETWORK
  | NTP_ERROR_TIMEOUT, NTP_ERROR_TIMEOUT
  | NTP_ERROR_SERVER, NTP_ERROR_SERVER
  | NTP_ERROR_INVALID_PARAM, NTP_ERROR_INVALID_PARAM
  | NTP_ERROR_NOT_INIT, NTP_ERROR_NOT_INIT => true
  | _, _ => false
  end.

(** The numeric value of each enumerator. *)
Definition status_code (s : ntp_status_t) : Z :=
  match s with
  | NTP_OK => 0
  | NTP_ERROR_NETWORK => 1
  | NTP_ERROR_TIMEOUT => 2
  | NTP_ERROR_SERVER => 3
  | NTP_ERROR_INVALID_PARAM => 4
  | NTP_ERROR_NOT_INIT => 5
  end.

(* ------------------------------------------------------------------ *)
(** ** Memory: bytes, 32-bit loads and stores, byte order *)

Module Mem.

(** A byte array; each cell is meant to hold a value in [0, 255]. *)
Definition bytes := list Z.

Definition is_bytes (m : bytes) : Prop := Forall is_uint8 m.

Definition load_u8 (m : bytes) (off : nat) : Z := nth off m 0.

(** [m[off] = v]; a store outside the array is undefined in C and leaves
    the model's array as it is. *)
Definition store_u8 (m : bytes) (off : nat) (v : Z) : bytes :=
  if (off <? length m)%nat
  then firstn off m ++ to_uint8 v :: skipn (S off) m
  else m.

(** A [uint32_t] read from memory on a little-endian host. *)
Definition load_u32 (m : bytes) (off : nat) : Z :=
  Z.lor (Z.lor (load_u8 m off) (Z.shiftl (load_u8 m (off + 1)) 8))
        (Z.lor (Z.shiftl (load_u8 m (off + 2)) 16)
               (Z.shiftl (load_u8 m (off + 3)) 24)).

(** The four bytes of a [uint32_t], least significant first. *)
Definition le_bytes (v : Z) : bytes :=
  [ Z.land v 255;
    Z.land (Z.shiftr v 8) 255;
    Z.land (Z.shiftr v 16) 255;
    Z.land (Z.shiftr v 24) 255 ].

Definition store_u32 (m : bytes) (off : nat) (v : Z) : bytes :=
  if (off + 4 <=? length m)%nat
  then firstn off m ++ le_bytes v ++ skipn (off + 4) m
  else m.

(** The value of four bytes read most significant first (network
    order). *)
Definition be32 (m : bytes) (off : nat) : Z :=
  load_u8 m off * 2 ^ 24 + load_u8 m (off + 1) * 2 ^ 16
  + load_u8 m (off + 2) * 2 ^ 8 + load_u8 m (off + 3).

(** [ntohl] on a little-endian host: the four bytes are swapped. *)
Definition ntohl (x : Z) : Z :=
  Z.lor (Z.lor (Z.shiftl (Z.land x 255) 24)
               (Z.shiftl (Z.land (Z.shiftr x 8) 255) 16))
        (Z.lor (Z.shiftl (Z.land (Z.shiftr x 16) 255) 8)
               (Z.land (Z.shiftr x 24) 255)).

(** [strncpy]: the [n] bytes written to the destination. [src] is the
    memory from the source pointer on, not only the array the pointer
    points into: it is read up to its first NUL or for [n] bytes, whichever
    comes first, and the rest of the [n] bytes is filled with NUL. The
    model holds finitely much of that memory; [reads_within] says that a
    copy ends inside what it holds, and past it the model reads NUL. *)
Fixpoint strncpy_bytes (src : bytes) (n : nat) {struct n} : bytes :=
  match n with
  | O => []
  | S n' =>
      match src with
      | c :: src' =>
          if c =? 0 then repeat 0 n else c :: strncpy_bytes src' n'
      | [] => repeat 0 n
      end
  end.

(** A copy of [n] bytes from [src] reads no further than [src] goes: it
    meets a NUL, or [n] bytes are there. *)
Definition reads_within (src : bytes) (n : nat) : Prop :=
  In 0 src \/ (n <= length src)%nat.

(** [strncpy(dst, src, n)]; writing past the destination is undefined in
    C and leaves the model's array as it is. *)
Definition strncpy (dst src : bytes) (n : nat) : bytes :=
  if (n <=? length dst)%nat
  then strncpy_bytes src n ++ skipn n dst
  else dst.

(** The C string held in an array: the bytes before the first NUL. *)
Fixpoint c_string (m : bytes) : bytes :=
  match m with
  | [] => []
  | c :: m' => if c =? 0 then [] else c :: c_string m'
  end.

End Mem.

(* ------------------------------------------------------------------ *)
(** ** The packet (ntp_client.c, lines 25-42)

    [ntp_packet_t] has four [uint8_t] fields and eleven [uint32_t] fields,
    48 bytes without padding. A packet is kept as its 48 bytes of memory
    and the fields are read at their offsets. *)

Module Packet.

Definition size : nat := 48.

Definition off_li_vn_mode : nat := 0.
Definition off_stratum : nat := 1.
Definition off_poll : nat := 2.
Definition off_precision : nat := 3.
Definition off_root_delay : nat := 4.
Definition off_root_dispersion : nat := 8.
Definition off_ref_id : nat := 12.
Definition off_ref_timestamp_sec : nat := 16.
Definition off_ref_timestamp_frac : nat := 20.
Definition off_orig_timestamp_sec : nat := 24.
Definition off_orig_timestamp_frac : nat := 28.
Definition off_recv_timestamp_sec : nat := 32.
Definition off_recv_timestamp_frac : nat := 36.
Definition off_tx_timestamp_sec : nat := 40.
Definition off_tx_timestamp_frac : nat := 44.

Definition li_vn_mode (p : Mem.bytes) : Z := Mem.load_u8 p off_li_vn_mode.
Definition stratum (p : Mem.bytes) : Z := Mem.load_u8 p off_stratum.
Definition recv_timestamp_sec (p : Mem.bytes) : Z :=
  Mem.load_u32 p off_recv_timestamp_sec.
Definition recv_timestamp_frac (p : Mem.bytes) : Z :=
  Mem.load_u32 p off_recv_timestamp_frac.
Definition tx_timestamp_sec (p : Mem.bytes) : Z :=
  Mem.load_u32 p off_tx_timestamp_sec.
Definition tx_timestamp_frac (p : Mem.bytes) : Z :=
  Mem.load_u32 p off_tx_timestamp_frac.

(** [p->field = ntohl(p->field)] for the field at [off]. *)
Definition ntohl_field (p : Mem.bytes) (off : nat) : Mem.bytes :=
  Mem.store_u32 p off (Mem.ntohl (Mem.load_u32 p off)).

(** Lines 222-225: the receive and transmit timestamps are brought to
    host byte order, in place. *)
Definition to_host_order (p : Mem.bytes) : Mem.bytes :=
  let p1 := ntohl_field p off_recv_timestamp_sec in
  let p2 := ntohl_field p1 off_recv_timestamp_frac in
  let p3 := ntohl_field p2 off_tx_timestamp_sec in
  ntohl_field p3 off_tx_timestamp_frac.

End Packet.

(* ------------------------------------------------------------------ *)
(** ** The environment of one exchange, and the trace of a call *)

(** What the system calls of one [send_ntp_request] return. *)
Record exchange_env : Type := {
  socket_ret : Z;                          (* socket(): negative on error *)
  setsockopt_ret : Z;                      (* setsockopt(): negative on error *)
  getaddrinfo_ret : Z;                     (* getaddrinfo(): zero on success *)
  inet_ntop_ok : bool;                     (* inet_ntop() did not return NULL *)
  inet_pton_ret : Z;                       (* inet_pton(): positive on success *)
  sendto_ret : Z;                          (* sendto(): negative on error *)
  select_ret : Z;                          (* select(): 0 on timeout, negative on error *)
  recvfrom_dgram : option Mem.bytes        (* recvfrom(): None when it returns -1,
                                              else the datagram that arrived *)
}.

(** The calls that take or release the state lock, touch the socket or the
    resolver, or put the thread to sleep. *)
Inductive event : Type :=
| EvLock
| EvUnlock
| EvSocket
| EvSetsockopt
| EvGetaddrinfo
| EvSendto
| EvSelect
| EvRecvfrom
| EvClose
| EvUsleep.

Definition trace := list event.

(** Network I/O: DNS resolution, the send, the timed wait and the
    receive. *)
Definition is_network_io (e : event) : bool :=
  match e with
  | EvGetaddrinfo | EvSendto | EvSelect | EvRecvfrom => true
  | _ => false
  end.

Definition is_exchange_start (e : event) : bool :=
  match e with EvSocket => true | _ => false end.

(** The number of calls of [send_ntp_request] in a trace: each call starts
    with its one call of socket(). *)
Definition exchange_count (tr : trace) : nat :=
  length (filter is_exchange_start tr).

(** Whether the lock is held after [tr], when it was [held] before. *)
Fixpoint lock_after (held : bool) (tr : trace) : bool :=
  match tr with
  | [] => held
  | EvLock :: tr' => lock_after true tr'
  | EvUnlock :: tr' => lock_after false tr'
  | _ :: tr' => lock_after held tr'
  end.

(** No network I/O happens while the lock is held. *)
Fixpoint io_outside_lock (held : bool) (tr : trace) : bool :=
  match tr with
  | [] => true
  | EvLock :: tr' => io_outside_lock true tr'
  | EvUnlock :: tr' => io_outside_lock false tr'
  | e :: tr' => negb (is_network_io e && held) && io_outside_lock held tr'
  end.

(** All network I/O happens while the lock is held. *)
Fixpoint io_inside_lock (held : bool) (tr : trace) : bool :=
  match tr with
  | [] => true
  | EvLock :: tr' => io_inside_lock true tr'
  | EvUnlock :: tr' => io_inside_lock false tr'
  | e :: tr' => (negb (is_network_io e) || held) && io_inside_lock held tr'
  end.

(** Every pause happens while the lock is released. *)
Fixpoint sleep_outside_lock (held : bool) (tr : trace) : bool :=
  match tr with
  | [] => true
  | EvLock :: tr' => sleep_outside_lock true tr'
  | EvUnlock :: tr' => sleep_outside_lock false tr'
  | EvUsleep :: tr' => negb held && sleep_outside_lock held tr'
  | _ :: tr' => sleep_outside_lock held tr'
  end.

(* ------------------------------------------------------------------ *)
(** ** The exchange (ntp_client.c, lines 114-229) *)

(** [resolve_hostname]: getaddrinfo, then inet_ntop on the first result. *)
Definition resolve_hostname (e : exchange_env) : bool :=
  if negb (getaddrinfo_ret e =? 0) then false
  else if negb (inet_ntop_ok e) then false
  else true.

(** [recvfrom(sockfd, response, sizeof(ntp_packet_t), ...)]: at most 48
    bytes of the datagram are stored at the start of [response]; the rest
    of [response] keeps what it held. *)
Definition recvfrom_into (response dgram : Mem.bytes) : Mem.bytes :=
  let got := firstn Packet.size dgram in
  got ++ skipn (length got) response.

(** [send_ntp_request]: the status, the memory of [*response] after the
    call, and the calls made. (The request packet that is sent has no part
    in what the function returns.) *)
Definition send_ntp_request (e : exchange_env) (response : Mem.bytes)
  : ntp_status_t * Mem.bytes * trace :=
  if socket_ret e <? 0 then
    (NTP_ERROR_NETWORK, response, [EvSocket])
  else if setsockopt_ret e <? 0 then
    (NTP_ERROR_NETWORK, response, [EvSocket; EvSetsockopt; EvClose])
  else if negb (resolve_hostname e) then
    (NTP_ERROR_NETWORK, response,
     [EvSocket; EvSetsockopt; EvGetaddrinfo; EvClose])
  else if inet_pton_ret e <=? 0 then
    (NTP_ERROR_NETWORK, response,
     [EvSocket; EvSetsockopt; EvGetaddrinfo; EvClose])
  else if sendto_ret e <? 0 then
    (NTP_ERROR_NETWORK, response,
     [EvSocket; EvSetsockopt; EvGetaddrinfo; EvSendto; EvClose])
  else if select_ret e <? 0 then
    (NTP_ERROR_NETWORK, response,
     [EvSocket; EvSetsockopt; EvGetaddrinfo; EvSendto; EvSelect; EvClose])
  else if select_ret e =? 0 then
    (NTP_ERROR_TIMEOUT, response,
     [EvSocket; EvSetsockopt; EvGetaddrinfo; EvSendto; EvSelect; EvClose])
  else
    match recvfrom_dgram e with
    | None =>
        (NTP_ERROR_NETWORK, response,
         [EvSocket; EvSetsockopt; EvGetaddrinfo; EvSendto; EvSelect;
          EvRecvfrom; EvClose])
    | Some dgram =>
        (NTP_OK, Packet.to_host_order (recvfrom_into response dgram),
         [EvSocket; EvSetsockopt; EvGetaddrinfo; EvSendto; EvSelect;
          EvRecvfrom; EvClose])
    end.

(** The status alone, and the response alone. *)
Definition exchange_status (e : exchange_env) : ntp_status_t :=
  fst (fst (send_ntp_request e [])).

Definition exchange_response (e : exchange_env) (response : Mem.bytes)
  : Mem.bytes :=
  snd (fst (send_ntp_request e response)).

(* ------------------------------------------------------------------ *)
(** ** Configuration and client state (ntp_client.h 11-17, ntp_client.c 44-62) *)

Record ntp_config_t : Type := {
  server_name : Mem.bytes;     (* char[256] *)
  server_port : Z;             (* uint16_t *)
  timeout_ms : Z;              (* uint32_t *)
  retry_count : Z;             (* uint32_t *)
  sync_interval : Z            (* uint32_t *)
}.

Definition SERVER_NAME_SIZE : nat := 256.

Record ntp_client_state_t : Type := {
  initialized : bool;
  ever_synced : bool;
  config : ntp_config_t;
  last_sync_time : Z;          (* time_t *)
  ntp_time : Z;                (* time_t *)
  time_offset : Z              (* int64_t *)
}.

Record timeval : Type := {
  tv_sec : Z;                  (* time_t *)
  tv_usec : Z                  (* suseconds_t, in [0, 999999] *)
}.

(** The static initialiser of [client_state]; the configuration is
    zero-filled. *)
Definition zero_config : ntp_config_t :=
  {| server_name := repeat 0 SERVER_NAME_SIZE;
     server_port := 0; timeout_ms := 0; retry_count := 0;
     sync_interval := 0 |}.

Definition client_state_init : ntp_client_state_t :=
  {| initialized := false; ever_synced := false; config := zero_config;
     last_sync_time := 0; ntp_time := 0; time_offset := 0 |}.

Definition well_formed_config (c : ntp_config_t) : Prop :=
  is_uint32 (retry_count c).

(* ------------------------------------------------------------------ *)
(** ** Lifecycle (ntp_client.c, lines 231-265) *)

(** [ntp_init]: [cfg] is [None] for a NULL pointer; [mutex_init_ret] is what
    pthread_mutex_init returns. *)
Definition ntp_init (cfg : option ntp_config_t) (mutex_init_ret : Z)
    (st : ntp_client_state_t) : ntp_status_t * ntp_client_state_t :=
  match cfg with
  | None => (NTP_ERROR_INVALID_PARAM, st)
  | Some c =>
      if negb (mutex_init_ret =? 0) then (NTP_ERROR_NETWORK, st)
      else
        (NTP_OK,
         {| initialized := true; ever_synced := false; config := c;
            last_sync_time := 0; ntp_time := 0; time_offset := 0 |})
  end.

Definition ntp_cleanup (st : ntp_client_state_t) : ntp_client_state_t :=
  {| initialized := false; ever_synced := ever_synced st;
     config := config st; last_sync_time := last_sync_time st;
     ntp_time := ntp_time st; time_offset := time_offset st |}.

(* ------------------------------------------------------------------ *)
(** ** Synchronisation (ntp_client.c, lines 267-335) *)

(** What surrounds one call of [ntp_sync]. *)
Record world : Type := {
  exchanges : Z -> exchange_env;   (* the environment of the exchange made
                                      when [attempts] has the given value *)
  stack_response : Mem.bytes;      (* what the local [response] holds on
                                      entry: it is not initialised *)
  sync_clock : timeval             (* gettimeofday() after validation *)
}.

(** The do-while loop of lines 282-298, entered with the lock held. Each
    turn makes one exchange; [fuel] bounds the number of further turns. *)
Fixpoint sync_loop (fuel : nat) (w : world) (cfg : ntp_config_t)
    (response : Mem.bytes) (attempts : Z)
  : option (ntp_status_t * Mem.bytes * Z * trace) :=
  let '(status, response', tr) :=
    send_ntp_request (exchanges w attempts) response in
  let attempts' := to_uint32 (attempts + 1) in
  if negb (status_eqb status NTP_OK) && (attempts' <? retry_count cfg) then
    match fuel with
    | O => None
    | S fuel' =>
        match sync_loop fuel' w cfg response' attempts' with
        | None => None
        | Some (status'', response'', attempts'', tr') =>
            Some (status'', response'', attempts'',
                  tr ++ [EvUnlock; EvUsleep; EvLock] ++ tr')
        end
    end
  else Some (status, response', attempts', tr).

(** The outcome of [ntp_sync]: the status returned, the client state
    afterwards, the final value of the local [attempts] and the calls
    made. *)
Record sync_result : Type := {
  sr_status : ntp_status_t;
  sr_state : ntp_client_state_t;
  sr_attempts : Z;
  sr_trace : trace
}.

(** The validation of lines 306-315. *)
Definition mode_bad (response : Mem.bytes) : bool :=
  negb (Z.land (Packet.li_vn_mode response) 7 =? 4)
  && negb (Z.land (Packet.li_vn_mode response) 7 =? 2).

Definition stratum_bad (response : Mem.bytes) : bool :=
  (Packet.stratum response =? 0)
  || (Packet.stratum response >=? NTP_STRATUM_MAX).

(** The state written at lines 317-330. *)
Definition commit (st : ntp_client_state_t) (response : Mem.bytes)
    (local_time : timeval) : ntp_client_state_t :=
  let server_time := ntp_time_to_unix_time (Packet.tx_timestamp_sec response) in
  let current_time := tv_sec local_time in
  {| initialized := initialized st;
     ever_synced := true;
     config := config st;
     last_sync_time := current_time;
     ntp_time := server_time;
     time_offset := to_int64 (server_time - current_time) |}.

Definition ntp_sync (w : world) (st : ntp_client_state_t)
  : option sync_result :=
  if negb (initialized st) then
    Some {| sr_status := NTP_ERROR_NOT_INIT; sr_state := st;
            sr_attempts := 0; sr_trace := [EvLock; EvUnlock] |}
  else
    match sync_loop (Z.to_nat (retry_count (config st))) w (config st)
                    (stack_response w) 0 with
    | None => None
    | Some (status, response, attempts, tr) =>
        if negb (status_eqb status NTP_OK) then
          Some {| sr_status := status; sr_state := st;
                  sr_attempts := attempts;
                  sr_trace := EvLock :: tr ++ [EvUnlock] |}
        else if mode_bad response then
          Some {| sr_status := NTP_ERROR_SERVER; sr_state := st;
                  sr_attempts := attempts;
                  sr_trace := EvLock :: tr ++ [EvUnlock] |}
        else if stratum_bad response then
          Some {| sr_status := NTP_ERROR_SERVER; sr_state := st;
                  sr_attempts := attempts;
                  sr_trace := EvLock :: tr ++ [EvUnlock] |}
        else
          Some {| sr_status := NTP_OK;
                  sr_state := commit st response (sync_clock w);
                  sr_attempts := attempts;
                  sr_trace := EvLock :: tr ++ [EvUnlock] |}
    end.

(* ------------------------------------------------------------------ *)
(** ** Queries (ntp_client.c, lines 337-435)

    Each query takes the reading [now] of gettimeofday() it makes. *)

Definition ntp_getCurrentTime (st : ntp_client_state_t) (now : timeval) : Z :=
  if negb (initialized st) || negb (ever_synced st) then 0
  else to_int64 (tv_sec now + time_offset st).

Definition ntp_getTimeSinceLastSync (st : ntp_client_state_t) (now : timeval)
  : Z :=
  if negb (initialized st) || negb (ever_synced st) then -1
  else to_int64 (tv_sec now - last_sync_time st).

Definition ntp_hasEverSynced (st : ntp_client_state_t) : bool :=
  initialized st && ever_synced st.

(** The memory of [client_state] from [config.server_name] on, which is
    what [strncpy] reads at line 397: the array, the two bytes of
    [server_port] that follow it in the struct (least significant first),
    and [past], the memory after them (padding, [timeout_ms] and so on). A
    name that fills its 256 bytes without a NUL is read on into the port. *)
Definition server_name_memory (st : ntp_client_state_t) (past : Mem.bytes)
  : Mem.bytes :=
  server_name (config st)
  ++ [ Z.land (server_port (config st)) 255;
       Z.land (Z.shiftr (server_port (config st)) 8) 255 ]
  ++ past.

(** [ntp_getServerName]: [buffer] is [None] for a NULL pointer, else the
    memory it points to; the result is the value returned and the memory
    afterwards. [buffer_size] is a [size_t]; [past] is the memory that
    follows [config.server_port]. *)
Definition ntp_getServerName (st : ntp_client_state_t) (past : Mem.bytes)
    (buffer : option Mem.bytes) (buffer_size : Z)
  : bool * option Mem.bytes :=
  match buffer with
  | None => (false, None)
  | Some b =>
      if buffer_size =? 0 then (false, Some b)
      else if negb (initialized st) || negb (ever_synced st) then
        (false, Some b)
      else
        let n := Z.to_nat (buffer_size - 1) in
        let b1 := Mem.strncpy b (server_name_memory st past) n in
        (true, Some (Mem.store_u8 b1 n 0))
  end.

(** [ntp_setServer]: [name] is [None] for a NULL pointer, else the memory
    from the pointer on. *)
Definition ntp_setServer (name : option Mem.bytes) (st : ntp_client_state_t)
  : ntp_status_t * ntp_client_state_t :=
  match name with
  | None => (NTP_ERROR_INVALID_PARAM, st)
  | Some src =>
      if negb (initialized st) then (NTP_ERROR_NOT_INIT, st)
      else
        let n := (SERVER_NAME_SIZE - 1)%nat in
        let s1 := Mem.strncpy (server_name (config st)) src n in
        let s2 := Mem.store_u8 s1 n 0 in
        (NTP_OK,
         {| initialized := initialized st; ever_synced := ever_synced st;
            config := {| server_name := s2;
                         server_port := server_port (config st);
                         timeout_ms := timeout_ms (config st);
                         retry_count := retry_count (config st);
                         sync_interval := sync_interval (config st) |};
            last_sync_time := last_sync_time st;
            ntp_time := ntp_time st;
            time_offset := time_offset st |})
  end.

(* ------------------------------------------------------------------ *)
(** ** Sub-second queries (ntp_client.c, lines 437-479) *)

Module Double.

(** [(double)z] for a 64-bit integer: rounded to nearest. *)
Definition of_long (z : Z) : float :=
  if z =? INT64_MIN then (-0x1p+63)%float
  else if z <? 0 then PrimFloat.opp (PrimFloat.of_uint63 (Uint63.of_Z (- z)))
  else PrimFloat.of_uint63 (Uint63.of_Z z).

(** The integer part of a finite double, rounded toward zero. *)
Definition truncate (f : float) : option Z :=
  match Prim2SF f with
  | S754_zero _ => Some 0
  | S754_finite s m e =>
      let a := if 0 <=? e then Z.pos m * 2 ^ e else Z.pos m / 2 ^ (- e) in
      Some (if s then - a else a)
  | _ => None
  end.

(** [(long)f]; out of range (undefined in C) the x86-64 conversion
    yields the smallest integer. *)
Definition to_long (f : float) : Z :=
  match truncate f with
  | Some z => if (INT64_MIN <=? z) && (z <=? INT64_MAX) then z else INT64_MIN
  | None => INT64_MIN
  end.

(** [(int)f], likewise. *)
Definition to_int (f : float) : Z :=
  match truncate f with
  | Some z => if (INT32_MIN <=? z) && (z <=? INT32_MAX) then z else INT32_MIN
  | None => INT32_MIN
  end.

End Double.

Definition ntp_getCurrentTimeWithMicros (st : ntp_client_state_t)
    (now : timeval) : float :=
  if negb (initialized st) || negb (ever_synced st) then 0%float
  else
    let adjusted_time :=
      PrimFloat.add (Double.of_long (tv_sec now))
                    (PrimFloat.div (Double.of_long (tv_usec now))
                                   1000000%float) in
    PrimFloat.add adjusted_time (Double.of_long (time_offset st)).

Definition ntp_getCurrentHundredths (st : ntp_client_state_t) (now : timeval)
  : Z :=
  let time_with_micros := ntp_getCurrentTimeWithMicros st now in
  if PrimFloat.eqb time_with_micros 0%float then 0
  else
    let fractional_part :=
      PrimFloat.sub time_with_micros
                    (Double.of_long (Double.to_long time_with_micros)) in
    Z.rem (Double.to_int (PrimFloat.mul fractional_part 100%float)) 100.

(* ------------------------------------------------------------------ *)
(** ** Vocabulary of the statements *)

(** The calls one exchange makes. *)
Definition exchange_trace (e : exchange_env) : trace :=
  snd (send_ntp_request e []).

(** The exchanges made for the values [a], ..., [b - 1] of [attempts] all
    fail. *)
Definition all_fail (w : world) (a b : Z) : Prop :=
  forall i, a <= i < b -> exchange_status (exchanges w i) <> NTP_OK.

(** The response held after the exchange number [k] succeeded: the earlier,
    failed exchanges leave [response] as it was on entry. *)
Definition response_at (w : world) (k : Z) : Mem.bytes :=
  exchange_response (exchanges w k) (stack_response w).

(** Bytes are bytes: what the stack holds and what the network delivers. *)
Definition well_formed_world (w : world) : Prop :=
  Mem.is_bytes (stack_response w) /\
  forall i d, recvfrom_dgram (exchanges w i) = Some d -> Mem.is_bytes d.

(** What the loop guarantees, from the value [a] of [attempts] and the
    content [r] of [response] on entry. *)
Definition loop_post (w : world) (cfg : ntp_config_t) (r : Mem.bytes) (a : Z)
    (res : ntp_status_t * Mem.bytes * Z * trace) : Prop :=
  let '(status, r', a', tr) := res in
  a < a' /\
  (a' <= retry_count cfg \/ a' = a + 1) /\
  all_fail w a (a' - 1) /\
  status = exchange_status (exchanges w (a' - 1)) /\
  r' = (if status_eqb status NTP_OK
        then exchange_response (exchanges w (a' - 1)) r else r) /\
  (status = NTP_OK \/ retry_count cfg <= a') /\
  Z.of_nat (exchange_count tr) = a' - a /\
  io_inside_lock true tr = true /\
  sleep_outside_lock true tr = true /\
  lock_after true tr = true.

(* ------------------------------------------------------------------ *)
(** ** Concrete environments *)

Module Scenario.

(** The four bytes of a 32-bit value in network order. *)
Definition be_bytes (v : Z) : Mem.bytes :=
  [ Z.land (Z.shiftr v 24) 255; Z.land (Z.shiftr v 16) 255;
    Z.land (Z.shiftr v 8) 255; Z.land v 255 ].

(** A server reply on the wire: LI 0, version 4, mode 4; the given
    stratum and transmit seconds; every other field zero. *)
Definition reply (stratum tx_seconds : Z) : Mem.bytes :=
  [36; stratum; 0; 0] ++ repeat 0 36 ++ be_bytes tx_seconds ++ repeat 0 4.

(** Every call succeeds and the datagram [d] arrives. *)
Definition env_reply (d : Mem.bytes) : exchange_env :=
  {| socket_ret := 3; setsockopt_ret := 0; getaddrinfo_ret := 0;
     inet_ntop_ok := true; inet_pton_ret := 1; sendto_ret := 48;
     select_ret := 1; recvfrom_dgram := Some d |}.

(** No datagram arrives within the timeout. *)
Definition env_timeout : exchange_env :=
  {| socket_ret := 3; setsockopt_ret := 0; getaddrinfo_ret := 0;
     inet_ntop_ok := true; inet_pton_ret := 1; sendto_ret := 48;
     select_ret := 0; recvfrom_dgram := None |}.

(** The name does not resolve: getaddrinfo returns EAI_NONAME. *)
Definition env_dns_failure : exchange_env :=
  {| socket_ret := 3; setsockopt_ret := 0; getaddrinfo_ret := -2;
     inet_ntop_ok := false; inet_pton_ret := 0; sendto_ret := -1;
     select_ret := -1; recvfrom_dgram := None |}.

(** "test.local", NUL-padded to 256 bytes. *)
Definition test_local : Mem.bytes :=
  [116; 101; 115; 116; 46; 108; 111; 99; 97; 108] ++ repeat 0 246.

Definition test_config (retries : Z) : ntp_config_t :=
  {| server_name := test_local; server_port := 123; timeout_ms := 5000;
     retry_count := retries; sync_interval := 7200 |}.

(** The state after [ntp_init] with [test_config]. *)
Definition initial (retries : Z) : ntp_client_state_t :=
  snd (ntp_init (Some (test_config retries)) 0 client_state_init).

(** Uninitialised stack memory: some 48 bytes. *)
Definition stale_stack : Mem.bytes := repeat 170 48.

Definition clock_at (sec usec : Z) : timeval :=
  {| tv_sec := sec; tv_usec := usec |}.

(** The server answers at once with transmit time Unix 1700000000 while
    the local clock reads 1699999995. *)
Definition world_ok : world :=
  {| exchanges := fun _ => env_reply (reply 2 (1700000000 + 2208988800));
     stack_response := stale_stack;
     sync_clock := clock_at 1699999995 0 |}.

(** Two timeouts, then the same answer. *)
Definition world_fail_twice : world :=
  {| exchanges := fun i =>
       if i <? 2 then env_timeout
       else env_reply (reply 2 (1700000000 + 2208988800));
     stack_response := stale_stack;
     sync_clock := clock_at 1699999995 0 |}.

(** The server answers with stratum 0. *)
Definition world_stratum_0 : world :=
  {| exchanges := fun _ => env_reply (reply 0 (1700000000 + 2208988800));
     stack_response := stale_stack;
     sync_clock := clock_at 1699999995 0 |}.

(** The name never resolves. *)
Definition world_dns_failure : world :=
  {| exchanges := fun _ => env_dns_failure;
     stack_response := stale_stack;
     sync_clock := clock_at 1699999995 0 |}.

(** A datagram of two bytes arrives: mode 4, stratum 1, nothing else;
    [stack] is what the stack held. *)
Definition short_datagram : Mem.bytes := [36; 1].

Definition world_short_datagram (stack : Mem.bytes) : world :=
  {| exchanges := fun _ => env_reply short_datagram;
     stack_response := stack;
     sync_clock := clock_at 1699999995 0 |}.

(** The server's transmit timestamp is second 0 of the NTP era (as a
    server does just after the era rolls over in 2036). *)
Definition world_era_start : world :=
  {| exchanges := fun _ => env_reply (reply 1 0);
     stack_response := stale_stack;
     sync_clock := clock_at 1699999995 0 |}.

(** The state [ntp_sync] leaves (the state it was given, should the
    loop of the model run out of fuel, which [ntp_sync_total] excludes). *)
Definition state_after (w : world) (st : ntp_client_state_t)
  : ntp_client_state_t :=
  match ntp_sync w st with
  | Some r => sr_state r
  | None => st
  end.

(** A client that synced and was then cleaned up. *)
Definition cleaned_up : ntp_client_state_t :=
  ntp_cleanup (state_after world_ok (initial 3)).

End Scenario.

(* ------------------------------------------------------------------ *)
(** ** The request packet (ntp_client.c, lines 78-104) *)

(** [(uint32_t)f] for a double: the integer part, reduced to 32 bits. (Out
    of range the conversion is undefined in C; x86-64 compilers convert to
    64 bits and keep the low half.) *)
Definition uint32_of_double (f : float) : Z := to_uint32 (Double.to_long f).

(** The constant 4294.967296 of line 85, as a double: the nearest one. *)
Definition FRACTION_SCALE : float := 0x1.0c6f7a0b5ed8dp+12%float.

(** [get_fraction_time]: [tv] is the reading of gettimeofday() it makes. *)
Definition get_fraction_time (tv : timeval) : Z :=
  uint32_of_double
    (PrimFloat.mul (Double.of_long (tv_usec tv)) FRACTION_SCALE).

(** [htonl] on a little-endian host: the four bytes are swapped. *)
Definition htonl (x : Z) : Z :=
  Z.lor (Z.lor (Z.shiftl (Z.land x 255) 24)
               (Z.shiftl (Z.land (Z.shiftr x 8) 255) 16))
        (Z.lor (Z.shiftl (Z.land (Z.shiftr x 16) 255) 8)
               (Z.land (Z.shiftr x 24) 255)).

(** [create_ntp_packet]: the memory of [*packet] afterwards. [tv] is the
    clock reading of line 101 and [tv_fraction] the one made inside
    [get_fraction_time]. *)
Definition create_ntp_packet (tv tv_fraction : timeval) : Mem.bytes :=
  let p0 := repeat 0 Packet.size in
  let p1 :=
    Mem.store_u8 p0 Packet.off_li_vn_mode
      (Z.lor (Z.lor (Z.shiftl 0 6) (Z.shiftl NTP_VERSION 3)) NTP_MODE_CLIENT) in
  let p2 :=
    Mem.store_u32 p1 Packet.off_tx_timestamp_sec
      (htonl (unix_time_to_ntp_time (tv_sec tv))) in
  Mem.store_u32 p2 Packet.off_tx_timestamp_frac
    (htonl (get_fraction_time tv_fraction)).

(** The socket timeout of lines 166-168, from the [uint32_t] number of
    milliseconds. *)
Definition socket_timeout (timeout_ms : Z) : timeval :=
  {| tv_sec := timeout_ms / 1000;
     tv_usec := to_uint32 ((timeout_ms mod 1000) * 1000) |}.

(** The calls of usleep() and of close() in a trace. *)
Definition is_usleep (e : event) : bool :=
  match e with EvUsleep => true | _ => false end.

Definition is_close (e : event) : bool :=
  match e with EvClose => true | _ => false end.

Definition usleep_count (tr : trace) : nat := length (filter is_usleep tr).

Definition close_count (tr : trace) : nat := length (filter is_close tr).

(* ------------------------------------------------------------------ *)
(** ** The display (clock_display.c)

    The display computes positions and texts and prints them. The model
    keeps what is computed: the numbers, and the texts as bytes. *)

Module Display.

(** A string literal as its bytes (UTF-8, without the final NUL). *)
Definition bytes_of_string (s : String.string) : Mem.bytes :=
  map (fun c => Z.of_N (Ascii.N_of_ascii c)) (String.list_ascii_of_string s).

(** ESC, the first byte of the ANSI sequences. *)
Definition ESC : Z := 27.

(** Conversion of an [int64_t] to [int]: the low 32 bits, signed. *)
Definition to_int (z : Z) : Z := (z + 2 ^ 31) mod 2 ^ 32 - 2 ^ 31.

Definition INT_MAX : Z := 2 ^ 31 - 1.

(** printf's [%d]: the decimal digits, most significant first, after a
    minus sign for a negative number. [fuel] bounds the number of digits. *)
Fixpoint digits (fuel : nat) (z : Z) (acc : Mem.bytes) : Mem.bytes :=
  match fuel with
  | O => acc
  | S fuel' =>
      let acc' := (48 + z mod 10) :: acc in
      if z <? 10 then acc' else digits fuel' (z / 10) acc'
  end.

Definition format_d (z : Z) : Mem.bytes :=
  if z <? 0 then 45 :: digits 20 (- z) [] else digits 20 z [].

(** printf's [%02d]: a number of one digit gets a leading zero. *)
Definition format_02d (z : Z) : Mem.bytes :=
  if (0 <=? z) && (z <? 10) then 48 :: format_d z else format_d z.

(** [snprintf(dst, size, ...)]: at most [size - 1] bytes of the text are
    kept. *)
Definition snprintf (size : nat) (text : Mem.bytes) : Mem.bytes :=
  firstn (size - 1) text.

(** [strcpy(dst, src)] for a literal [src]: the text, a NUL, and the rest of
    [dst] as it was. *)
Definition strcpy (dst text : Mem.bytes) : Mem.bytes :=
  text ++ 0 :: skipn (S (length text)) dst.

(** *** The sync policy of [main] (lines 1066-1076) *)

(** [int time_since_sync = ntp_getTimeSinceLastSync();] *)
Definition time_since_sync (st : ntp_client_state_t) (now : timeval) : Z :=
  to_int (ntp_getTimeSinceLastSync st now).

(** The test of line 1071. *)
Definition sync_due (time_since_sync : Z) : bool :=
  (time_since_sync >=? 7200) || (time_since_sync <? 0).

(** *** [sync_with_ntp] (lines 955-977)

    [stack] is what the local [server_name_buffer] holds on entry and
    [past] the memory that follows [config.server_port]. The result is the
    value returned, the client state afterwards and the two texts
    printed. *)
Definition sync_with_ntp (w : world) (stack past : Mem.bytes)
    (st : ntp_client_state_t)
  : option (Z * ntp_client_state_t * list Mem.bytes) :=
  let server_name_buffer :=
    match ntp_getServerName st past (Some stack) 256 with
    | (true, Some b) => b
    | _ => strcpy stack (bytes_of_string "Not connected."%string)
    end in
  let announce :=
    bytes_of_string "Syncing with NTP server: "%string
    ++ Mem.c_string server_name_buffer in
  match ntp_sync w st with
  | None => None
  | Some r =>
      let result := status_code (sr_status r) in
      if result =? 0 then
        Some (1, sr_state r,
              [announce; bytes_of_string "Sync successful."%string ++ [10]])
      else
        Some (0, sr_state r,
              [announce;
               bytes_of_string "Sync failed with error code: "%string
               ++ format_d result])
  end.

(** *** The times of the status bar ([direct_draw_status_bar], lines
    719-748); [/] and [%] of C round toward zero. *)

Definition hours_since (time_since_sync : Z) : Z :=
  Z.quot time_since_sync 3600.

Definition mins_since (time_since_sync : Z) : Z :=
  Z.quot (Z.rem time_since_sync 3600) 60.

Definition secs_since (time_since_sync : Z) : Z :=
  Z.rem time_since_sync 60.

(** The text "H:MM:SS" of [snprintf(.., "%d:%02d:%02d", ..)] into a buffer
    of 20 bytes. *)
Definition format_hms (h m s : Z) : Mem.bytes :=
  snprintf 20 (format_d h ++ [58] ++ format_02d m ++ [58] ++ format_02d s).

Definition time_since_str (time_since_sync : Z) : Mem.bytes :=
  if time_since_sync <? 0 then bytes_of_string "Never"%string
  else format_hms (hours_since time_since_sync) (mins_since time_since_sync)
                  (secs_since time_since_sync).

Definition seconds_to_next_sync (time_since_sync : Z) : Z :=
  let seconds_to_next_sync := 7200 - Z.rem time_since_sync 7200 in
  if time_since_sync <? 0 then 7200 else seconds_to_next_sync.

Definition time_until_str (time_since_sync : Z) : Mem.bytes :=
  let s := seconds_to_next_sync time_since_sync in
  format_hms (Z.quot s 3600) (Z.quot (Z.rem s 3600) 60) (Z.rem s 60).

(** *** The hundredths ([draw_hundredths], lines 299-331, and
    [update_hundredths], lines 97-122) *)

(** What the calls of strcat leave in the zeroed [hundredths_buffer]. *)
Definition hundredths_buffer (hundredths : Z) : Mem.bytes :=
  (ESC :: bytes_of_string "[90m"%string)
  ++ bytes_of_string "."%string
  ++ (ESC :: bytes_of_string "[0m"%string)
  ++ (ESC :: bytes_of_string "[91m"%string)
  ++ snprintf 16 (format_d hundredths)
  ++ (ESC :: bytes_of_string "[0m"%string)
  ++ (ESC :: bytes_of_string "[97m"%string)
  ++ bytes_of_string " UTC"%string
  ++ (ESC :: bytes_of_string "[0m"%string).

Definition HUNDREDTHS_BUFFER_SIZE : Z := 40.

(** The value [draw_full_clock] and [direct_draw_status_bar] show: lines
    341 and 702, [ntp_getCurrentHundredths() / 10]. *)
Definition displayed_tenths (st : ntp_client_state_t) (now : timeval) : Z :=
  Z.quot (ntp_getCurrentHundredths st now) 10.

(** *** The place of the clock ([draw_full_clock], lines 336-366) *)

Definition clock_display_width : Z := 6 * 6 + 2 * 2 + 7.

Definition hundredths_display_width : Z := 6.

Definition total_display_width : Z :=
  clock_display_width + 3 + hundredths_display_width.

Definition start_row (term_height : Z) : Z :=
  let start_row := Z.quot (term_height - 5) 2 - 2 in
  if start_row <? 1 then 1 else start_row.

Definition start_col (term_width : Z) : Z :=
  let start_col := Z.quot (term_width - total_display_width) 2 in
  if start_col <? 1 then 1 else start_col.

Definition hundredths_col (term_width : Z) : Z :=
  start_col term_width + clock_display_width + 1.

(** [draw_centered_string] (lines 287-293): the column passed to
    [direct_print], for a string of [len] bytes. *)
Definition centered_col (term_width len : Z) : Z :=
  let pos_x := Z.quot (term_width - len) 2 in
  let pos_x := if pos_x <? 0 then 0 else pos_x in
  pos_x + 1.

End Display.

(* ------------------------------------------------------------------ *)
(** ** The digits of the clock (clock_display.c, lines 164-245 and 369-416) *)

Module ClockArt.

Local Open Scope string_scope.

Definition DIGIT_ART : list (list String.string) :=
  [ [ " ████ "; "██  ██"; "██  ██"; "██  ██"; " ████ " ];
    [ "  ██  "; " ███  "; "  ██  "; "  ██  "; " ████ " ];
    [ " ████ "; "    ██"; " ████ "; "██    "; "██████" ];
    [ " ████ "; "    ██"; " ████ "; "    ██"; " ████ " ];
    [ "██  ██"; "██  ██"; "██████"; "    ██"; "    ██" ];
    [ "██████"; "██    "; "██████"; "    ██"; "██████" ];
    [ " ████ "; "██    "; "██████"; "██  ██"; " ████ " ];
    [ "██████"; "    ██"; "   ██ "; "  ██  "; " ██   " ];
    [ " ████ "; "██  ██"; " ████ "; "██  ██"; " ████ " ];
    [ " ████ "; "██  ██"; " █████"; "    ██"; " ████ " ] ].

Definition COLON_ART : list String.string :=
  [ "  "; "██"; "  "; "██"; "  " ].

Local Close Scope string_scope.

(** [DIGIT_ART[digit][line]] and [COLON_ART[line]], as bytes. (An index
    outside the table is undefined in C; the model gives the empty
    string.) *)
Definition digit_art (digit line : Z) : Mem.bytes :=
  Display.bytes_of_string
    (nth (Z.to_nat line) (nth (Z.to_nat digit) DIGIT_ART []) ""%string).

Definition colon_art (line : Z) : Mem.bytes :=
  Display.bytes_of_string (nth (Z.to_nat line) COLON_ART ""%string).

(** The colour codes: bright red, dark gray, reset. *)
Definition RED : Mem.bytes := Display.ESC :: Display.bytes_of_string "[91m"%string.
Definition GRAY : Mem.bytes := Display.ESC :: Display.bytes_of_string "[90m"%string.
Definition RESET : Mem.bytes := Display.ESC :: Display.bytes_of_string "[0m"%string.
Definition RESET_SPACE : Mem.bytes :=
  Display.ESC :: Display.bytes_of_string "[0m "%string.

(** Three calls of strcat: a colour, a glyph, the reset. *)
Definition glyph (color art reset : Mem.bytes) : Mem.bytes :=
  color ++ art ++ reset.

(** What the calls of strcat of lines 374-412 leave in the zeroed [buffer]
    for one line of the clock, from the fields of [struct tm]. *)
Definition clock_row (tm_hour tm_min tm_sec line : Z) : Mem.bytes :=
  glyph RED (digit_art (Z.quot tm_hour 10) line) RESET_SPACE
  ++ glyph RED (digit_art (Z.rem tm_hour 10) line) RESET_SPACE
  ++ glyph GRAY (colon_art line) RESET_SPACE
  ++ glyph RED (digit_art (Z.quot tm_min 10) line) RESET_SPACE
  ++ glyph RED (digit_art (Z.rem tm_min 10) line) RESET_SPACE
  ++ glyph GRAY (colon_art line) RESET_SPACE
  ++ glyph RED (digit_art (Z.quot tm_sec 10) line) RESET_SPACE
  ++ glyph RED (digit_art (Z.rem tm_sec 10) line) RESET.

Definition BUFFER_SIZE : Z := 512.

(** Whether a text that starts inside ([true]) or outside ([false]) an ANSI
    sequence ends inside one: ESC starts a sequence and a byte from '@' to
    '~' other than '[' ends it. *)
Fixpoint escape_after (in_escape : bool) (text : Mem.bytes) : bool :=
  match text with
  | [] => in_escape
  | b :: text' =>
      if in_escape then
        escape_after (negb ((64 <=? b) && (b <=? 126) && negb (b =? 91))) text'
      else escape_after (b =? Display.ESC) text'
  end.

(** The columns a text takes on the terminal: its UTF-8 characters (the
    bytes that are not continuation bytes) outside ANSI sequences. *)
Fixpoint columns_from (in_escape : bool) (text : Mem.bytes) : nat :=
  match text with
  | [] => O
  | b :: text' =>
      if in_escape then
        columns_from (negb ((64 <=? b) && (b <=? 126) && negb (b =? 91))) text'
      else if b =? Display.ESC then columns_from true text'
      else if Z.land b 192 =? 128 then columns_from false text'
      else S (columns_from false text')
  end.

Definition columns (text : Mem.bytes) : nat := columns_from false text.

(** A glyph as the table has them: outside any ANSI sequence at its end,
    [width] columns wide, at most three bytes for each column. *)
Definition glyph_ok (width : nat) (art : Mem.bytes) : bool :=
  negb (escape_after false art)
  && (columns art =? width)%nat
  && (length art <=? 3 * width)%nat.

End ClockArt.

(* ------------------------------------------------------------------ *)
(** ** More concrete environments *)

Module Cases.

(** The request made at local time 1699999995.250000. *)
Definition request : Mem.bytes :=
  create_ntp_packet (Scenario.clock_at 1699999995 250000)
                    (Scenario.clock_at 1699999995 250001).

(** The request comes back as it was sent. *)
Definition world_echo : world :=
  {| exchanges := fun _ => Scenario.env_reply request;
     stack_response := Scenario.stale_stack;
     sync_clock := Scenario.clock_at 1699999995 300000 |}.

(** The client after a first successful sync. *)
Definition synced : ntp_client_state_t :=
  Scenario.state_after Scenario.world_ok (Scenario.initial 3).

(** A client initialised with a name that fills the array, 256 times 'a'
    and no NUL, and then synced. *)
Definition unterminated_config : ntp_config_t :=
  {| server_name := repeat 97 256; server_port := 123; timeout_ms := 5000;
     retry_count := 3; sync_interval := 7200 |}.

Definition unterminated : ntp_client_state_t :=
  Scenario.state_after Scenario.world_ok
    (snd (ntp_init (Some unterminated_config) 0 client_state_init)).

(** "time.example.org", as a C string. *)
Definition other_server : Mem.bytes :=
  Display.bytes_of_string "time.example.org"%string ++ [0].

End Cases.

(* ------------------------------------------------------------------ *)
(** * Properties *)

(** ** Machine integers and the epoch conversions *)

Lemma to_int64_id (z : Z) : is_int64 z -> to_int64 z = z.
Proof.
  unfold is_int64, to_int64, INT64_MIN, INT64_MAX, UINT64_MOD.
  intros H. rewrite Z.mod_small; lia.
Qed.

Lemma to_int64_range (z : Z) : is_int64 (to_int64 z).
Proof.
  unfold is_int64, to_int64, INT64_MIN, INT64_MAX, UINT64_MOD.
  pose proof (Z.mod_pos_bound (z + 2 ^ 63) (2 ^ 64) ltac:(lia)). lia.
Qed.

Lemma to_uint32_id (z : Z) : is_uint32 z -> to_uint32 z = z.
Proof.
  unfold is_uint32, to_uint32, UINT32_MOD. intros H.
  apply Z.mod_small; lia.
Qed.

(** On every 32-bit timestamp the conversion is the subtraction of the
    epoch difference, without wrap-around. *)
Lemma ntp_time_to_unix_time_exact (s : Z) :
  is_uint32 s -> ntp_time_to_unix_time s = s - NTP_TIMESTAMP_DELTA.
Proof.
  unfold is_uint32, UINT32_MOD, ntp_time_to_unix_time, to_int64, to_uint64,
    UINT64_MOD, NTP_TIMESTAMP_DELTA.
  intros H.
  rewrite Z.add_mod_idemp_l by lia.
  rewrite Z.mod_small; lia.
Qed.

(** The other conversion keeps the low 32 bits of the sum. *)
Lemma unix_time_to_ntp_time_mod (t : Z) :
  unix_time_to_ntp_time t = (t + NTP_TIMESTAMP_DELTA) mod 2 ^ 32.
Proof.
  unfold unix_time_to_ntp_time, to_uint32, to_uint64, UINT32_MOD, UINT64_MOD.
  rewrite Z.add_mod_idemp_l by lia.
  apply Z.mod_mod_divide. exists (2 ^ 32). reflexivity.
Qed.

Lemma unix_time_to_ntp_time_range (t : Z) :
  is_uint32 (unix_time_to_ntp_time t).
Proof.
  rewrite unix_time_to_ntp_time_mod. unfold is_uint32, UINT32_MOD.
  apply Z.mod_pos_bound. lia.
Qed.

(** C4, as stated, fails: the first second after the 32-bit NTP seconds
    run out (7 February 2036) is a Unix time a [time_t] holds, its NTP
    timestamp is truncated to 0, and the way back gives a day in 1900. *)
Lemma roundtrip_breaks_at_era_end :
  is_int64 2085978496 /\
  unix_time_to_ntp_time 2085978496 = 0 /\
  unix_time_to_ntp_time 2085978496 <> spec_unix_to_ntp 2085978496 /\
  ntp_time_to_unix_time (unix_time_to_ntp_time 2085978496) = -2208988800 /\
  ntp_time_to_unix_time (unix_time_to_ntp_time 2085978496) <> 2085978496.
Proof.
  repeat split; try (vm_compute; congruence).
Qed.

(** C4, amended: for every Unix time whose NTP timestamp fits the 32-bit
    seconds field, that is from -2208988800 to 2085978495, both conversions
    are the exact addition and subtraction of 2208988800 and the round trip
    gives the time back. [unix_time_to_ntp_time] returns a 32-bit value: for
    every other time it is the sum reduced modulo 2^32, which is not the
    sum, and the round trip does not give the time back (it gives a time of
    the range). So the round trip gives [t] back exactly on that range. *)
Theorem ntp_unix_roundtrip (t : Z) :
  (- 2208988800 <= t <= 2085978495 ->
   unix_time_to_ntp_time t = spec_unix_to_ntp t /\
   ntp_time_to_unix_time (unix_time_to_ntp_time t)
   = spec_ntp_to_unix (spec_unix_to_ntp t) /\
   ntp_time_to_unix_time (unix_time_to_ntp_time t) = t) /\
  (~ (- 2208988800 <= t <= 2085978495) ->
   unix_time_to_ntp_time t = (spec_unix_to_ntp t) mod 2 ^ 32 /\
   unix_time_to_ntp_time t <> spec_unix_to_ntp t /\
   ntp_time_to_unix_time (unix_time_to_ntp_time t) <> t) /\
  is_uint32 (unix_time_to_ntp_time t) /\
  - 2208988800 <= ntp_time_to_unix_time (unix_time_to_ntp_time t)
  <= 2085978495 /\
  (ntp_time_to_unix_time (unix_time_to_ntp_time t) = t
   <-> - 2208988800 <= t <= 2085978495).
Proof.
  pose proof (unix_time_to_ntp_time_range t) as Hr.
  pose proof (ntp_time_to_unix_time_exact _ Hr) as Hback.
  pose proof (unix_time_to_ntp_time_mod t) as Hmod.
  assert (Hin : - 2208988800 <= t <= 2085978495 ->
                unix_time_to_ntp_time t = t + 2208988800).
  { intros Ht. rewrite Hmod. unfold NTP_TIMESTAMP_DELTA.
    apply Z.mod_small. lia. }
  assert (Hrange : - 2208988800
                   <= ntp_time_to_unix_time (unix_time_to_ntp_time t)
                   <= 2085978495).
  { rewrite Hback. unfold is_uint32, UINT32_MOD, NTP_TIMESTAMP_DELTA in *.
    change (2 ^ 32) with 4294967296 in Hr. lia. }
  unfold spec_unix_to_ntp, spec_ntp_to_unix.
  split.
  { intros Ht. specialize (Hin Ht).
    split; [assumption|].
    rewrite Hback, Hin. unfold NTP_TIMESTAMP_DELTA. split; lia. }
  split.
  { intros Ht. split; [exact Hmod|].
    split; [|lia].
    unfold is_uint32, UINT32_MOD in Hr.
    change (2 ^ 32) with 4294967296 in Hr. lia. }
  split; [assumption|]. split; [assumption|].
  split; [lia|].
  intros Ht. rewrite Hback, (Hin Ht). unfold NTP_TIMESTAMP_DELTA. lia.
Qed.

Lemma ntp_unix_roundtrip_witness :
  (unix_time_to_ntp_time 1700000000 = spec_unix_to_ntp 1700000000 /\
   ntp_time_to_unix_time (unix_time_to_ntp_time 1700000000)
   = spec_ntp_to_unix (spec_unix_to_ntp 1700000000) /\
   ntp_time_to_unix_time (unix_time_to_ntp_time 1700000000) = 1700000000) /\
  (unix_time_to_ntp_time 4000000000 = (spec_unix_to_ntp 4000000000) mod 2 ^ 32 /\
   unix_time_to_ntp_time 4000000000 <> spec_unix_to_ntp 4000000000 /\
   ntp_time_to_unix_time (unix_time_to_ntp_time 4000000000) <> 4000000000) /\
  (unix_time_to_ntp_time (-2208988801)
   = (spec_unix_to_ntp (-2208988801)) mod 2 ^ 32 /\
   unix_time_to_ntp_time (-2208988801) <> spec_unix_to_ntp (-2208988801) /\
   ntp_time_to_unix_time (unix_time_to_ntp_time (-2208988801))
   <> -2208988801).
Proof.
  split; [apply (proj1 (ntp_unix_roundtrip 1700000000)); lia|].
  split.
  - apply (proj1 (proj2 (ntp_unix_roundtrip 4000000000))). lia.
  - apply (proj1 (proj2 (ntp_unix_roundtrip (-2208988801)))). lia.
Defined.

(* ------------------------------------------------------------------ *)
(** ** Traces *)

Lemma lock_after_app (tr1 tr2 : trace) (held : bool) :
  lock_after held (tr1 ++ tr2) = lock_after (lock_after held tr1) tr2.
Proof.
  revert held. induction tr1 as [|e tr1 IH]; intros held; [reflexivity|].
  destruct e; simpl; apply IH.
Qed.

Lemma io_inside_lock_app (tr1 tr2 : trace) (held : bool) :
  io_inside_lock held (tr1 ++ tr2)
  = io_inside_lock held tr1 && io_inside_lock (lock_after held tr1) tr2.
Proof.
  revert held. induction tr1 as [|e tr1 IH]; intros held; [reflexivity|].
  destruct e; simpl; rewrite ?IH, ?andb_assoc; reflexivity.
Qed.

Lemma io_outside_lock_app (tr1 tr2 : trace) (held : bool) :
  io_outside_lock held (tr1 ++ tr2)
  = io_outside_lock held tr1 && io_outside_lock (lock_after held tr1) tr2.
Proof.
  revert held. induction tr1 as [|e tr1 IH]; intros held; [reflexivity|].
  destruct e; simpl; rewrite ?IH, ?andb_assoc; reflexivity.
Qed.

Lemma sleep_outside_lock_app (tr1 tr2 : trace) (held : bool) :
  sleep_outside_lock held (tr1 ++ tr2)
  = sleep_outside_lock held tr1
    && sleep_outside_lock (lock_after held tr1) tr2.
Proof.
  revert held. induction tr1 as [|e tr1 IH]; intros held; [reflexivity|].
  destruct e; simpl; rewrite ?IH, ?andb_assoc; reflexivity.
Qed.

Lemma exchange_count_app (tr1 tr2 : trace) :
  exchange_count (tr1 ++ tr2) = (exchange_count tr1 + exchange_count tr2)%nat.
Proof.
  unfold exchange_count. rewrite filter_app. apply length_app.
Qed.


(* ------------------------------------------------------------------ *)
(** ** One exchange *)

(** Case analysis along the early returns of [send_ntp_request]. *)
Ltac exchange_cases e :=
  destruct (socket_ret e <? 0); [reflexivity|];
  destruct (setsockopt_ret e <? 0); [reflexivity|];
  destruct (resolve_hostname e); [|reflexivity];
  cbn [negb];
  destruct (inet_pton_ret e <=? 0); [reflexivity|];
  destruct (sendto_ret e <? 0); [reflexivity|];
  destruct (select_ret e <? 0); [reflexivity|];
  destruct (select_ret e =? 0); [reflexivity|];
  destruct (recvfrom_dgram e); reflexivity.

(** The status and the calls made do not depend on what [response] held,
    and a failed exchange leaves [response] as it was. *)
Lemma send_ntp_request_eq (e : exchange_env) (r : Mem.bytes) :
  send_ntp_request e r
  = (exchange_status e,
     (if status_eqb (exchange_status e) NTP_OK
      then exchange_response e r else r),
     exchange_trace e).
Proof.
  unfold exchange_status, exchange_response, exchange_trace, send_ntp_request.
  exchange_cases e.
Qed.

Lemma exchange_trace_count (e : exchange_env) :
  exchange_count (exchange_trace e) = 1%nat.
Proof.
  unfold exchange_trace, send_ntp_request. exchange_cases e.
Qed.

Lemma exchange_trace_lock (e : exchange_env) (held : bool) :
  lock_after held (exchange_trace e) = held.
Proof.
  unfold exchange_trace, send_ntp_request. exchange_cases e.
Qed.

Lemma exchange_trace_io_inside (e : exchange_env) :
  io_inside_lock true (exchange_trace e) = true.
Proof.
  unfold exchange_trace, send_ntp_request. exchange_cases e.
Qed.

Lemma exchange_trace_sleep (e : exchange_env) (held : bool) :
  sleep_outside_lock held (exchange_trace e) = true.
Proof.
  unfold exchange_trace, send_ntp_request. exchange_cases e.
Qed.

(** A failed resolution is reported as a network error. *)
Lemma resolution_failure_status (e : exchange_env) :
  resolve_hostname e = false -> exchange_status e = NTP_ERROR_NETWORK.
Proof.
  intros H. unfold exchange_status, send_ntp_request. rewrite H.
  cbn [negb].
  destruct (socket_ret e <? 0); [reflexivity|].
  destruct (setsockopt_ret e <? 0); reflexivity.
Qed.

Lemma status_eqb_eq (a b : ntp_status_t) : status_eqb a b = true <-> a = b.
Proof. destruct a, b; simpl; split; congruence. Qed.

Lemma status_eqb_neq (a b : ntp_status_t) : status_eqb a b = false <-> a <> b.
Proof. destruct a, b; simpl; split; congruence. Qed.

(* ------------------------------------------------------------------ *)
(** ** The retry loop *)

Lemma sync_loop_unfold (fuel : nat) (w : world) (cfg : ntp_config_t)
    (r : Mem.bytes) (a : Z) :
  sync_loop fuel w cfg r a
  = let status := exchange_status (exchanges w a) in
    let r' := if status_eqb status NTP_OK
              then exchange_response (exchanges w a) r else r in
    let tr := exchange_trace (exchanges w a) in
    let a' := to_uint32 (a + 1) in
    if negb (status_eqb status NTP_OK) && (a' <? retry_count cfg) then
      match fuel with
      | O => None
      | S fuel' =>
          match sync_loop fuel' w cfg r' a' with
          | None => None
          | Some (status'', r'', a'', tr') =>
              Some (status'', r'', a'',
                    tr ++ [EvUnlock; EvUsleep; EvLock] ++ tr')
          end
      end
    else Some (status, r', a', tr).
Proof.
  destruct fuel; simpl; rewrite send_ntp_request_eq; reflexivity.
Qed.

(** The turn after which the loop is left. *)
Lemma loop_post_exit (w : world) (cfg : ntp_config_t) (r : Mem.bytes) (a : Z) :
  exchange_status (exchanges w a) = NTP_OK \/ retry_count cfg <= a + 1 ->
  loop_post w cfg r a
    (exchange_status (exchanges w a),
     (if status_eqb (exchange_status (exchanges w a)) NTP_OK
      then exchange_response (exchanges w a) r else r),
     a + 1, exchange_trace (exchanges w a)).
Proof.
  intros H. unfold loop_post.
  replace (a + 1 - 1) with a by lia.
  split; [lia|]. split; [right; reflexivity|].
  split; [intros i Hi; lia|]. split; [reflexivity|]. split; [reflexivity|].
  split; [assumption|].
  split; [rewrite exchange_trace_count; lia|].
  split; [apply exchange_trace_io_inside|].
  split; [apply exchange_trace_sleep | apply exchange_trace_lock].
Qed.

(** The loop returns, and what it returns satisfies [loop_post], as soon as
    the fuel covers the retries that are left. *)
Lemma sync_loop_spec (w : world) (cfg : ntp_config_t) :
  is_uint32 (retry_count cfg) ->
  forall (fuel : nat) (r : Mem.bytes) (a : Z),
    0 <= a ->
    a < retry_count cfg \/ a = 0 ->
    retry_count cfg <= a + 1 + Z.of_nat fuel ->
    exists res,
      sync_loop fuel w cfg r a = Some res /\ loop_post w cfg r a res.
Proof.
  intros HR. unfold is_uint32, UINT32_MOD in HR.
  induction fuel as [|fuel IH]; intros r a Ha Hinv Hfuel;
    rewrite sync_loop_unfold; cbv zeta;
    (assert (Ea : to_uint32 (a + 1) = a + 1)
      by (apply to_uint32_id; unfold is_uint32, UINT32_MOD; lia));
    rewrite Ea;
    destruct (status_eqb (exchange_status (exchanges w a)) NTP_OK) eqn:Es;
    cbn [negb andb].
  1, 3: (* the exchange succeeded *)
    eexists; split; [reflexivity|];
    pose proof (loop_post_exit w cfg r a) as P; rewrite Es in P;
    apply P; left; apply status_eqb_eq; assumption.
  - (* failure, no fuel: no retry is left either *)
    destruct (a + 1 <? retry_count cfg) eqn:El.
    + apply Z.ltb_lt in El. lia.
    + apply Z.ltb_ge in El.
      eexists; split; [reflexivity|].
      pose proof (loop_post_exit w cfg r a) as P; rewrite Es in P.
      apply P; right; assumption.
  - (* failure *)
    destruct (a + 1 <? retry_count cfg) eqn:El.
    + apply Z.ltb_lt in El.
      destruct (IH r (a + 1)) as [[[[s'' r''] a''] tr'] [E P]]; try lia.
      rewrite E. eexists; split; [reflexivity|].
      unfold loop_post in *.
      destruct P as (P1 & P2 & P3 & P4 & P5 & P6 & P7 & P8 & P9 & P10).
      apply status_eqb_neq in Es.
      split; [lia|]. split; [lia|].
      split.
      { intros i Hi. destruct (Z.eq_dec i a) as [->|Hne]; [assumption|].
        apply P3. lia. }
      split; [assumption|]. split; [assumption|]. split; [assumption|].
      split.
      { rewrite !exchange_count_app, exchange_trace_count.
        change (exchange_count [EvUnlock; EvUsleep; EvLock]) with 0%nat.
        lia. }
      split.
      { rewrite !io_inside_lock_app, ?lock_after_app, ?exchange_trace_lock,
          exchange_trace_io_inside. simpl. assumption. }
      split.
      { rewrite !sleep_outside_lock_app, ?lock_after_app, ?exchange_trace_lock,
          exchange_trace_sleep. simpl. assumption. }
      rewrite !lock_after_app, exchange_trace_lock. simpl. assumption.
    + apply Z.ltb_ge in El.
      eexists; split; [reflexivity|].
      pose proof (loop_post_exit w cfg r a) as P; rewrite Es in P.
      apply P; right; assumption.
Qed.

(* ------------------------------------------------------------------ *)
(** ** [ntp_sync] *)

Lemma sync_trace_io_inside (tr : trace) :
  io_inside_lock true tr = true ->
  io_inside_lock false (EvLock :: tr ++ [EvUnlock]) = true.
Proof.
  intros H. cbn [io_inside_lock]. rewrite io_inside_lock_app, H. reflexivity.
Qed.

Lemma sync_trace_sleep (tr : trace) :
  sleep_outside_lock true tr = true ->
  sleep_outside_lock false (EvLock :: tr ++ [EvUnlock]) = true.
Proof.
  intros H. cbn [sleep_outside_lock].
  rewrite sleep_outside_lock_app, H. reflexivity.
Qed.

Lemma sync_trace_lock (tr : trace) :
  lock_after false (EvLock :: tr ++ [EvUnlock]) = false.
Proof.
  cbn [lock_after]. rewrite lock_after_app. reflexivity.
Qed.

Lemma sync_trace_count (tr : trace) :
  exchange_count (EvLock :: tr ++ [EvUnlock]) = exchange_count tr.
Proof.
  change (EvLock :: tr ++ [EvUnlock]) with ([EvLock] ++ tr ++ [EvUnlock]).
  rewrite !exchange_count_app.
  change (exchange_count [EvLock]) with 0%nat.
  change (exchange_count [EvUnlock]) with 0%nat. lia.
Qed.

(** [ntp_sync] on an initialised client returns, and its result is one of
    three: the last of the failed exchanges when none is left to try; a
    server error when the first successful exchange brought a response that
    fails the validation; the commit of that response otherwise. [k] is the
    number of the last exchange made. *)
Lemma ntp_sync_cases (w : world) (st : ntp_client_state_t) :
  initialized st = true ->
  is_uint32 (retry_count (config st)) ->
  exists r,
    ntp_sync w st = Some r /\
    let k := sr_attempts r - 1 in
    0 <= k /\
    (k < retry_count (config st) \/ k = 0) /\
    all_fail w 0 k /\
    Z.of_nat (exchange_count (sr_trace r)) = sr_attempts r /\
    io_inside_lock false (sr_trace r) = true /\
    sleep_outside_lock false (sr_trace r) = true /\
    lock_after false (sr_trace r) = false /\
    ((exchange_status (exchanges w k) <> NTP_OK /\
      retry_count (config st) <= k + 1 /\
      sr_status r = exchange_status (exchanges w k) /\
      sr_state r = st)
     \/
     (exchange_status (exchanges w k) = NTP_OK /\
      (mode_bad (response_at w k) = true
       \/ stratum_bad (response_at w k) = true) /\
      sr_status r = NTP_ERROR_SERVER /\
      sr_state r = st)
     \/
     (exchange_status (exchanges w k) = NTP_OK /\
      mode_bad (response_at w k) = false /\
      stratum_bad (response_at w k) = false /\
      sr_status r = NTP_OK /\
      sr_state r = commit st (response_at w k) (sync_clock w))).
Proof.
  intros Hinit HR.
  destruct (sync_loop_spec w (config st) HR
              (Z.to_nat (retry_count (config st))) (stack_response w) 0)
    as [[[[status r'] a'] tr] [E P]].
  { lia. }
  { unfold is_uint32 in HR. lia. }
  { unfold is_uint32 in HR. lia. }
  unfold ntp_sync. rewrite Hinit, E. cbn [negb].
  unfold loop_post in P.
  destruct P as (P1 & P2 & P3 & P4 & P5 & P6 & P7 & P8 & P9 & P10).
  assert (Hcommon :
    forall s' st',
      let r := {| sr_status := s'; sr_state := st'; sr_attempts := a';
                  sr_trace := EvLock :: tr ++ [EvUnlock] |} in
      0 <= sr_attempts r - 1 /\
      (sr_attempts r - 1 < retry_count (config st) \/ sr_attempts r - 1 = 0) /\
      all_fail w 0 (sr_attempts r - 1) /\
      Z.of_nat (exchange_count (sr_trace r)) = sr_attempts r /\
      io_inside_lock false (sr_trace r) = true /\
      sleep_outside_lock false (sr_trace r) = true /\
      lock_after false (sr_trace r) = false).
  { intros s' st'. cbn [sr_attempts sr_trace].
    split; [lia|]. split; [lia|]. split; [assumption|].
    split; [rewrite sync_trace_count; lia|].
    split; [apply sync_trace_io_inside; assumption|].
    split; [apply sync_trace_sleep; assumption | apply sync_trace_lock]. }
  destruct (status_eqb status NTP_OK) eqn:Es; cbn [negb].
  - apply status_eqb_eq in Es.
    assert (Hok : exchange_status (exchanges w (a' - 1)) = NTP_OK)
      by congruence.
    assert (Hr : r' = response_at w (a' - 1)) by exact P5.
    destruct (mode_bad r') eqn:Em; [|destruct (stratum_bad r') eqn:Et];
      (eexists; split; [reflexivity|]);
      (cbv zeta;
       repeat (split; [apply (Hcommon NTP_OK st)|]));
      cbn [sr_attempts sr_status sr_state]; rewrite <- Hr.
    + right; left. repeat split; auto.
    + right; left. repeat split; auto.
    + right; right. repeat split; auto.
  - apply status_eqb_neq in Es.
    eexists; split; [reflexivity|].
    cbv zeta. repeat (split; [apply (Hcommon NTP_OK st)|]).
    cbn [sr_attempts sr_status sr_state].
    left. destruct P6 as [P6|P6]; [contradiction|].
    repeat split; try congruence. lia.
Qed.

(* ------------------------------------------------------------------ *)
(** ** Bytes and byte order *)

Lemma lor_disjoint (a b n : Z) :
  0 <= n -> 0 <= a < 2 ^ n -> Z.lor a (b * 2 ^ n) = a + b * 2 ^ n.
Proof.
  intros Hn Ha.
  rewrite <- (Z.add_lor_land a (b * 2 ^ n)).
  assert (E : Z.land a (b * 2 ^ n) = 0); [|lia].
  apply Z.bits_inj'. intros i Hi.
  rewrite Z.land_spec, Z.bits_0.
  destruct (Z.lt_ge_cases i n) as [Hlt|Hge].
  - rewrite Z.mul_pow2_bits_low by lia. apply andb_false_r.
  - replace a with (a mod 2 ^ n) by (apply Z.mod_small; lia).
    rewrite Z.mod_pow2_bits_high by lia. reflexivity.
Qed.

Lemma land_255 (x : Z) : Z.land x 255 = x mod 256.
Proof. change 255 with (Z.ones 8). apply Z.land_ones. lia. Qed.

Lemma land_255_byte (x : Z) : is_uint8 (Z.land x 255).
Proof.
  rewrite land_255. unfold is_uint8, UINT8_MOD. apply Z.mod_pos_bound. lia.
Qed.

(** Four bytes put together, least significant first. *)
Lemma lor_bytes (b0 b1 b2 b3 : Z) :
  is_uint8 b0 -> is_uint8 b1 -> is_uint8 b2 -> is_uint8 b3 ->
  Z.lor (Z.lor b0 (Z.shiftl b1 8)) (Z.lor (Z.shiftl b2 16) (Z.shiftl b3 24))
  = b0 + b1 * 2 ^ 8 + b2 * 2 ^ 16 + b3 * 2 ^ 24.
Proof.
  unfold is_uint8, UINT8_MOD. intros H0 H1 H2 H3.
  rewrite !Z.shiftl_mul_pow2 by lia.
  rewrite (lor_disjoint b0 b1 8) by lia.
  rewrite (lor_disjoint (b2 * 2 ^ 16) b3 24) by lia.
  replace (b2 * 2 ^ 16 + b3 * 2 ^ 24) with ((b2 + b3 * 2 ^ 8) * 2 ^ 16) by lia.
  rewrite lor_disjoint by lia. lia.
Qed.

(** The bytes of a 32-bit value, put together again. *)
Lemma lor_le_bytes (v : Z) :
  is_uint32 v ->
  Z.lor (Z.lor (Z.land v 255) (Z.shiftl (Z.land (Z.shiftr v 8) 255) 8))
        (Z.lor (Z.shiftl (Z.land (Z.shiftr v 16) 255) 16)
               (Z.shiftl (Z.land (Z.shiftr v 24) 255) 24))
  = v.
Proof.
  intros Hv. rewrite lor_bytes by apply land_255_byte.
  rewrite !land_255, !Z.shiftr_div_pow2 by lia.
  unfold is_uint32, UINT32_MOD in Hv.
  change (2 ^ 8) with 256. change (2 ^ 16) with 65536.
  change (2 ^ 24) with 16777216. change (2 ^ 32) with 4294967296 in Hv.
  Z.div_mod_to_equations. lia.
Qed.

(** [ntohl] of four bytes put together least significant first is the
    four bytes put together most significant first. *)
Lemma ntohl_bytes (b0 b1 b2 b3 : Z) :
  is_uint8 b0 -> is_uint8 b1 -> is_uint8 b2 -> is_uint8 b3 ->
  Mem.ntohl (b0 + b1 * 2 ^ 8 + b2 * 2 ^ 16 + b3 * 2 ^ 24)
  = b0 * 2 ^ 24 + b1 * 2 ^ 16 + b2 * 2 ^ 8 + b3.
Proof.
  intros H0 H1 H2 H3. unfold Mem.ntohl.
  set (x := b0 + b1 * 2 ^ 8 + b2 * 2 ^ 16 + b3 * 2 ^ 24).
  assert (E0 : Z.land x 255 = b0 /\ Z.land (Z.shiftr x 8) 255 = b1 /\
               Z.land (Z.shiftr x 16) 255 = b2 /\
               Z.land (Z.shiftr x 24) 255 = b3).
  { rewrite !land_255, !Z.shiftr_div_pow2 by lia. subst x.
    unfold is_uint8, UINT8_MOD in *.
    change (2 ^ 8) with 256 in *. change (2 ^ 16) with 65536.
    change (2 ^ 24) with 16777216.
    repeat split; Z.div_mod_to_equations; lia. }
  destruct E0 as (-> & -> & -> & ->).
  rewrite Z.lor_comm.
  rewrite (Z.lor_comm (Z.shiftl b0 24)), (Z.lor_comm (Z.shiftl b2 8)).
  rewrite lor_bytes by assumption. lia.
Qed.

(** *** Loads and stores *)

Lemma is_bytes_nth (m : Mem.bytes) (i : nat) :
  Mem.is_bytes m -> is_uint8 (Mem.load_u8 m i).
Proof.
  intros H. unfold Mem.load_u8.
  destruct (Nat.lt_ge_cases i (length m)) as [Hlt|Hge].
  - apply Forall_nth; assumption.
  - rewrite nth_overflow by assumption. unfold is_uint8, UINT8_MOD. lia.
Qed.

Lemma is_bytes_firstn (m : Mem.bytes) (n : nat) :
  Mem.is_bytes m -> Mem.is_bytes (firstn n m).
Proof.
  unfold Mem.is_bytes. revert m.
  induction n as [|n IH]; intros m H; [constructor|].
  destruct H as [|x m Hx H]; [constructor|].
  simpl. constructor; [assumption | apply IH; assumption].
Qed.

Lemma is_bytes_skipn (m : Mem.bytes) (n : nat) :
  Mem.is_bytes m -> Mem.is_bytes (skipn n m).
Proof.
  unfold Mem.is_bytes. revert m.
  induction n as [|n IH]; intros m H; [assumption|].
  destruct H as [|x m Hx H]; [constructor|].
  simpl. apply IH; assumption.
Qed.

Lemma is_bytes_le_bytes (v : Z) : Mem.is_bytes (Mem.le_bytes v).
Proof.
  unfold Mem.is_bytes, Mem.le_bytes.
  repeat (constructor; [apply land_255_byte|]). constructor.
Qed.

Lemma is_bytes_store_u32 (m : Mem.bytes) (off : nat) (v : Z) :
  Mem.is_bytes m -> Mem.is_bytes (Mem.store_u32 m off v).
Proof.
  intros H. unfold Mem.store_u32.
  destruct (off + 4 <=? length m)%nat; [|assumption].
  apply Forall_app; split; [apply is_bytes_firstn; assumption|].
  apply Forall_app; split;
    [apply is_bytes_le_bytes | apply is_bytes_skipn; assumption].
Qed.

Lemma length_store_u32 (m : Mem.bytes) (off : nat) (v : Z) :
  length (Mem.store_u32 m off v) = length m.
Proof.
  unfold Mem.store_u32.
  destruct (off + 4 <=? length m)%nat eqn:E; [|reflexivity].
  apply Nat.leb_le in E.
  rewrite !length_app, length_firstn, length_skipn. simpl. lia.
Qed.

(** A store does not change the bytes outside the four it writes. *)
Lemma load_u8_store_u32_other (m : Mem.bytes) (off i : nat) (v : Z) :
  (i < off \/ off + 4 <= i)%nat ->
  Mem.load_u8 (Mem.store_u32 m off v) i = Mem.load_u8 m i.
Proof.
  intros Hi. unfold Mem.store_u32, Mem.load_u8.
  destruct (off + 4 <=? length m)%nat eqn:E; [|reflexivity].
  apply Nat.leb_le in E.
  assert (Lf : length (firstn off m) = off) by (rewrite length_firstn; lia).
  destruct Hi as [Hi|Hi].
  - rewrite app_nth1 by lia. rewrite nth_firstn.
    destruct (i <? off)%nat eqn:El; [reflexivity|].
    apply Nat.ltb_ge in El. lia.
  - rewrite app_nth2 by lia. rewrite app_nth2 by (simpl; lia).
    rewrite nth_skipn. f_equal. simpl. lia.
Qed.

(** The four bytes a store writes. *)
Lemma load_u8_store_u32_same (m : Mem.bytes) (off : nat) (v : Z) (j : nat) :
  (off + 4 <= length m)%nat -> (j < 4)%nat ->
  Mem.load_u8 (Mem.store_u32 m off v) (off + j) = nth j (Mem.le_bytes v) 0.
Proof.
  intros Hlen Hj. unfold Mem.store_u32, Mem.load_u8.
  apply Nat.leb_le in Hlen. rewrite Hlen. apply Nat.leb_le in Hlen.
  assert (Lf : length (firstn off m) = off) by (rewrite length_firstn; lia).
  rewrite app_nth2 by lia. rewrite Lf.
  replace (off + j - off)%nat with j by lia.
  apply app_nth1. simpl. lia.
Qed.

Lemma load_u32_store_u32_same (m : Mem.bytes) (off : nat) (v : Z) :
  (off + 4 <= length m)%nat -> is_uint32 v ->
  Mem.load_u32 (Mem.store_u32 m off v) off = v.
Proof.
  intros Hlen Hv. unfold Mem.load_u32.
  pose proof (load_u8_store_u32_same m off v 0 Hlen ltac:(lia)) as E0.
  rewrite Nat.add_0_r in E0. rewrite E0.
  rewrite !load_u8_store_u32_same by lia.
  simpl nth. apply lor_le_bytes. assumption.
Qed.

Lemma load_u32_store_u32_other (m : Mem.bytes) (off off' : nat) (v : Z) :
  (off' + 4 <= off \/ off + 4 <= off')%nat ->
  Mem.load_u32 (Mem.store_u32 m off v) off' = Mem.load_u32 m off'.
Proof.
  intros H. unfold Mem.load_u32.
  rewrite !load_u8_store_u32_other by lia. reflexivity.
Qed.

Lemma load_u32_bytes (m : Mem.bytes) (off : nat) :
  Mem.is_bytes m ->
  Mem.load_u32 m off
  = Mem.load_u8 m off + Mem.load_u8 m (off + 1) * 2 ^ 8
    + Mem.load_u8 m (off + 2) * 2 ^ 16 + Mem.load_u8 m (off + 3) * 2 ^ 24.
Proof.
  intros H. unfold Mem.load_u32. apply lor_bytes; apply is_bytes_nth, H.
Qed.

(** Read on a little-endian host and passed through [ntohl], a field holds
    the value of its four bytes in network order. *)
Lemma ntohl_load_u32 (m : Mem.bytes) (off : nat) :
  Mem.is_bytes m -> Mem.ntohl (Mem.load_u32 m off) = Mem.be32 m off.
Proof.
  intros H. rewrite load_u32_bytes by assumption.
  apply ntohl_bytes; apply is_bytes_nth, H.
Qed.

Lemma be32_range (m : Mem.bytes) (off : nat) :
  Mem.is_bytes m -> is_uint32 (Mem.be32 m off).
Proof.
  intros H. unfold Mem.be32.
  pose proof (is_bytes_nth m off H). pose proof (is_bytes_nth m (off + 1) H).
  pose proof (is_bytes_nth m (off + 2) H).
  pose proof (is_bytes_nth m (off + 3) H).
  unfold is_uint8, UINT8_MOD, is_uint32, UINT32_MOD in *. lia.
Qed.

Lemma is_bytes_ntohl_field (p : Mem.bytes) (off : nat) :
  Mem.is_bytes p -> Mem.is_bytes (Packet.ntohl_field p off).
Proof. apply is_bytes_store_u32. Qed.

Lemma length_ntohl_field (p : Mem.bytes) (off : nat) :
  length (Packet.ntohl_field p off) = length p.
Proof. apply length_store_u32. Qed.

Lemma load_u32_ntohl_field_same (p : Mem.bytes) (off : nat) :
  (off + 4 <= length p)%nat -> Mem.is_bytes p ->
  Mem.load_u32 (Packet.ntohl_field p off) off = Mem.be32 p off.
Proof.
  intros Hlen Hb. unfold Packet.ntohl_field.
  rewrite load_u32_store_u32_same; [apply ntohl_load_u32; assumption|assumption|].
  rewrite ntohl_load_u32 by assumption. apply be32_range. assumption.
Qed.

Lemma load_u8_ntohl_field_other (p : Mem.bytes) (off i : nat) :
  (i < off \/ off + 4 <= i)%nat ->
  Mem.load_u8 (Packet.ntohl_field p off) i = Mem.load_u8 p i.
Proof. apply load_u8_store_u32_other. Qed.

(* ------------------------------------------------------------------ *)
(** ** The response of a successful exchange *)

Lemma is_bytes_to_host_order (p : Mem.bytes) :
  Mem.is_bytes p -> Mem.is_bytes (Packet.to_host_order p).
Proof.
  intros H. unfold Packet.to_host_order.
  repeat apply is_bytes_ntohl_field. assumption.
Qed.

Lemma length_to_host_order (p : Mem.bytes) :
  length (Packet.to_host_order p) = length p.
Proof.
  unfold Packet.to_host_order. rewrite !length_ntohl_field. reflexivity.
Qed.

(** The conversion leaves the first 32 bytes, the header among them, as
    they are. *)
Lemma load_u8_to_host_order (p : Mem.bytes) (i : nat) :
  (i < 32)%nat -> Mem.load_u8 (Packet.to_host_order p) i = Mem.load_u8 p i.
Proof.
  intros Hi.
  unfold Packet.to_host_order, Packet.off_recv_timestamp_sec,
    Packet.off_recv_timestamp_frac, Packet.off_tx_timestamp_sec,
    Packet.off_tx_timestamp_frac.
  rewrite !load_u8_ntohl_field_other by lia. reflexivity.
Qed.

(** After the conversion the transmit seconds are the value of bytes 40 to
    43 in network order. *)
Lemma tx_timestamp_sec_to_host_order (p : Mem.bytes) :
  (Packet.size <= length p)%nat -> Mem.is_bytes p ->
  Packet.tx_timestamp_sec (Packet.to_host_order p)
  = Mem.be32 p Packet.off_tx_timestamp_sec.
Proof.
  unfold Packet.size, Packet.tx_timestamp_sec, Packet.to_host_order,
    Packet.off_recv_timestamp_sec, Packet.off_recv_timestamp_frac,
    Packet.off_tx_timestamp_sec, Packet.off_tx_timestamp_frac.
  intros Hlen Hb.
  unfold Packet.ntohl_field at 1.
  rewrite load_u32_store_u32_other by lia.
  rewrite load_u32_ntohl_field_same.
  - unfold Mem.be32.
    rewrite !load_u8_ntohl_field_other by lia. reflexivity.
  - rewrite !length_ntohl_field. lia.
  - repeat apply is_bytes_ntohl_field. assumption.
Qed.

Lemma is_bytes_recvfrom_into (r d : Mem.bytes) :
  Mem.is_bytes r -> Mem.is_bytes d -> Mem.is_bytes (recvfrom_into r d).
Proof.
  intros Hr Hd. unfold recvfrom_into.
  apply Forall_app; split;
    [apply is_bytes_firstn | apply is_bytes_skipn]; assumption.
Qed.

(** A datagram of 48 bytes or more fills the whole packet. *)
Lemma recvfrom_into_full (r d : Mem.bytes) :
  length r = Packet.size -> (Packet.size <= length d)%nat ->
  recvfrom_into r d = firstn Packet.size d.
Proof.
  intros Hr Hd. unfold recvfrom_into.
  rewrite length_firstn, Nat.min_l by assumption.
  rewrite skipn_all2 by lia. apply app_nil_r.
Qed.

(** The bytes that arrived are at the start of the packet. *)
Lemma load_u8_recvfrom_into (r d : Mem.bytes) (i : nat) :
  (i < Packet.size)%nat -> (i < length d)%nat ->
  Mem.load_u8 (recvfrom_into r d) i = Mem.load_u8 d i.
Proof.
  intros Hi Hd. unfold recvfrom_into, Mem.load_u8.
  rewrite app_nth1 by (rewrite length_firstn; lia).
  rewrite nth_firstn. apply Nat.ltb_lt in Hi. rewrite Hi. reflexivity.
Qed.

(** A successful exchange has received a datagram, and its response is
    that datagram laid over [response] and brought to host order. *)
Lemma exchange_ok_response (e : exchange_env) :
  exchange_status e = NTP_OK ->
  exists d,
    recvfrom_dgram e = Some d /\
    forall r,
      exchange_response e r = Packet.to_host_order (recvfrom_into r d).
Proof.
  unfold exchange_status, exchange_response, send_ntp_request.
  destruct (socket_ret e <? 0); [discriminate|].
  destruct (setsockopt_ret e <? 0); [discriminate|].
  destruct (resolve_hostname e); [|discriminate]. cbn [negb].
  destruct (inet_pton_ret e <=? 0); [discriminate|].
  destruct (sendto_ret e <? 0); [discriminate|].
  destruct (select_ret e <? 0); [discriminate|].
  destruct (select_ret e =? 0); [discriminate|].
  destruct (recvfrom_dgram e) as [d|]; [|discriminate].
  intros _. exists d. split; reflexivity.
Qed.

(** In a well-formed world the response of a successful exchange is made
    of bytes. *)
Lemma is_bytes_response_at (w : world) (k : Z) :
  well_formed_world w ->
  exchange_status (exchanges w k) = NTP_OK ->
  Mem.is_bytes (response_at w k).
Proof.
  intros [Hs Hd] Hok.
  destruct (exchange_ok_response _ Hok) as [d [Ed Er]].
  unfold response_at. rewrite Er.
  apply is_bytes_to_host_order, is_bytes_recvfrom_into;
    [assumption | eapply Hd; eassumption].
Qed.

(** The validation accepts exactly the responses with mode 4 or 2 and a
    stratum from 1 to 15. *)
Lemma validation_accepts (p : Mem.bytes) :
  Mem.is_bytes p ->
  (mode_bad p = false /\ stratum_bad p = false) <->
  ((Z.land (Packet.li_vn_mode p) 7 = 4 \/ Z.land (Packet.li_vn_mode p) 7 = 2)
   /\ 1 <= Packet.stratum p <= 15).
Proof.
  intros Hb.
  pose proof (is_bytes_nth p Packet.off_stratum Hb) as Hs.
  fold (Packet.stratum p) in Hs. unfold is_uint8, UINT8_MOD in Hs.
  unfold mode_bad, stratum_bad, NTP_STRATUM_MAX.
  rewrite andb_false_iff, orb_false_iff, !negb_false_iff, !Z.eqb_eq,
    Z.eqb_neq, Z.geb_leb, Z.leb_gt.
  lia.
Qed.

(** The two bytes the validation reads are the first two bytes of the
    datagram, when it has them. *)
Lemma response_header_from_wire (w : world) (k : Z) (d : Mem.bytes) :
  exchange_status (exchanges w k) = NTP_OK ->
  recvfrom_dgram (exchanges w k) = Some d ->
  (2 <= length d)%nat ->
  Packet.li_vn_mode (response_at w k) = Mem.load_u8 d 0 /\
  Packet.stratum (response_at w k) = Mem.load_u8 d 1.
Proof.
  intros Hok Ed Hlen.
  destruct (exchange_ok_response _ Hok) as [d' [Ed' Er]].
  assert (d' = d) by congruence. subst d'.
  unfold response_at, Packet.li_vn_mode, Packet.stratum,
    Packet.off_li_vn_mode, Packet.off_stratum.
  rewrite Er, !load_u8_to_host_order by lia.
  rewrite !load_u8_recvfrom_into by (unfold Packet.size; lia).
  split; reflexivity.
Qed.

(** [ntp_sync] returns on every state with a 32-bit retry count. *)
Lemma ntp_sync_total (w : world) (st : ntp_client_state_t) :
  is_uint32 (retry_count (config st)) ->
  exists r, ntp_sync w st = Some r.
Proof.
  intros HR. destruct (initialized st) eqn:Hi.
  - destruct (ntp_sync_cases w st Hi HR) as (r & E & _). exists r. exact E.
  - unfold ntp_sync. rewrite Hi. eexists. reflexivity.
Qed.

(* ------------------------------------------------------------------ *)
(** ** The claims about [ntp_sync] *)

(** The exchange after which the loop is left is the first successful one,
    when there is one within the retries. *)
Lemma last_exchange_is_first_success (w : world) (R k k' : Z) :
  0 <= k -> all_fail w 0 k ->
  exchange_status (exchanges w k) = NTP_OK \/ R <= k + 1 ->
  0 <= k' -> k' < R \/ k' = 0 -> all_fail w 0 k' ->
  exchange_status (exchanges w k') = NTP_OK ->
  k = k'.
Proof.
  intros Hk Hf Hlast Hk' HR Hf' Hok.
  destruct (Z.lt_trichotomy k k') as [H|[H|H]]; [|assumption|].
  - assert (exchange_status (exchanges w k) <> NTP_OK) by (apply Hf'; lia).
    destruct Hlast as [Hlast|Hlast]; [contradiction|]. lia.
  - exfalso. apply (Hf k'); [lia | assumption].
Qed.

(** C1: a successful [ntp_sync] commits the offset between the server's
    transmit time, converted to Unix time, and the local clock read at the
    commit, with that clock reading as the time of the last sync and
    [ever_synced] set; from then on [ntp_getCurrentTime] returns the local
    clock plus that offset. The differences and sums are those of 64-bit
    integers, exact whenever they fit. For a 48-byte datagram the transmit
    seconds are bytes 40 to 43 of the wire, in network order. With the
    server at Unix time 1700000000 and the local clock at 1699999995 the
    offset is 5, and at local time 1699999999 the current time is
    1700000004. *)
Theorem sync_commits_offset (w : world) (st : ntp_client_state_t) :
  initialized st = true ->
  is_uint32 (retry_count (config st)) ->
  (exists r,
      ntp_sync w st = Some r /\
      (sr_status r = NTP_OK ->
       let response := response_at w (sr_attempts r - 1) in
       let server_time :=
         ntp_time_to_unix_time (Packet.tx_timestamp_sec response) in
       let local_now := tv_sec (sync_clock w) in
       let st' := sr_state r in
       time_offset st' = to_int64 (server_time - local_now) /\
       (is_int64 (server_time - local_now) ->
        time_offset st' = server_time - local_now) /\
       last_sync_time st' = local_now /\
       ever_synced st' = true /\
       initialized st' = true /\
       (forall now,
           ntp_getCurrentTime st' now
           = to_int64 (tv_sec now + time_offset st') /\
           (is_int64 (tv_sec now + time_offset st') ->
            ntp_getCurrentTime st' now = tv_sec now + time_offset st')) /\
       (forall d,
           recvfrom_dgram (exchanges w (sr_attempts r - 1)) = Some d ->
           (Packet.size <= length d)%nat -> Mem.is_bytes d ->
           length (stack_response w) = Packet.size ->
           server_time
           = spec_ntp_to_unix (Mem.be32 d Packet.off_tx_timestamp_sec))))
  /\
  (option_map sr_status (ntp_sync Scenario.world_ok (Scenario.initial 3))
   = Some NTP_OK /\
   time_offset (Scenario.state_after Scenario.world_ok (Scenario.initial 3))
   = 5 /\
   ntp_getCurrentTime
     (Scenario.state_after Scenario.world_ok (Scenario.initial 3))
     (Scenario.clock_at 1699999999 0)
   = 1700000004).
Proof.
  intros Hinit HR. split; [|vm_compute; repeat split; reflexivity].
  destruct (ntp_sync_cases w st Hinit HR)
    as (r & E & K0 & K1 & Kfail & Kcount & _ & _ & _ & Cases).
  exists r. split; [assumption|]. intros Hs. cbv zeta in *.
  destruct Cases as [(Hne & _ & Es & _) | [(_ & _ & Es & _) | C]];
    [congruence | congruence |].
  destruct C as (Hok & _ & _ & _ & Est). rewrite Est.
  unfold commit; cbn [time_offset last_sync_time ever_synced initialized].
  split; [reflexivity|].
  split; [intros Hfit; apply to_int64_id; assumption|].
  split; [reflexivity|]. split; [reflexivity|]. split; [assumption|].
  split.
  - intros now. unfold ntp_getCurrentTime.
    cbn [time_offset ever_synced initialized]. rewrite Hinit. cbn [negb orb].
    split; [reflexivity | intros Hfit; apply to_int64_id; assumption].
  - intros d Ed Hlen Hd Hstack.
    destruct (exchange_ok_response _ Hok) as [d' [Ed' Er]].
    assert (d' = d) by congruence. subst d'.
    unfold response_at. rewrite Er.
    rewrite recvfrom_into_full by assumption.
    assert (Hb : Mem.is_bytes (firstn Packet.size d))
      by (apply is_bytes_firstn; assumption).
    rewrite tx_timestamp_sec_to_host_order;
      [|rewrite length_firstn; lia | assumption].
    rewrite ntp_time_to_unix_time_exact by (apply be32_range; assumption).
    unfold spec_ntp_to_unix, NTP_TIMESTAMP_DELTA. f_equal.
    unfold Mem.be32, Mem.load_u8, Packet.off_tx_timestamp_sec, Packet.size.
    rewrite !nth_firstn. reflexivity.
Qed.

Lemma sync_commits_offset_witness :
  initialized (Scenario.initial 3) = true /\
  is_uint32 (retry_count (config (Scenario.initial 3))) /\
  exists r,
    ntp_sync Scenario.world_ok (Scenario.initial 3) = Some r /\
    (sr_status r = NTP_OK ->
     ever_synced (sr_state r) = true /\
     last_sync_time (sr_state r) = 1699999995).
Proof.
  assert (H1 : initialized (Scenario.initial 3) = true) by reflexivity.
  assert (H2 : is_uint32 (retry_count (config (Scenario.initial 3))))
    by (vm_compute; split; [discriminate | reflexivity]).
  split; [exact H1|]. split; [exact H2|].
  destruct (sync_commits_offset Scenario.world_ok (Scenario.initial 3) H1 H2)
    as [[r [E P]] _].
  exists r. split; [exact E|]. intros Hs.
  destruct (P Hs) as (_ & _ & Hl & He & _). split; [exact He | exact Hl].
Defined.

(** C2: with an initialised client and a retry count of at least 1,
    [ntp_sync] makes at least one and at most [retry_count] exchanges. If
    the first successful exchange is number [k] (from 0) within the retry
    count, exactly [k + 1] exchanges are made and, its response passing the
    validation, that response is committed: NTP_OK is returned,
    [ever_synced] is set, the time of the last sync is the local clock
    reading, the offset is the server's transmit time of that response, as
    Unix time, minus that reading (a 64-bit difference), and the
    configuration is kept. If all [retry_count] exchanges fail, the status
    of the last one is returned and the client state is left as it was, so
    [ever_synced], the offset and the time of the last sync are unchanged.
    With two timeouts before an answer of Unix time 1700000000 at local
    time 1699999995, a retry count of 3 commits the offset 5 and the sync
    time 1699999995 (and [ntp_getServerName] then returns true), and a
    retry count of 2 returns the timeout with [ever_synced] still false and
    the state as [ntp_init] left it. *)
Theorem sync_retries_until_first_success
    (w : world) (st : ntp_client_state_t) :
  initialized st = true ->
  1 <= retry_count (config st) < UINT32_MOD ->
  (exists r,
      ntp_sync w st = Some r /\
      1 <= sr_attempts r <= retry_count (config st) /\
      Z.of_nat (exchange_count (sr_trace r)) = sr_attempts r /\
      (forall k,
          0 <= k < retry_count (config st) ->
          all_fail w 0 k ->
          exchange_status (exchanges w k) = NTP_OK ->
          sr_attempts r = k + 1 /\
          (mode_bad (response_at w k) = false ->
           stratum_bad (response_at w k) = false ->
           let server_time :=
             ntp_time_to_unix_time
               (Packet.tx_timestamp_sec (response_at w k)) in
           let local_now := tv_sec (sync_clock w) in
           sr_status r = NTP_OK /\
           sr_state r = commit st (response_at w k) (sync_clock w) /\
           ever_synced (sr_state r) = true /\
           last_sync_time (sr_state r) = local_now /\
           ntp_time (sr_state r) = server_time /\
           time_offset (sr_state r) = to_int64 (server_time - local_now) /\
           (is_int64 (server_time - local_now) ->
            time_offset (sr_state r) = server_time - local_now) /\
           initialized (sr_state r) = true /\
           config (sr_state r) = config st /\
           (forall now,
               ntp_getCurrentTime (sr_state r) now
               = to_int64 (tv_sec now + time_offset (sr_state r))) /\
           (forall d,
               recvfrom_dgram (exchanges w k) = Some d ->
               (Packet.size <= length d)%nat -> Mem.is_bytes d ->
               length (stack_response w) = Packet.size ->
               server_time
               = spec_ntp_to_unix (Mem.be32 d Packet.off_tx_timestamp_sec)))) /\
      (all_fail w 0 (retry_count (config st)) ->
       sr_attempts r = retry_count (config st) /\
       sr_status r
       = exchange_status (exchanges w (retry_count (config st) - 1)) /\
       sr_status r <> NTP_OK /\
       sr_state r = st /\
       ever_synced (sr_state r) = ever_synced st /\
       time_offset (sr_state r) = time_offset st /\
       last_sync_time (sr_state r) = last_sync_time st))
  /\
  (option_map sr_status
     (ntp_sync Scenario.world_fail_twice (Scenario.initial 3))
   = Some NTP_OK /\
   option_map sr_attempts
     (ntp_sync Scenario.world_fail_twice (Scenario.initial 3))
   = Some 3 /\
   ever_synced
     (Scenario.state_after Scenario.world_fail_twice (Scenario.initial 3))
   = true /\
   time_offset
     (Scenario.state_after Scenario.world_fail_twice (Scenario.initial 3))
   = 5 /\
   last_sync_time
     (Scenario.state_after Scenario.world_fail_twice (Scenario.initial 3))
   = 1699999995 /\
   ntp_getCurrentTime
     (Scenario.state_after Scenario.world_fail_twice (Scenario.initial 3))
     (Scenario.clock_at 1699999999 0)
   = 1700000004 /\
   fst (ntp_getServerName
          (Scenario.state_after Scenario.world_fail_twice (Scenario.initial 3))
          [] (Some (repeat 0 256)) 256)
   = true /\
   option_map sr_status
     (ntp_sync Scenario.world_fail_twice (Scenario.initial 2))
   = Some NTP_ERROR_TIMEOUT /\
   option_map sr_attempts
     (ntp_sync Scenario.world_fail_twice (Scenario.initial 2))
   = Some 2 /\
   ever_synced
     (Scenario.state_after Scenario.world_fail_twice (Scenario.initial 2))
   = false /\
   Scenario.state_after Scenario.world_fail_twice (Scenario.initial 2)
   = Scenario.initial 2).
Proof.
  intros Hinit HR. split; [|vm_compute; repeat split; reflexivity].
  assert (HR' : is_uint32 (retry_count (config st)))
    by (unfold is_uint32; lia).
  destruct (ntp_sync_cases w st Hinit HR')
    as (r & E & K0 & K1 & Kfail & Kcount & _ & _ & _ & Cases).
  cbv zeta in *.
  assert (Hlast :
    exchange_status (exchanges w (sr_attempts r - 1)) = NTP_OK
    \/ retry_count (config st) <= sr_attempts r - 1 + 1).
  { destruct Cases as [(_ & H & _) | [(H & _) | (H & _)]]; auto. }
  exists r. split; [assumption|]. split; [lia|]. split; [assumption|].
  split.
  - intros k Hk Hf Hok.
    assert (Ek : sr_attempts r - 1 = k).
    { eapply last_exchange_is_first_success; eauto; lia. }
    split; [lia|]. intros Hm Ht. rewrite Ek in Cases.
    destruct Cases as [(Hne & _) | [(_ & [Hb|Hb] & _) | C]];
      [contradiction | congruence | congruence |].
    destruct C as (Hok' & _ & _ & Es & Est).
    split; [assumption|]. split; [assumption|]. rewrite Est.
    unfold commit;
      cbn [time_offset last_sync_time ntp_time ever_synced initialized config].
    split; [reflexivity|]. split; [reflexivity|]. split; [reflexivity|].
    split; [reflexivity|].
    split; [intros Hfit; apply to_int64_id; assumption|].
    split; [assumption|]. split; [reflexivity|].
    split.
    + intros now. unfold ntp_getCurrentTime.
      cbn [time_offset ever_synced initialized]. rewrite Hinit. reflexivity.
    + intros d Ed Hlen Hd Hstack.
      destruct (exchange_ok_response _ Hok) as [d' [Ed' Er]].
      assert (d' = d) by congruence. subst d'.
      unfold response_at. rewrite Er.
      rewrite recvfrom_into_full by assumption.
      assert (Hb : Mem.is_bytes (firstn Packet.size d))
        by (apply is_bytes_firstn; assumption).
      rewrite tx_timestamp_sec_to_host_order;
        [|rewrite length_firstn; lia | assumption].
      rewrite ntp_time_to_unix_time_exact by (apply be32_range; assumption).
      unfold spec_ntp_to_unix, NTP_TIMESTAMP_DELTA. f_equal.
      unfold Mem.be32, Mem.load_u8, Packet.off_tx_timestamp_sec, Packet.size.
      rewrite !nth_firstn. reflexivity.
  - intros Hall.
    assert (Hne : exchange_status (exchanges w (sr_attempts r - 1)) <> NTP_OK)
      by (apply Hall; lia).
    destruct Cases as [C | [(Hok & _) | (Hok & _)]];
      [|contradiction | contradiction].
    destruct C as (_ & Hge & Es & Est).
    assert (Ea : sr_attempts r = retry_count (config st)) by lia.
    split; [assumption|].
    split; [rewrite Es; f_equal; f_equal; lia|].
    split; [rewrite Es; assumption|].
    rewrite Est. repeat split.
Qed.

Lemma sync_retries_until_first_success_witness :
  initialized (Scenario.initial 3) = true /\
  1 <= retry_count (config (Scenario.initial 3)) < UINT32_MOD /\
  exists r,
    ntp_sync Scenario.world_fail_twice (Scenario.initial 3) = Some r /\
    1 <= sr_attempts r <= 3 /\
    Z.of_nat (exchange_count (sr_trace r)) = sr_attempts r /\
    sr_attempts r = 3 /\
    sr_status r = NTP_OK /\
    ever_synced (sr_state r) = true /\
    last_sync_time (sr_state r) = 1699999995 /\
    time_offset (sr_state r) = 5.
Proof.
  assert (H1 : initialized (Scenario.initial 3) = true) by reflexivity.
  assert (H2 : 1 <= retry_count (config (Scenario.initial 3)) < UINT32_MOD)
    by (vm_compute; split; [discriminate | reflexivity]).
  split; [exact H1|]. split; [exact H2|].
  destruct (sync_retries_until_first_success
              Scenario.world_fail_twice (Scenario.initial 3) H1 H2)
    as [[r (E & Ha & Hc & Hfirst & _)] _].
  exists r. split; [exact E|]. split; [exact Ha|]. split; [exact Hc|].
  assert (Hk : 0 <= 2 < retry_count (config (Scenario.initial 3)))
    by (vm_compute; split; [discriminate | reflexivity]).
  assert (Hf : all_fail Scenario.world_fail_twice 0 2).
  { intros i Hi.
    assert (Ei : i = 0 \/ i = 1) by lia.
    destruct Ei as [-> | ->]; vm_compute; discriminate. }
  assert (Hok : exchange_status (exchanges Scenario.world_fail_twice 2)
                = NTP_OK) by reflexivity.
  destruct (Hfirst 2 Hk Hf Hok) as [Hn Hcommit].
  destruct (Hcommit eq_refl eq_refl)
    as (Hs & _ & He & Hl & _ & Ho & _).
  split; [exact Hn|]. split; [exact Hs|]. split; [exact He|].
  split; [exact Hl | exact Ho].
Defined.

(** C3: [ntp_sync] returns NTP_OK only for a response whose mode (the low
    three bits of the first byte) is 4 or 2 and whose stratum is from 1 to
    15. When the first successful exchange brings a response that breaks
    either condition, [ntp_sync] returns NTP_ERROR_SERVER having made no
    further exchange, whatever the retry count, and leaves the state as it
    was; a first response with stratum 0 makes exactly one exchange. The
    two bytes that are validated are the first two bytes of the datagram. *)
Theorem invalid_response_is_final (w : world) (st : ntp_client_state_t) :
  initialized st = true ->
  is_uint32 (retry_count (config st)) ->
  well_formed_world w ->
  exists r,
    ntp_sync w st = Some r /\
    (sr_status r = NTP_OK ->
     let response := response_at w (sr_attempts r - 1) in
     (Z.land (Packet.li_vn_mode response) 7 = 4
      \/ Z.land (Packet.li_vn_mode response) 7 = 2) /\
     1 <= Packet.stratum response <= 15) /\
    (forall k,
        0 <= k ->
        k < retry_count (config st) \/ k = 0 ->
        all_fail w 0 k ->
        exchange_status (exchanges w k) = NTP_OK ->
        ~ ((Z.land (Packet.li_vn_mode (response_at w k)) 7 = 4
            \/ Z.land (Packet.li_vn_mode (response_at w k)) 7 = 2) /\
           1 <= Packet.stratum (response_at w k) <= 15) ->
        sr_status r = NTP_ERROR_SERVER /\
        sr_attempts r = k + 1 /\
        Z.of_nat (exchange_count (sr_trace r)) = k + 1 /\
        sr_state r = st) /\
    (exchange_status (exchanges w 0) = NTP_OK ->
     Packet.stratum (response_at w 0) = 0 ->
     sr_status r = NTP_ERROR_SERVER /\
     exchange_count (sr_trace r) = 1%nat) /\
    (forall k d,
        exchange_status (exchanges w k) = NTP_OK ->
        recvfrom_dgram (exchanges w k) = Some d ->
        (2 <= length d)%nat ->
        Packet.li_vn_mode (response_at w k) = Mem.load_u8 d 0 /\
        Packet.stratum (response_at w k) = Mem.load_u8 d 1).
Proof.
  intros Hinit HR Hw.
  destruct (ntp_sync_cases w st Hinit HR)
    as (r & E & K0 & K1 & Kfail & Kcount & _ & _ & _ & Cases).
  cbv zeta in *.
  assert (Hlast :
    exchange_status (exchanges w (sr_attempts r - 1)) = NTP_OK
    \/ retry_count (config st) <= sr_attempts r - 1 + 1).
  { destruct Cases as [(_ & H & _) | [(H & _) | (H & _)]]; auto. }
  assert (Hinvalid :
    forall k,
      0 <= k -> k < retry_count (config st) \/ k = 0 ->
      all_fail w 0 k -> exchange_status (exchanges w k) = NTP_OK ->
      ~ ((Z.land (Packet.li_vn_mode (response_at w k)) 7 = 4
          \/ Z.land (Packet.li_vn_mode (response_at w k)) 7 = 2) /\
         1 <= Packet.stratum (response_at w k) <= 15) ->
      sr_status r = NTP_ERROR_SERVER /\
      sr_attempts r = k + 1 /\
      Z.of_nat (exchange_count (sr_trace r)) = k + 1 /\
      sr_state r = st).
  { intros k Hk HkR Hf Hok Hbad.
    assert (Ek : sr_attempts r - 1 = k).
    { eapply last_exchange_is_first_success; eauto. }
    rewrite Ek in Cases.
    destruct Cases as [(Hne & _) | [C | C]]; [contradiction | |].
    - destruct C as (_ & _ & Es & Est).
      split; [assumption|]. split; [lia|]. split; [lia | assumption].
    - destruct C as (_ & Hm & Ht & _). exfalso. apply Hbad.
      apply validation_accepts;
        [apply is_bytes_response_at; assumption | split; assumption]. }
  exists r. split; [assumption|].
  split; [|split; [exact Hinvalid|split]].
  3: intros k d; apply response_header_from_wire.
  - intros Hs.
    destruct Cases as [(Hne & _ & Es & _) | [(_ & _ & Es & _) | C]];
      [congruence | congruence |].
    destruct C as (Hok & Hm & Ht & _).
    apply validation_accepts;
      [apply is_bytes_response_at; assumption | split; assumption].
  - intros Hok H0.
    destruct (Hinvalid 0) as (Es & _ & Hc & _);
      [lia | right; reflexivity | intros i Hi; lia | assumption
      | rewrite H0; lia |].
    split; [assumption | lia].
Qed.

Lemma invalid_response_is_final_witness :
  initialized (Scenario.initial 3) = true /\
  is_uint32 (retry_count (config (Scenario.initial 3))) /\
  exists r,
    ntp_sync Scenario.world_stratum_0 (Scenario.initial 3) = Some r /\
    sr_status r = NTP_ERROR_SERVER /\
    exchange_count (sr_trace r) = 1%nat.
Proof.
  assert (H1 : initialized (Scenario.initial 3) = true) by reflexivity.
  assert (H2 : is_uint32 (retry_count (config (Scenario.initial 3))))
    by (vm_compute; split; [discriminate | reflexivity]).
  assert (H3 : well_formed_world Scenario.world_stratum_0).
  { split.
    - apply Forall_forall. intros x Hx. apply repeat_spec in Hx. subst x.
      vm_compute. split; [discriminate | reflexivity].
    - intros i d Hd. injection Hd as <-.
      repeat (constructor;
              [vm_compute; split; [discriminate | reflexivity]|]).
      constructor. }
  split; [exact H1|]. split; [exact H2|].
  destruct (invalid_response_is_final
              Scenario.world_stratum_0 (Scenario.initial 3) H1 H2 H3)
    as (r & E & _ & _ & P & _).
  exists r. split; [exact E|]. apply P; reflexivity.
Defined.

(* ------------------------------------------------------------------ *)
(** ** The lock *)




(* ------------------------------------------------------------------ *)
(** ** Errors of the exchange *)

(** C6, as stated, fails: when the name does not resolve, the status of the
    exchange, and of [ntp_sync], is NTP_ERROR_NETWORK itself, not a status
    distinct from it. *)
Lemma resolution_failure_is_network_error :
  resolve_hostname Scenario.env_dns_failure = false /\
  exchange_status Scenario.env_dns_failure = NTP_ERROR_NETWORK /\
  ~ (exchange_status Scenario.env_dns_failure <> NTP_ERROR_NETWORK) /\
  option_map sr_status
    (ntp_sync Scenario.world_dns_failure (Scenario.initial 3))
  = Some NTP_ERROR_NETWORK.
Proof.
  repeat split; try reflexivity. intros H. apply H. reflexivity.
Qed.

(** C6, amended: when the resolution of the server name fails, the exchange
    returns NTP_ERROR_NETWORK and leaves the response untouched; when it
    fails at every attempt, [ntp_sync] returns NTP_ERROR_NETWORK and leaves
    the client state as it was. The status codes have no separate code for
    a failed resolution. *)
Theorem resolution_failure_reported_as_network_error
    (w : world) (st : ntp_client_state_t) :
  initialized st = true ->
  is_uint32 (retry_count (config st)) ->
  (forall i, 0 <= i -> resolve_hostname (exchanges w i) = false) ->
  (forall i response,
      0 <= i ->
      fst (send_ntp_request (exchanges w i) response)
      = (NTP_ERROR_NETWORK, response)) /\
  (exists r,
      ntp_sync w st = Some r /\
      sr_status r = NTP_ERROR_NETWORK /\
      sr_state r = st) /\
  (forall s : ntp_status_t,
      In s [NTP_OK; NTP_ERROR_NETWORK; NTP_ERROR_TIMEOUT; NTP_ERROR_SERVER;
            NTP_ERROR_INVALID_PARAM; NTP_ERROR_NOT_INIT]).
Proof.
  intros Hinit HR Hdns.
  assert (Hst : forall i, 0 <= i ->
                  exchange_status (exchanges w i) = NTP_ERROR_NETWORK)
    by (intros i Hi; apply resolution_failure_status, Hdns, Hi).
  split; [|split].
  - intros i response Hi. rewrite send_ntp_request_eq, (Hst i Hi).
    reflexivity.
  - destruct (ntp_sync_cases w st Hinit HR)
      as (r & E & K0 & _ & _ & _ & _ & _ & _ & Cases).
    cbv zeta in *. exists r. split; [assumption|].
    pose proof (Hst _ K0) as Hk.
    destruct Cases as [C | [(Hok & _) | (Hok & _)]];
      [|congruence | congruence].
    destruct C as (_ & _ & Es & Est). split; congruence.
  - intros s. destruct s; simpl; tauto.
Qed.

Lemma resolution_failure_reported_as_network_error_witness :
  initialized (Scenario.initial 3) = true /\
  is_uint32 (retry_count (config (Scenario.initial 3))) /\
  exists r,
    ntp_sync Scenario.world_dns_failure (Scenario.initial 3) = Some r /\
    sr_status r = NTP_ERROR_NETWORK /\
    sr_state r = Scenario.initial 3.
Proof.
  assert (H1 : initialized (Scenario.initial 3) = true) by reflexivity.
  assert (H2 : is_uint32 (retry_count (config (Scenario.initial 3))))
    by (vm_compute; split; [discriminate | reflexivity]).
  split; [exact H1|]. split; [exact H2|].
  exact (proj1 (proj2
    (resolution_failure_reported_as_network_error
       Scenario.world_dns_failure (Scenario.initial 3) H1 H2
       (fun i _ => eq_refl)))).
Defined.

(** When every call succeeds, the exchange succeeds whatever the length of
    the datagram that arrived, the empty one included. *)
Lemma exchange_ignores_datagram_length (d : Mem.bytes) :
  exchange_status (Scenario.env_reply d) = NTP_OK.
Proof. reflexivity. Qed.

(** C7: a datagram of two bytes is not rejected. The exchange returns
    NTP_OK, the 46 bytes that did not arrive are whatever the stack held,
    and [ntp_sync] commits the offset those bytes give: one offset over a
    stack of 0xAA bytes, another over a stack of zeros. *)
Theorem short_datagram_is_accepted :
  length Scenario.short_datagram = 2%nat /\
  exchange_status (Scenario.env_reply Scenario.short_datagram) = NTP_OK /\
  option_map sr_status
    (ntp_sync (Scenario.world_short_datagram Scenario.stale_stack)
              (Scenario.initial 3))
  = Some NTP_OK /\
  ever_synced
    (Scenario.state_after (Scenario.world_short_datagram Scenario.stale_stack)
                          (Scenario.initial 3))
  = true /\
  time_offset
    (Scenario.state_after (Scenario.world_short_datagram Scenario.stale_stack)
                          (Scenario.initial 3))
  = -1045677265 /\
  time_offset
    (Scenario.state_after (Scenario.world_short_datagram (repeat 0 48))
                          (Scenario.initial 3))
  = -3908988795.
Proof. repeat split; vm_compute; reflexivity. Qed.

(* ------------------------------------------------------------------ *)
(** ** Queries *)

(** A client that is not initialised, or has never synced, reports sub-second
    time 0.0 and hundredths 0. *)
Lemma hundredths_zero_unless_synced (st : ntp_client_state_t) (now : timeval) :
  initialized st = false \/ ever_synced st = false ->
  ntp_getCurrentTimeWithMicros st now = 0%float /\
  ntp_getCurrentHundredths st now = 0.
Proof.
  intros H.
  assert (E : ntp_getCurrentTimeWithMicros st now = 0%float).
  { unfold ntp_getCurrentTimeWithMicros.
    destruct H as [-> | ->]; [reflexivity|].
    destruct (initialized st); reflexivity. }
  split; [exact E|].
  unfold ntp_getCurrentHundredths. rewrite E. reflexivity.
Qed.

(** Whatever the state and the clock, the remainder of the division by 100
    keeps the hundredths between -99 and 99. *)
Lemma hundredths_range (st : ntp_client_state_t) (now : timeval) :
  -99 <= ntp_getCurrentHundredths st now <= 99.
Proof.
  unfold ntp_getCurrentHundredths.
  destruct (PrimFloat.eqb (ntp_getCurrentTimeWithMicros st now) 0%float);
    [lia|].
  generalize (Double.to_int
                (PrimFloat.mul
                   (PrimFloat.sub
                      (ntp_getCurrentTimeWithMicros st now)
                      (Double.of_long
                         (Double.to_long
                            (ntp_getCurrentTimeWithMicros st now))))
                   100%float)).
  intros z. Z.quot_rem_to_equations. lia.
Qed.

(** The hundredths of an ordinary synced clock. *)
Example hundredths_after_sync :
  ntp_getCurrentHundredths
    (Scenario.state_after Scenario.world_ok (Scenario.initial 3))
    (Scenario.clock_at 1699999999 123456)
  = 12.
Proof. vm_compute. reflexivity. Qed.

(** C8: a valid response whose transmit timestamp lies before 1970 (second
    0 of the NTP era) is committed, the adjusted time is then negative, and
    half a second past the local second the hundredths are -50, outside of
    0 to 99. *)
Theorem hundredths_negative_before_1970 :
  option_map sr_status
    (ntp_sync Scenario.world_era_start (Scenario.initial 3))
  = Some NTP_OK /\
  ntp_hasEverSynced
    (Scenario.state_after Scenario.world_era_start (Scenario.initial 3))
  = true /\
  time_offset
    (Scenario.state_after Scenario.world_era_start (Scenario.initial 3))
  = -3908988795 /\
  ntp_getCurrentTime
    (Scenario.state_after Scenario.world_era_start (Scenario.initial 3))
    (Scenario.clock_at 1699999999 500000)
  = -2208988796 /\
  ntp_getCurrentHundredths
    (Scenario.state_after Scenario.world_era_start (Scenario.initial 3))
    (Scenario.clock_at 1699999999 500000)
  = -50.
Proof. repeat split; vm_compute; reflexivity. Qed.

(** C9: every query looks at [initialized] before anything else. On a
    client that is not initialised, whatever [ever_synced] holds, the
    current time is 0, the time since the last sync is -1, and the client
    reports that it has never synced; likewise the server name is not
    copied, the sub-second time is 0.0 and the hundredths are 0. This is
    the state before [ntp_init], and the state [ntp_cleanup] leaves, which
    keeps [ever_synced] as it was. *)
Theorem queries_guard_on_initialized
    (st : ntp_client_state_t) (now : timeval) (past : Mem.bytes)
    (buffer : option Mem.bytes) (buffer_size : Z) (st0 : ntp_client_state_t) :
  initialized st = false ->
  (ntp_getCurrentTime st now = 0 /\
   ntp_getTimeSinceLastSync st now = -1 /\
   ntp_hasEverSynced st = false /\
   ntp_getServerName st past buffer buffer_size = (false, buffer) /\
   ntp_getCurrentTimeWithMicros st now = 0%float /\
   ntp_getCurrentHundredths st now = 0) /\
  (initialized (ntp_cleanup st0) = false /\
   ever_synced (ntp_cleanup st0) = ever_synced st0 /\
   ntp_getCurrentTime (ntp_cleanup st0) now = 0 /\
   ntp_getTimeSinceLastSync (ntp_cleanup st0) now = -1 /\
   ntp_hasEverSynced (ntp_cleanup st0) = false) /\
  initialized client_state_init = false.
Proof.
  intros H. split; [|split; [|reflexivity]].
  - unfold ntp_getCurrentTime, ntp_getTimeSinceLastSync, ntp_hasEverSynced,
      ntp_getServerName.
    rewrite H. cbn [negb orb andb].
    split; [reflexivity|]. split; [reflexivity|]. split; [reflexivity|].
    split.
    + destruct buffer as [b|]; [|reflexivity].
      destruct (buffer_size =? 0); reflexivity.
    + apply hundredths_zero_unless_synced. left. assumption.
  - repeat split.
Qed.

Lemma queries_guard_on_initialized_witness :
  initialized Scenario.cleaned_up = false /\
  ever_synced Scenario.cleaned_up = true /\
  ntp_getCurrentTime Scenario.cleaned_up (Scenario.clock_at 1699999999 0) = 0 /\
  ntp_getTimeSinceLastSync Scenario.cleaned_up (Scenario.clock_at 1699999999 0)
  = -1 /\
  ntp_hasEverSynced Scenario.cleaned_up = false.
Proof.
  assert (H : initialized Scenario.cleaned_up = false) by reflexivity.
  split; [exact H|]. split; [reflexivity|].
  destruct (queries_guard_on_initialized
              Scenario.cleaned_up (Scenario.clock_at 1699999999 0)
              [] None 0 client_state_init H)
    as [(H1 & H2 & H3 & _) _].
  split; [exact H1|]. split; [exact H2 | exact H3].
Defined.

(** What [strncpy] writes is as long as asked. *)
Lemma length_strncpy_bytes (src : Mem.bytes) (n : nat) :
  length (Mem.strncpy_bytes src n) = n.
Proof.
  revert src. induction n as [|n IH]; intros src; [reflexivity|].
  cbn [Mem.strncpy_bytes].
  destruct src as [|c src]; [apply repeat_length|].
  destruct (c =? 0); [apply repeat_length|].
  simpl. rewrite IH. reflexivity.
Qed.

(** Followed by a NUL, what [strncpy] writes holds the source string cut
    to [n] characters. *)
Lemma c_string_strncpy_bytes (src rest : Mem.bytes) (n : nat) :
  Mem.c_string (Mem.strncpy_bytes src n ++ 0 :: rest)
  = firstn n (Mem.c_string src).
Proof.
  revert src. induction n as [|n IH]; intros src; [reflexivity|].
  cbn [Mem.strncpy_bytes].
  destruct src as [|c src]; [reflexivity|].
  cbn [Mem.c_string].
  destruct (c =? 0) eqn:Ec; [reflexivity|].
  cbn [app Mem.c_string firstn]. rewrite Ec, IH. reflexivity.
Qed.

(** The buffer after a copy: the name, a NUL, and the bytes past the
    stated capacity as they were. *)
Lemma store_after_strncpy (b src : Mem.bytes) (n : nat) :
  (n < length b)%nat ->
  Mem.store_u8 (Mem.strncpy b src n) n 0
  = Mem.strncpy_bytes src n ++ 0 :: skipn (S n) b.
Proof.
  intros Hn. unfold Mem.strncpy.
  assert (E : (n <=? length b)%nat = true) by (apply Nat.leb_le; lia).
  rewrite E. unfold Mem.store_u8.
  assert (L : length (Mem.strncpy_bytes src n ++ skipn n b) = length b).
  { rewrite length_app, length_strncpy_bytes, length_skipn. lia. }
  rewrite L. apply Nat.ltb_lt in Hn. rewrite Hn.
  rewrite firstn_app, length_strncpy_bytes, Nat.sub_diag.
  rewrite firstn_all2 by (rewrite length_strncpy_bytes; lia).
  cbn [firstn]. rewrite app_nil_r.
  rewrite skipn_app, length_strncpy_bytes.
  rewrite skipn_all2 by (rewrite length_strncpy_bytes; lia).
  replace (S n - n)%nat with 1%nat by lia.
  rewrite skipn_skipn. reflexivity.
Qed.

(** A string that ends inside the first part of the memory, or fills it
    for as far as it is read, is the same read from that part alone. *)
Lemma firstn_c_string_app (a m : Mem.bytes) (n : nat) :
  Mem.reads_within a n ->
  firstn n (Mem.c_string (a ++ m)) = firstn n (Mem.c_string a).
Proof.
  unfold Mem.reads_within. revert n.
  induction a as [|c a IH]; intros n H.
  - destruct H as [H|H]; [contradiction|].
    cbn [length] in H. assert (n = 0%nat) by lia. subst n. reflexivity.
  - cbn [app Mem.c_string].
    destruct (c =? 0) eqn:Ec; [reflexivity|].
    destruct n as [|n]; [reflexivity|]. cbn [firstn]. f_equal.
    apply IH. destruct H as [[H|H]|H].
    + subst c. discriminate.
    + left. assumption.
    + right. cbn [length] in H. lia.
Qed.

(** C10: [ntp_getServerName] returns false and leaves the buffer as it is
    when the pointer is NULL or the capacity is 0 (and whenever it returns
    false). When it returns true, whatever the configured name holds, the
    buffer it was given the capacity of keeps its length and its bytes past
    the capacity, holds a NUL at index capacity - 1, and holds a string of
    fewer characters than the capacity: the string that starts at
    [config.server_name], cut to capacity - 1 characters. That is the
    configured name when the name holds a NUL or the capacity is at most
    257. A name that fills its 256 bytes without a NUL is read on into
    [server_port]: 256 times 'a' with port 123 gives, in a buffer of 300
    bytes, 257 characters, the last one 0x7b. *)
Theorem server_name_buffer_contract
    (st : ntp_client_state_t) (past : Mem.bytes)
    (buffer : option Mem.bytes) (buffer_size : Z) :
  0 <= buffer_size ->
  (forall b, buffer = Some b -> buffer_size <= Z.of_nat (length b)) ->
  (buffer = None \/ buffer_size = 0 ->
   ntp_getServerName st past buffer buffer_size = (false, buffer)) /\
  (fst (ntp_getServerName st past buffer buffer_size) = false ->
   snd (ntp_getServerName st past buffer buffer_size) = buffer) /\
  (fst (ntp_getServerName st past buffer buffer_size) = true ->
   exists b b',
     buffer = Some b /\
     snd (ntp_getServerName st past buffer buffer_size) = Some b' /\
     0 < buffer_size /\
     length b' = length b /\
     Mem.load_u8 b' (Z.to_nat (buffer_size - 1)) = 0 /\
     skipn (Z.to_nat buffer_size) b' = skipn (Z.to_nat buffer_size) b /\
     Z.of_nat (length (Mem.c_string b')) < buffer_size /\
     (Mem.reads_within (server_name_memory st past)
                       (Z.to_nat (buffer_size - 1)) ->
      Mem.c_string b'
      = firstn (Z.to_nat (buffer_size - 1))
               (Mem.c_string (server_name_memory st past))) /\
     (Mem.reads_within (server_name (config st))
                       (Z.to_nat (buffer_size - 1)) ->
      Mem.c_string b'
      = firstn (Z.to_nat (buffer_size - 1))
               (Mem.c_string (server_name (config st))))) /\
  (exists b',
      ntp_getServerName Cases.unterminated [] (Some (repeat 255 300)) 300
      = (true, Some b') /\
      In 0 (server_name_memory Cases.unterminated []) /\
      ~ In 0 (server_name (config Cases.unterminated)) /\
      Mem.c_string b' = repeat 97 256 ++ [123] /\
      length (Mem.c_string b') = 257%nat /\
      Mem.load_u8 b' 299 = 0).
Proof.
  intros Hsize Hcap.
  assert (Hcase :
    exists b',
      ntp_getServerName Cases.unterminated [] (Some (repeat 255 300)) 300
      = (true, Some b') /\
      In 0 (server_name_memory Cases.unterminated []) /\
      ~ In 0 (server_name (config Cases.unterminated)) /\
      Mem.c_string b' = repeat 97 256 ++ [123] /\
      length (Mem.c_string b') = 257%nat /\
      Mem.load_u8 b' 299 = 0).
  { eexists. split; [vm_compute; reflexivity|].
    split.
    { unfold server_name_memory. apply in_or_app. right.
      right. left. reflexivity. }
    split.
    { change (server_name (config Cases.unterminated)) with (repeat 97 256).
      intros H. apply repeat_spec in H. discriminate. }
    split; [vm_compute; reflexivity|].
    split; vm_compute; reflexivity. }
  unfold ntp_getServerName.
  destruct buffer as [b|].
  2:{ split; [reflexivity|]. split; [reflexivity|].
      split; [discriminate | exact Hcase]. }
  specialize (Hcap b eq_refl).
  destruct (buffer_size =? 0) eqn:E0.
  { split; [reflexivity|]. split; [reflexivity|].
    split; [discriminate | exact Hcase]. }
  apply Z.eqb_neq in E0.
  destruct (negb (initialized st) || negb (ever_synced st)).
  { split; [reflexivity|]. split; [reflexivity|].
    split; [discriminate | exact Hcase]. }
  cbn [fst snd].
  split; [intros [H|H]; [discriminate | contradiction]|].
  split; [discriminate|]. split; [|exact Hcase]. intros _.
  set (n := Z.to_nat (buffer_size - 1)).
  set (memory := server_name_memory st past).
  assert (Hn : (n < length b)%nat) by lia.
  assert (En : Z.to_nat buffer_size = S n) by lia.
  exists b. eexists. split; [reflexivity|]. split; [reflexivity|].
  rewrite store_after_strncpy by assumption.
  split; [lia|].
  split.
  { rewrite length_app, length_strncpy_bytes. cbn [length].
    rewrite length_skipn. lia. }
  split.
  { unfold Mem.load_u8. rewrite app_nth2 by (rewrite length_strncpy_bytes; lia).
    rewrite length_strncpy_bytes, Nat.sub_diag. reflexivity. }
  split.
  { rewrite En.
    change (Mem.strncpy_bytes memory n ++ 0 :: skipn (S n) b)
      with (Mem.strncpy_bytes memory n ++ [0] ++ skipn (S n) b).
    rewrite app_assoc, skipn_app.
    rewrite skipn_all2 by (rewrite length_app, length_strncpy_bytes; simpl; lia).
    rewrite length_app, length_strncpy_bytes. cbn [length].
    replace (S n - (n + 1))%nat with 0%nat by lia. reflexivity. }
  rewrite c_string_strncpy_bytes.
  split; [rewrite length_firstn; lia|].
  split; [reflexivity|].
  intros Hname. unfold memory, server_name_memory.
  apply firstn_c_string_app. assumption.
Qed.

Lemma server_name_buffer_contract_witness :
  fst (ntp_getServerName
         (Scenario.state_after Scenario.world_ok (Scenario.initial 3))
         [] (Some (repeat 255 8)) 5) = true /\
  exists b',
    snd (ntp_getServerName
           (Scenario.state_after Scenario.world_ok (Scenario.initial 3))
           [] (Some (repeat 255 8)) 5) = Some b' /\
    Mem.load_u8 b' 4 = 0 /\
    Mem.c_string b' = [116; 101; 115; 116].
Proof.
  assert (H1 : 0 <= 5) by lia.
  assert (H2 : forall b, Some (repeat 255 8) = Some b ->
                         5 <= Z.of_nat (length b)).
  { intros b Hb. injection Hb as <-. simpl. lia. }
  assert (H3 : fst (ntp_getServerName
                      (Scenario.state_after Scenario.world_ok
                                            (Scenario.initial 3))
                      [] (Some (repeat 255 8)) 5) = true)
    by (vm_compute; reflexivity).
  split; [exact H3|].
  destruct (server_name_buffer_contract
              (Scenario.state_after Scenario.world_ok (Scenario.initial 3))
              [] (Some (repeat 255 8)) 5 H1 H2)
    as (_ & _ & P & _).
  destruct (P H3) as (b & b' & _ & Eb & _ & _ & Hnul & _ & _ & _ & Hstr).
  exists b'. split; [exact Eb|]. split; [exact Hnul|].
  apply Hstr. right. simpl. lia.
Defined.

(* ------------------------------------------------------------------ *)
(** * Further properties of the client *)

(** ** The request packet *)

Lemma htonl_ntohl (x : Z) : htonl x = Mem.ntohl x.
Proof. reflexivity. Qed.

(** The bytes of [htonl v] in memory are the bytes of [v], most significant
    first. *)
Lemma le_bytes_htonl (v : Z) :
  is_uint32 v ->
  Mem.le_bytes (htonl v)
  = [ (v / 2 ^ 24) mod 256; (v / 2 ^ 16) mod 256; (v / 2 ^ 8) mod 256;
      v mod 256 ].
Proof.
  intros Hv. unfold is_uint32, UINT32_MOD in Hv.
  change (2 ^ 32) with 4294967296 in Hv.
  set (b0 := v mod 256). set (b1 := (v / 2 ^ 8) mod 256).
  set (b2 := (v / 2 ^ 16) mod 256). set (b3 := (v / 2 ^ 24) mod 256).
  assert (Hb : is_uint8 b0 /\ is_uint8 b1 /\ is_uint8 b2 /\ is_uint8 b3).
  { unfold is_uint8, UINT8_MOD. change (2 ^ 8) with 256.
    repeat split; subst b0 b1 b2 b3; apply Z.mod_pos_bound; lia. }
  destruct Hb as (H0 & H1 & H2 & H3).
  assert (Ev : v = b0 + b1 * 2 ^ 8 + b2 * 2 ^ 16 + b3 * 2 ^ 24).
  { subst b0 b1 b2 b3. change (2 ^ 8) with 256. change (2 ^ 16) with 65536.
    change (2 ^ 24) with 16777216. Z.div_mod_to_equations. lia. }
  rewrite htonl_ntohl. rewrite Ev at 1.
  rewrite ntohl_bytes by assumption.
  unfold Mem.le_bytes. rewrite !land_255, !Z.shiftr_div_pow2 by lia.
  unfold is_uint8, UINT8_MOD in *.
  change (2 ^ 8) with 256 in *. change (2 ^ 16) with 65536 in *.
  change (2 ^ 24) with 16777216 in *.
  clearbody b0 b1 b2 b3. clear Ev.
  repeat f_equal; Z.div_mod_to_equations; lia.
Qed.

(** A value stored through [htonl] reads back in network order. *)
Lemma be32_store_htonl (m : Mem.bytes) (off : nat) (v : Z) :
  (off + 4 <= length m)%nat -> is_uint32 v ->
  Mem.be32 (Mem.store_u32 m off (htonl v)) off = v.
Proof.
  intros Hlen Hv. unfold Mem.be32.
  pose proof (load_u8_store_u32_same m off (htonl v) 0 Hlen ltac:(lia)) as E0.
  rewrite Nat.add_0_r in E0. rewrite E0.
  rewrite !load_u8_store_u32_same by lia.
  rewrite le_bytes_htonl by assumption. cbn [nth].
  unfold is_uint32, UINT32_MOD in Hv.
  change (2 ^ 32) with 4294967296 in Hv.
  change (2 ^ 8) with 256. change (2 ^ 16) with 65536.
  change (2 ^ 24) with 16777216.
  Z.div_mod_to_equations. lia.
Qed.

Lemma be32_store_u32_other (m : Mem.bytes) (off off' : nat) (v : Z) :
  (off' + 4 <= off \/ off + 4 <= off')%nat ->
  Mem.be32 (Mem.store_u32 m off v) off' = Mem.be32 m off'.
Proof.
  intros H. unfold Mem.be32.
  rewrite !load_u8_store_u32_other by lia. reflexivity.
Qed.

Lemma get_fraction_time_range (tv : timeval) : is_uint32 (get_fraction_time tv).
Proof.
  unfold get_fraction_time, uint32_of_double, to_uint32, is_uint32, UINT32_MOD.
  apply Z.mod_pos_bound. lia.
Qed.

(** The packet after the header byte is set: the byte 0x23 and 47 zeros. *)
Lemma create_ntp_packet_eq (tv tv_fraction : timeval) :
  create_ntp_packet tv tv_fraction
  = Mem.store_u32
      (Mem.store_u32 (35 :: repeat 0 47) 40
                     (htonl (unix_time_to_ntp_time (tv_sec tv))))
      44 (htonl (get_fraction_time tv_fraction)).
Proof. reflexivity. Qed.

(** After the conversion the transmit fraction is the value of bytes 44 to
    47 in network order. *)
Lemma tx_timestamp_frac_to_host_order (p : Mem.bytes) :
  (Packet.size <= length p)%nat -> Mem.is_bytes p ->
  Packet.tx_timestamp_frac (Packet.to_host_order p)
  = Mem.be32 p Packet.off_tx_timestamp_frac.
Proof.
  unfold Packet.size, Packet.tx_timestamp_frac, Packet.to_host_order,
    Packet.off_recv_timestamp_sec, Packet.off_recv_timestamp_frac,
    Packet.off_tx_timestamp_sec, Packet.off_tx_timestamp_frac.
  intros Hlen Hb.
  rewrite load_u32_ntohl_field_same.
  - unfold Mem.be32.
    rewrite !load_u8_ntohl_field_other by lia. reflexivity.
  - rewrite !length_ntohl_field. lia.
  - repeat apply is_bytes_ntohl_field. assumption.
Qed.

(** The length of the request, and its two timestamp fields on the wire. *)
Lemma request_layout_aux (tv tv_fraction : timeval) :
  length (create_ntp_packet tv tv_fraction) = Packet.size /\
  Mem.is_bytes (create_ntp_packet tv tv_fraction) /\
  Mem.be32 (create_ntp_packet tv tv_fraction) Packet.off_tx_timestamp_sec
  = unix_time_to_ntp_time (tv_sec tv) /\
  Mem.be32 (create_ntp_packet tv tv_fraction) Packet.off_tx_timestamp_frac
  = get_fraction_time tv_fraction.
Proof.
  rewrite create_ntp_packet_eq.
  assert (Hlen : length (35 :: repeat 0 47) = 48%nat) by reflexivity.
  split; [rewrite !length_store_u32; reflexivity|].
  split.
  { repeat apply is_bytes_store_u32. unfold Mem.is_bytes.
    constructor; [unfold is_uint8, UINT8_MOD; lia|].
    apply Forall_forall. intros x Hx. apply repeat_spec in Hx. subst x.
    unfold is_uint8, UINT8_MOD. lia. }
  unfold Packet.off_tx_timestamp_sec, Packet.off_tx_timestamp_frac.
  split.
  - rewrite be32_store_u32_other by lia.
    apply be32_store_htonl; [rewrite Hlen; lia|].
    apply unix_time_to_ntp_time_range.
  - apply be32_store_htonl; [rewrite length_store_u32, Hlen; lia|].
    apply get_fraction_time_range.
Qed.

(** The header byte of the request. *)
Lemma request_header (tv tv_fraction : timeval) :
  Mem.load_u8 (create_ntp_packet tv tv_fraction) 0 = 35.
Proof.
  rewrite create_ntp_packet_eq.
  rewrite !load_u8_store_u32_other by lia. reflexivity.
Qed.

(** X1: the request is 48 bytes; its first byte is 0x23, that is leap
    indicator 0, version 4 and mode 3 (client); bytes 1 to 39, the stratum
    among them, are zero; bytes 40 to 43 hold the NTP seconds of the clock
    reading in network order and bytes 44 to 47 the fraction. *)
Theorem request_layout (tv tv_fraction : timeval) :
  let p := create_ntp_packet tv tv_fraction in
  length p = Packet.size /\
  Mem.is_bytes p /\
  Packet.li_vn_mode p = 35 /\
  Z.shiftr (Packet.li_vn_mode p) 6 = 0 /\
  Z.land (Z.shiftr (Packet.li_vn_mode p) 3) 7 = NTP_VERSION /\
  Z.land (Packet.li_vn_mode p) 7 = NTP_MODE_CLIENT /\
  (forall i, (1 <= i < 40)%nat -> Mem.load_u8 p i = 0) /\
  Mem.be32 p Packet.off_tx_timestamp_sec
  = unix_time_to_ntp_time (tv_sec tv) /\
  Mem.be32 p Packet.off_tx_timestamp_frac = get_fraction_time tv_fraction.
Proof.
  cbv zeta.
  destruct (request_layout_aux tv tv_fraction) as (Hl & Hb & Hs & Hf).
  assert (Hhead : Packet.li_vn_mode (create_ntp_packet tv tv_fraction) = 35)
    by apply request_header.
  split; [exact Hl|]. split; [exact Hb|].
  split; [exact Hhead|]. rewrite Hhead.
  split; [reflexivity|]. split; [reflexivity|]. split; [reflexivity|].
  split; [|split; assumption].
  intros i Hi. rewrite create_ntp_packet_eq.
  rewrite !load_u8_store_u32_other by lia.
  unfold Mem.load_u8. destruct i as [|i]; [lia|]. cbn [nth].
  apply nth_repeat.
Qed.

(** X2: decoding the request as this client decodes a response gives back
    the transmit seconds and the fraction that were encoded, and, for a
    clock reading from -2208988800 to 2085978495, the Unix seconds of the
    reading. *)
Theorem request_decodes_to_its_timestamp (tv tv_fraction : timeval) :
  - 2208988800 <= tv_sec tv <= 2085978495 ->
  let decoded := Packet.to_host_order (create_ntp_packet tv tv_fraction) in
  Packet.tx_timestamp_sec decoded = unix_time_to_ntp_time (tv_sec tv) /\
  Packet.tx_timestamp_frac decoded = get_fraction_time tv_fraction /\
  ntp_time_to_unix_time (Packet.tx_timestamp_sec decoded) = tv_sec tv.
Proof.
  intros Hw. cbv zeta.
  destruct (request_layout_aux tv tv_fraction) as (Hl & Hb & Hs & Hf).
  rewrite tx_timestamp_sec_to_host_order, tx_timestamp_frac_to_host_order
    by (assumption || (rewrite Hl; apply Nat.le_refl)).
  rewrite Hs, Hf. split; [reflexivity|]. split; [reflexivity|].
  rewrite ntp_time_to_unix_time_exact by apply unix_time_to_ntp_time_range.
  rewrite unix_time_to_ntp_time_mod. unfold NTP_TIMESTAMP_DELTA.
  rewrite Z.mod_small; lia.
Qed.

Lemma request_decodes_to_its_timestamp_witness :
  let decoded := Packet.to_host_order Cases.request in
  Packet.tx_timestamp_sec decoded = 3908988795 /\
  ntp_time_to_unix_time (Packet.tx_timestamp_sec decoded) = 1699999995.
Proof.
  assert (H : - 2208988800 <= tv_sec (Scenario.clock_at 1699999995 250000)
              <= 2085978495) by (simpl; lia).
  destruct (request_decodes_to_its_timestamp
              (Scenario.clock_at 1699999995 250000)
              (Scenario.clock_at 1699999995 250001) H) as (H1 & _ & H3).
  split; [exact H1 | exact H3].
Defined.

(** X3: a request that comes back as it was sent is not taken for a
    response: its mode is 3, so the first exchange that succeeds with such
    a datagram makes [ntp_sync] return NTP_ERROR_SERVER after that one
    exchange, with the client state as it was. *)
Theorem echoed_request_is_rejected
    (w : world) (st : ntp_client_state_t) (tv tv_fraction : timeval) :
  initialized st = true ->
  is_uint32 (retry_count (config st)) ->
  exchange_status (exchanges w 0) = NTP_OK ->
  recvfrom_dgram (exchanges w 0) = Some (create_ntp_packet tv tv_fraction) ->
  exists r,
    ntp_sync w st = Some r /\
    sr_status r = NTP_ERROR_SERVER /\
    sr_attempts r = 1 /\
    sr_state r = st.
Proof.
  intros Hinit HR Hok Hd.
  destruct (ntp_sync_cases w st Hinit HR)
    as (r & E & K0 & K1 & Kfail & _ & _ & _ & _ & Cases).
  cbv zeta in *.
  assert (Hlast :
    exchange_status (exchanges w (sr_attempts r - 1)) = NTP_OK
    \/ retry_count (config st) <= sr_attempts r - 1 + 1).
  { destruct Cases as [(_ & H & _) | [(H & _) | (H & _)]]; auto. }
  assert (Ek : sr_attempts r - 1 = 0).
  { eapply last_exchange_is_first_success; eauto; try lia.
    intros i Hi. lia. }
  rewrite Ek in Cases. exists r. split; [assumption|].
  destruct (request_layout_aux tv tv_fraction) as (Hl & _).
  destruct (response_header_from_wire w 0 _ Hok Hd) as [Hmode _];
    [rewrite Hl; unfold Packet.size; lia|].
  rewrite request_header in Hmode.
  destruct Cases as [(Hne & _) | [C | C]]; [contradiction | |].
  - destruct C as (_ & _ & Es & Est). repeat split; try assumption. lia.
  - destruct C as (_ & Hm & _). exfalso.
    unfold mode_bad in Hm. rewrite Hmode in Hm. discriminate.
Qed.

Lemma echoed_request_is_rejected_witness :
  exists r,
    ntp_sync Cases.world_echo (Scenario.initial 3) = Some r /\
    sr_status r = NTP_ERROR_SERVER /\
    sr_attempts r = 1 /\
    sr_state r = Scenario.initial 3.
Proof.
  apply (echoed_request_is_rejected
           Cases.world_echo (Scenario.initial 3)
           (Scenario.clock_at 1699999995 250000)
           (Scenario.clock_at 1699999995 250001)).
  - reflexivity.
  - vm_compute. split; [discriminate | reflexivity].
  - reflexivity.
  - reflexivity.
Defined.

(* ------------------------------------------------------------------ *)
(** ** The exchange, path by path *)

(** An exchange ends in one of three ways. *)
Lemma exchange_status_kinds (e : exchange_env) :
  exchange_status e = NTP_OK \/
  exchange_status e = NTP_ERROR_NETWORK \/
  exchange_status e = NTP_ERROR_TIMEOUT.
Proof.
  unfold exchange_status, send_ntp_request.
  destruct (socket_ret e <? 0); [auto|].
  destruct (setsockopt_ret e <? 0); [auto|].
  destruct (resolve_hostname e); [|auto]. cbn [negb].
  destruct (inet_pton_ret e <=? 0); [auto|].
  destruct (sendto_ret e <? 0); [auto|].
  destruct (select_ret e <? 0); [auto|].
  destruct (select_ret e =? 0); [auto|].
  destruct (recvfrom_dgram e); auto.
Qed.

(** X4: an exchange returns NTP_OK, NTP_ERROR_NETWORK or NTP_ERROR_TIMEOUT
    and nothing else. It returns NTP_ERROR_TIMEOUT exactly when the socket,
    the resolution and the send succeeded and select() returned 0, and
    NTP_OK exactly when moreover select() returned a positive number and
    recvfrom() did not fail; every other failure is NTP_ERROR_NETWORK. *)
Theorem exchange_status_characterised (e : exchange_env) :
  let reached_select :=
    0 <= socket_ret e /\ 0 <= setsockopt_ret e /\ resolve_hostname e = true /\
    0 < inet_pton_ret e /\ 0 <= sendto_ret e in
  (exchange_status e = NTP_OK \/
   exchange_status e = NTP_ERROR_NETWORK \/
   exchange_status e = NTP_ERROR_TIMEOUT) /\
  (exchange_status e = NTP_ERROR_TIMEOUT <->
   reached_select /\ select_ret e = 0) /\
  (exchange_status e = NTP_OK <->
   reached_select /\ 0 < select_ret e /\ recvfrom_dgram e <> None).
Proof.
  cbv zeta. split; [apply exchange_status_kinds|].
  unfold exchange_status, send_ntp_request.
  destruct (Z.ltb_spec (socket_ret e) 0);
    [split; split; intros H'; try discriminate; lia|].
  destruct (Z.ltb_spec (setsockopt_ret e) 0);
    [split; split; intros H'; try discriminate; lia|].
  destruct (resolve_hostname e);
    [|split; split; intros H'; try discriminate;
      destruct H' as ((_ & _ & H' & _) & _); discriminate].
  cbn [negb].
  destruct (Z.leb_spec (inet_pton_ret e) 0);
    [split; split; intros H'; try discriminate; lia|].
  destruct (Z.ltb_spec (sendto_ret e) 0);
    [split; split; intros H'; try discriminate; lia|].
  destruct (Z.ltb_spec (select_ret e) 0);
    [split; split; intros H'; try discriminate; lia|].
  destruct (Z.eqb_spec (select_ret e) 0).
  { split; split; intros H'; try discriminate; try lia.
    repeat split; try reflexivity; try assumption. }
  destruct (recvfrom_dgram e) as [d|]; cbn [fst];
    split; split; intros H'; try discriminate; try reflexivity; try lia.
  - repeat split; try assumption; try lia. discriminate.
  - destruct H' as (_ & _ & H'). contradiction.
Qed.

(** X5: every exchange calls socket() once; when that call succeeds,
    close() is called exactly once, as the last call of the exchange, on
    each of its ways out; when it fails nothing is closed. *)
Theorem socket_closed_on_every_path (e : exchange_env) :
  exchange_count (exchange_trace e) = 1%nat /\
  hd EvClose (exchange_trace e) = EvSocket /\
  close_count (exchange_trace e)
  = (if socket_ret e <? 0 then 0%nat else 1%nat) /\
  last (exchange_trace e) EvSocket
  = (if socket_ret e <? 0 then EvSocket else EvClose).
Proof.
  unfold exchange_trace, send_ntp_request.
  destruct (socket_ret e <? 0); [repeat split|].
  destruct (setsockopt_ret e <? 0); [repeat split|].
  destruct (resolve_hostname e); [|repeat split]. cbn [negb].
  destruct (inet_pton_ret e <=? 0); [repeat split|].
  destruct (sendto_ret e <? 0); [repeat split|].
  destruct (select_ret e <? 0); [repeat split|].
  destruct (select_ret e =? 0); [repeat split|].
  destruct (recvfrom_dgram e); repeat split.
Qed.

(** X8: the socket timeout is the configured number of milliseconds,
    exactly, as a normalised timeval: the microseconds stay below one
    million. *)
Theorem socket_timeout_exact (timeout_ms : Z) :
  is_uint32 timeout_ms ->
  0 <= tv_sec (socket_timeout timeout_ms) /\
  0 <= tv_usec (socket_timeout timeout_ms) < 1000000 /\
  tv_sec (socket_timeout timeout_ms) * 1000000
  + tv_usec (socket_timeout timeout_ms)
  = timeout_ms * 1000.
Proof.
  unfold is_uint32, socket_timeout. cbn [tv_sec tv_usec]. intros H.
  rewrite to_uint32_id.
  - unfold UINT32_MOD in H. change (2 ^ 32) with 4294967296 in H.
    Z.div_mod_to_equations. lia.
  - unfold is_uint32, UINT32_MOD. change (2 ^ 32) with 4294967296.
    pose proof (Z.mod_pos_bound timeout_ms 1000 ltac:(lia)). lia.
Qed.

Lemma socket_timeout_exact_witness :
  socket_timeout 5000 = {| tv_sec := 5; tv_usec := 0 |} /\
  tv_sec (socket_timeout 1500) * 1000000 + tv_usec (socket_timeout 1500)
  = 1500 * 1000.
Proof.
  split; [reflexivity|].
  apply (socket_timeout_exact 1500).
  vm_compute. split; [discriminate | reflexivity].
Defined.

(* ------------------------------------------------------------------ *)
(** ** What [ntp_sync] keeps *)

(** X6: [ntp_sync] never returns NTP_ERROR_INVALID_PARAM and returns
    NTP_ERROR_NOT_INIT exactly on a client that is not initialised. It
    leaves the configuration and [initialized] as they were, never clears
    [ever_synced], and changes the state only when it returns NTP_OK, in
    which case [ever_synced] is set. *)
Theorem ntp_sync_preserves (w : world) (st : ntp_client_state_t) :
  is_uint32 (retry_count (config st)) ->
  exists r,
    ntp_sync w st = Some r /\
    sr_status r <> NTP_ERROR_INVALID_PARAM /\
    (sr_status r = NTP_ERROR_NOT_INIT <-> initialized st = false) /\
    (sr_status r <> NTP_OK -> sr_state r = st) /\
    (sr_status r = NTP_OK -> ever_synced (sr_state r) = true) /\
    config (sr_state r) = config st /\
    initialized (sr_state r) = initialized st /\
    (ever_synced st = true -> ever_synced (sr_state r) = true).
Proof.
  intros HR. destruct (initialized st) eqn:Hinit.
  - destruct (ntp_sync_cases w st Hinit HR)
      as (r & E & _ & _ & _ & _ & _ & _ & _ & Cases).
    cbv zeta in *. exists r. split; [assumption|].
    destruct Cases as [C | [C | C]].
    + destruct C as (Hne & _ & Es & Est).
      pose proof (exchange_status_kinds
                    (exchanges w (sr_attempts r - 1))) as K.
      rewrite <- Es in K, Hne. rewrite Est.
      repeat split; intros; try assumption; try contradiction;
        try discriminate; destruct K as [K|[K|K]]; congruence.
    + destruct C as (_ & _ & Es & Est). rewrite Es, Est.
      repeat split; intros; try assumption; try contradiction;
        discriminate.
    + destruct C as (_ & _ & _ & Es & Est). rewrite Es, Est.
      unfold commit. cbn [ever_synced config initialized].
      repeat split; intros; try assumption; try contradiction;
        discriminate.
  - unfold ntp_sync. rewrite Hinit. cbn [negb].
    eexists. split; [reflexivity|]. cbn [sr_status sr_state].
    repeat split; intros; try assumption; discriminate.
Qed.

Lemma ntp_sync_preserves_witness :
  exists r,
    ntp_sync Scenario.world_dns_failure Cases.synced = Some r /\
    sr_status r <> NTP_OK /\
    sr_state r = Cases.synced /\
    ever_synced (sr_state r) = true.
Proof.
  assert (H : is_uint32 (retry_count (config Cases.synced)))
    by (vm_compute; split; [discriminate | reflexivity]).
  destruct (ntp_sync_preserves Scenario.world_dns_failure Cases.synced H)
    as (r & E & _ & _ & Hst & _ & _ & _ & Hev).
  exists r. split; [exact E|].
  assert (Hne : sr_status r <> NTP_OK).
  { revert E. vm_compute. intros E. injection E as <-. discriminate. }
  split; [exact Hne|]. split; [exact (Hst Hne)|].
  apply Hev. reflexivity.
Defined.

(* ------------------------------------------------------------------ *)
(** ** The pauses between attempts *)

Lemma usleep_count_app (tr1 tr2 : trace) :
  usleep_count (tr1 ++ tr2) = (usleep_count tr1 + usleep_count tr2)%nat.
Proof.
  unfold usleep_count. rewrite filter_app. apply length_app.
Qed.

Lemma exchange_trace_no_usleep (e : exchange_env) :
  usleep_count (exchange_trace e) = 0%nat.
Proof.
  unfold exchange_trace, send_ntp_request. exchange_cases e.
Qed.

(** In the loop there is one pause between two exchanges and none after the
    last. *)
Lemma sync_loop_pauses (w : world) (cfg : ntp_config_t) :
  forall (fuel : nat) (r : Mem.bytes) (a : Z) status r' a' tr,
    sync_loop fuel w cfg r a = Some (status, r', a', tr) ->
    (usleep_count tr + 1 = exchange_count tr)%nat.
Proof.
  induction fuel as [|fuel IH]; intros r a status r' a' tr;
    rewrite sync_loop_unfold; cbv zeta;
    destruct (negb (status_eqb (exchange_status (exchanges w a)) NTP_OK)
              && (to_uint32 (a + 1) <? retry_count cfg)).
  - discriminate.
  - intros E. injection E as <- <- <- <-.
    rewrite exchange_trace_no_usleep, exchange_trace_count. reflexivity.
  - destruct (sync_loop fuel w cfg _ _) as [[[[s1 r1] a1] tr1]|] eqn:E1;
      [|discriminate].
    intros E. injection E as <- <- <- <-.
    apply IH in E1.
    rewrite usleep_count_app, exchange_count_app,
      exchange_trace_no_usleep, exchange_trace_count.
    assert (Eu : usleep_count (EvUnlock :: EvUsleep :: EvLock :: tr1)
                 = S (usleep_count tr1)) by reflexivity.
    assert (Ee : exchange_count (EvUnlock :: EvUsleep :: EvLock :: tr1)
                 = exchange_count tr1) by reflexivity.
    cbn [app]. rewrite Eu, Ee. lia.
  - intros E. injection E as <- <- <- <-.
    rewrite exchange_trace_no_usleep, exchange_trace_count. reflexivity.
Qed.

(** X7: a sync pauses once between two consecutive exchanges and never
    after the last one: the number of pauses is the number of exchanges
    minus one, at most [retry_count - 1], and zero when the first exchange
    succeeds. *)
Theorem sync_pauses_between_attempts (w : world) (st : ntp_client_state_t) :
  initialized st = true ->
  1 <= retry_count (config st) < UINT32_MOD ->
  exists r,
    ntp_sync w st = Some r /\
    Z.of_nat (usleep_count (sr_trace r)) = sr_attempts r - 1 /\
    Z.of_nat (usleep_count (sr_trace r)) <= retry_count (config st) - 1 /\
    (exchange_status (exchanges w 0) = NTP_OK ->
     usleep_count (sr_trace r) = 0%nat).
Proof.
  intros Hinit HR.
  assert (HR' : is_uint32 (retry_count (config st)))
    by (unfold is_uint32; lia).
  destruct (ntp_sync_cases w st Hinit HR')
    as (r & E & K0 & K1 & Kfail & Kcount & _ & _ & _ & _).
  cbv zeta in *.
  assert (Hp : (usleep_count (sr_trace r) + 1
                = exchange_count (sr_trace r))%nat).
  { revert E. unfold ntp_sync. rewrite Hinit. cbn [negb].
    destruct (sync_loop _ w (config st) (stack_response w) 0)
      as [[[[s1 r1] a1] tr1]|] eqn:E1; [|discriminate].
    apply sync_loop_pauses in E1.
    assert (Ht : (usleep_count (EvLock :: tr1 ++ [EvUnlock]) + 1
                  = exchange_count (EvLock :: tr1 ++ [EvUnlock]))%nat).
    { rewrite sync_trace_count.
      change (EvLock :: tr1 ++ [EvUnlock])
        with ([EvLock] ++ tr1 ++ [EvUnlock]).
      rewrite !usleep_count_app.
      change (usleep_count [EvLock]) with 0%nat.
      change (usleep_count [EvUnlock]) with 0%nat. lia. }
    destruct (negb (status_eqb s1 NTP_OK));
      [|destruct (mode_bad r1); [|destruct (stratum_bad r1)]];
      intros E; injection E as <-; exact Ht. }
  exists r. split; [assumption|]. split; [lia|]. split; [lia|].
  intros Hok.
  assert (sr_attempts r - 1 = 0); [|lia].
  destruct (Z.eq_dec (sr_attempts r - 1) 0) as [|Hne]; [assumption|].
  exfalso. apply (Kfail 0); [lia | assumption].
Qed.

Lemma sync_pauses_between_attempts_witness :
  exists r,
    ntp_sync Scenario.world_fail_twice (Scenario.initial 3) = Some r /\
    Z.of_nat (usleep_count (sr_trace r)) = sr_attempts r - 1 /\
    Z.of_nat (usleep_count (sr_trace r)) <= 3 - 1.
Proof.
  assert (H1 : initialized (Scenario.initial 3) = true) by reflexivity.
  assert (H2 : 1 <= retry_count (config (Scenario.initial 3)) < UINT32_MOD)
    by (vm_compute; split; [discriminate | reflexivity]).
  destruct (sync_pauses_between_attempts
              Scenario.world_fail_twice (Scenario.initial 3) H1 H2)
    as (r & E & Ha & Hb & _).
  exists r. split; [exact E|]. split; [exact Ha | exact Hb].
Defined.

(* ------------------------------------------------------------------ *)
(** ** The clock after a sync *)

Lemma load_u32_range (m : Mem.bytes) (off : nat) :
  Mem.is_bytes m -> is_uint32 (Mem.load_u32 m off).
Proof.
  intros H. rewrite load_u32_bytes by assumption.
  pose proof (is_bytes_nth m off H). pose proof (is_bytes_nth m (off + 1) H).
  pose proof (is_bytes_nth m (off + 2) H).
  pose proof (is_bytes_nth m (off + 3) H).
  unfold is_uint8, UINT8_MOD, is_uint32, UINT32_MOD in *. lia.
Qed.

(** The state a successful [ntp_sync] leaves is the commit of the response of
    its last exchange, and that response is made of bytes. *)
Lemma sync_ok_commit (w : world) (st : ntp_client_state_t) (r : sync_result) :
  initialized st = true ->
  is_uint32 (retry_count (config st)) ->
  well_formed_world w ->
  ntp_sync w st = Some r ->
  sr_status r = NTP_OK ->
  sr_state r
  = commit st (response_at w (sr_attempts r - 1)) (sync_clock w) /\
  is_uint32 (Packet.tx_timestamp_sec (response_at w (sr_attempts r - 1))).
Proof.
  intros Hinit HR Hw E Hs.
  destruct (ntp_sync_cases w st Hinit HR)
    as (r' & E' & _ & _ & _ & _ & _ & _ & _ & Cases).
  assert (r' = r) by congruence. subst r'. cbv zeta in Cases.
  destruct Cases as [(Hne & _ & Es & _) | [(_ & _ & Es & _) | C]];
    [congruence | congruence |].
  destruct C as (Hok & _ & _ & _ & Est).
  split; [assumption|].
  apply load_u32_range, is_bytes_response_at; assumption.
Qed.

(** X9: after a successful sync the adjusted time is the server's transmit
    time plus the local time elapsed since the commit: it equals the server
    time at the instant of the commit, which [ntp_time] records, and it
    advances second for second with the local clock. (Local clock readings
    from 0 to below 2^62.) *)
Theorem adjusted_time_is_server_time_plus_elapsed
    (w : world) (st : ntp_client_state_t) (r : sync_result) (now : timeval) :
  initialized st = true ->
  is_uint32 (retry_count (config st)) ->
  well_formed_world w ->
  ntp_sync w st = Some r ->
  sr_status r = NTP_OK ->
  0 <= tv_sec (sync_clock w) < 2 ^ 62 ->
  0 <= tv_sec now < 2 ^ 62 ->
  let server_time :=
    ntp_time_to_unix_time
      (Packet.tx_timestamp_sec (response_at w (sr_attempts r - 1))) in
  - 2208988800 <= server_time <= 2085978495 /\
  ntp_time (sr_state r) = server_time /\
  ntp_getCurrentTime (sr_state r) (sync_clock w) = server_time /\
  ntp_getCurrentTime (sr_state r) now
  = server_time + (tv_sec now - tv_sec (sync_clock w)).
Proof.
  intros Hinit HR Hw E Hs HT Hnow. cbv zeta.
  destruct (sync_ok_commit w st r Hinit HR Hw E Hs) as [Est Htx].
  rewrite Est.
  rewrite ntp_time_to_unix_time_exact by assumption.
  unfold ntp_getCurrentTime, commit.
  cbn [initialized ever_synced time_offset ntp_time].
  rewrite Hinit. cbn [negb orb].
  rewrite ntp_time_to_unix_time_exact by assumption.
  unfold is_uint32, UINT32_MOD, NTP_TIMESTAMP_DELTA in *.
  change (2 ^ 32) with 4294967296 in Htx.
  change (2 ^ 62) with 4611686018427387904 in *.
  set (tx := Packet.tx_timestamp_sec (response_at w (sr_attempts r - 1))) in *.
  assert (Eo : to_int64 (tx - 2208988800 - tv_sec (sync_clock w))
               = tx - 2208988800 - tv_sec (sync_clock w)).
  { apply to_int64_id. unfold is_int64, INT64_MIN, INT64_MAX.
    change (2 ^ 63) with 9223372036854775808. lia. }
  rewrite Eo.
  split; [lia|]. split; [reflexivity|].
  split; (rewrite to_int64_id;
          [lia | unfold is_int64, INT64_MIN, INT64_MAX;
                 change (2 ^ 63) with 9223372036854775808; lia]).
Qed.

Lemma well_formed_world_ok : well_formed_world Scenario.world_ok.
Proof.
  split.
  - apply Forall_forall. intros x Hx. apply repeat_spec in Hx. subst x.
    vm_compute. split; [discriminate | reflexivity].
  - intros i d Hd. injection Hd as <-.
    repeat (constructor;
            [vm_compute; split; [discriminate | reflexivity]|]).
    constructor.
Qed.

Lemma adjusted_time_is_server_time_plus_elapsed_witness :
  exists r,
    ntp_sync Scenario.world_ok (Scenario.initial 3) = Some r /\
    ntp_getCurrentTime (sr_state r) (Scenario.clock_at 1700003595 0)
    = ntp_time_to_unix_time
        (Packet.tx_timestamp_sec
           (response_at Scenario.world_ok (sr_attempts r - 1)))
      + (1700003595 - 1699999995).
Proof.
  destruct (ntp_sync Scenario.world_ok (Scenario.initial 3)) as [r|] eqn:E;
    [|vm_compute in E; discriminate].
  exists r. split; [reflexivity|].
  refine (proj2 (proj2 (proj2
    (adjusted_time_is_server_time_plus_elapsed
       Scenario.world_ok (Scenario.initial 3) r
       (Scenario.clock_at 1700003595 0) eq_refl _ well_formed_world_ok
       E _ _ _)))).
  - vm_compute. split; [discriminate | reflexivity].
  - revert E. vm_compute. intros E. injection E as <-. reflexivity.
  - vm_compute. split; [discriminate | reflexivity].
  - vm_compute. split; [discriminate | reflexivity].
Defined.

(** X10: after a successful sync the time since the last sync is the local
    clock minus its reading at the commit: 0 or 1 within the second that
    follows, and negative when the local clock has been set back. One
    second back it is -1, the value that also stands for "never synced". *)
Theorem time_since_sync_is_local_elapsed
    (w : world) (st : ntp_client_state_t) (r : sync_result) (now : timeval) :
  initialized st = true ->
  is_uint32 (retry_count (config st)) ->
  well_formed_world w ->
  ntp_sync w st = Some r ->
  sr_status r = NTP_OK ->
  0 <= tv_sec (sync_clock w) < 2 ^ 62 ->
  0 <= tv_sec now < 2 ^ 62 ->
  ntp_getTimeSinceLastSync (sr_state r) now
  = tv_sec now - tv_sec (sync_clock w) /\
  ntp_getTimeSinceLastSync (sr_state r) (sync_clock w) = 0 /\
  (tv_sec (sync_clock w) <= tv_sec now <= tv_sec (sync_clock w) + 1 ->
   0 <= ntp_getTimeSinceLastSync (sr_state r) now <= 1) /\
  (ntp_getTimeSinceLastSync (sr_state r) now = -1 <->
   tv_sec now = tv_sec (sync_clock w) - 1).
Proof.
  intros Hinit HR Hw E Hs HT Hnow.
  destruct (sync_ok_commit w st r Hinit HR Hw E Hs) as [Est _].
  rewrite Est. unfold ntp_getTimeSinceLastSync, commit.
  cbn [initialized ever_synced last_sync_time].
  rewrite Hinit. cbn [negb orb].
  change (2 ^ 62) with 4611686018427387904 in *.
  rewrite !to_int64_id
    by (unfold is_int64, INT64_MIN, INT64_MAX;
        change (2 ^ 63) with 9223372036854775808; lia).
  repeat split; lia.
Qed.

Lemma time_since_sync_is_local_elapsed_witness :
  exists r,
    ntp_sync Scenario.world_ok (Scenario.initial 3) = Some r /\
    ntp_getTimeSinceLastSync (sr_state r) (Scenario.clock_at 1700003595 0)
    = 3600.
Proof.
  destruct (ntp_sync Scenario.world_ok (Scenario.initial 3)) as [r|] eqn:E;
    [|vm_compute in E; discriminate].
  exists r. split; [reflexivity|].
  refine (proj1
    (time_since_sync_is_local_elapsed
       Scenario.world_ok (Scenario.initial 3) r
       (Scenario.clock_at 1700003595 0) eq_refl _ well_formed_world_ok
       E _ _ _)).
  - vm_compute. split; [discriminate | reflexivity].
  - revert E. vm_compute. intros E. injection E as <-. reflexivity.
  - vm_compute. split; [discriminate | reflexivity].
  - vm_compute. split; [discriminate | reflexivity].
Defined.

(* ------------------------------------------------------------------ *)
(** ** The server name *)

(** X11: [ntp_setServer] refuses a NULL name with NTP_ERROR_INVALID_PARAM
    and a client that is not initialised with NTP_ERROR_NOT_INIT, leaving
    the state as it was. Otherwise it returns NTP_OK and replaces the
    configured name by the given string cut to 255 characters, always
    NUL-terminated within the 256 bytes of the array; the port, the
    timeout, the retry count, the sync interval and the whole sync state
    (ever_synced, offset, time of the last sync) stay as they were. *)
Theorem set_server_contract
    (name : option Mem.bytes) (st : ntp_client_state_t) :
  length (server_name (config st)) = SERVER_NAME_SIZE ->
  let status := fst (ntp_setServer name st) in
  let st' := snd (ntp_setServer name st) in
  (status = NTP_ERROR_INVALID_PARAM <-> name = None) /\
  (status = NTP_ERROR_NOT_INIT <-> name <> None /\ initialized st = false) /\
  (status <> NTP_OK -> st' = st) /\
  (status = NTP_OK ->
   exists src,
     name = Some src /\
     length (server_name (config st')) = SERVER_NAME_SIZE /\
     Mem.load_u8 (server_name (config st')) 255 = 0 /\
     Mem.c_string (server_name (config st')) = firstn 255 (Mem.c_string src) /\
     server_port (config st') = server_port (config st) /\
     timeout_ms (config st') = timeout_ms (config st) /\
     retry_count (config st') = retry_count (config st) /\
     sync_interval (config st') = sync_interval (config st) /\
     initialized st' = initialized st /\
     ever_synced st' = ever_synced st /\
     time_offset st' = time_offset st /\
     last_sync_time st' = last_sync_time st /\
     ntp_time st' = ntp_time st).
Proof.
  intros Hlen. cbv zeta. unfold ntp_setServer.
  destruct name as [src|]; cbn [fst snd].
  2:{ repeat split; intros; try reflexivity; try discriminate;
        try contradiction.
      destruct H as [H _]. contradiction. }
  destruct (initialized st) eqn:Hinit; cbn [negb fst snd].
  2:{ repeat split; intros; try reflexivity; try discriminate;
        try contradiction. }
  split; [split; discriminate|].
  split; [split; [discriminate | intros [_ H]; discriminate]|].
  split; [intros H; contradiction|]. intros _.
  exists src. split; [reflexivity|].
  cbn [config server_name server_port timeout_ms retry_count sync_interval
       initialized ever_synced time_offset last_sync_time ntp_time].
  unfold SERVER_NAME_SIZE in *.
  change (256 - 1)%nat with 255%nat.
  rewrite store_after_strncpy by lia.
  split.
  { rewrite length_app, length_strncpy_bytes. cbn [length].
    rewrite length_skipn. lia. }
  split.
  { unfold Mem.load_u8.
    rewrite app_nth2 by (rewrite length_strncpy_bytes; lia).
    rewrite length_strncpy_bytes, Nat.sub_diag. reflexivity. }
  split; [apply c_string_strncpy_bytes|].
  repeat split.
Qed.

Lemma set_server_contract_witness :
  fst (ntp_setServer (Some Cases.other_server) Cases.synced) = NTP_OK /\
  Mem.c_string
    (server_name
       (config (snd (ntp_setServer (Some Cases.other_server) Cases.synced))))
  = Display.bytes_of_string "time.example.org"%string.
Proof.
  assert (H : length (server_name (config Cases.synced)) = SERVER_NAME_SIZE)
    by reflexivity.
  assert (Hs : fst (ntp_setServer (Some Cases.other_server) Cases.synced)
               = NTP_OK) by reflexivity.
  split; [exact Hs|].
  destruct (set_server_contract (Some Cases.other_server) Cases.synced H)
    as (_ & _ & _ & P).
  destruct (P Hs) as (src & Esrc & _ & _ & Hc & _).
  injection Esrc as <-. exact Hc.
Defined.

(** X12: a name set with [ntp_setServer] on a synced client is what
    [ntp_getServerName] then copies out: the string cut to 255 characters
    and to the capacity of the buffer minus one; a name of at most 255
    characters comes back whole in a buffer that has room for it. *)
Theorem set_then_get_server_name
    (st : ntp_client_state_t) (src b past : Mem.bytes) (buffer_size : Z) :
  initialized st = true ->
  ever_synced st = true ->
  length (server_name (config st)) = SERVER_NAME_SIZE ->
  0 < buffer_size <= Z.of_nat (length b) ->
  let st' := snd (ntp_setServer (Some src) st) in
  exists b',
    ntp_getServerName st' past (Some b) buffer_size = (true, Some b') /\
    Mem.c_string b'
    = firstn (Nat.min (Z.to_nat (buffer_size - 1)) 255) (Mem.c_string src) /\
    ((length (Mem.c_string src) <= 255)%nat ->
     Z.of_nat (length (Mem.c_string src)) < buffer_size ->
     Mem.c_string b' = Mem.c_string src).
Proof.
  intros Hinit Hsync Hlen Hsize. cbv zeta.
  unfold ntp_setServer. rewrite Hinit. cbn [negb snd].
  unfold ntp_getServerName.
  cbn [config server_name initialized ever_synced].
  rewrite Hsync. cbn [negb orb].
  destruct (buffer_size =? 0) eqn:E0; [apply Z.eqb_eq in E0; lia|].
  eexists. split; [reflexivity|].
  unfold server_name_memory. cbn [config server_name server_port].
  unfold SERVER_NAME_SIZE in *. change (256 - 1)%nat with 255%nat.
  rewrite (store_after_strncpy (server_name (config st)) src 255) by lia.
  rewrite (store_after_strncpy b) by lia.
  rewrite <- app_assoc. cbn [app].
  rewrite c_string_strncpy_bytes, c_string_strncpy_bytes.
  rewrite firstn_firstn.
  split; [reflexivity|].
  intros H1 H2. apply firstn_all2. lia.
Qed.

Lemma set_then_get_server_name_witness :
  exists b',
    ntp_getServerName
      (snd (ntp_setServer (Some Cases.other_server) Cases.synced))
      [] (Some (repeat 255 32)) 32
    = (true, Some b') /\
    Mem.c_string b' = Display.bytes_of_string "time.example.org"%string.
Proof.
  assert (H1 : initialized Cases.synced = true) by reflexivity.
  assert (H2 : ever_synced Cases.synced = true) by reflexivity.
  assert (H3 : length (server_name (config Cases.synced)) = SERVER_NAME_SIZE)
    by reflexivity.
  assert (H4 : 0 < 32 <= Z.of_nat (length (repeat 255 32)))
    by (simpl; lia).
  destruct (set_then_get_server_name
              Cases.synced Cases.other_server (repeat 255 32) [] 32
              H1 H2 H3 H4)
    as (b' & E & _ & P).
  exists b'. split; [exact E|].
  apply P; simpl; lia.
Defined.

(* ------------------------------------------------------------------ *)
(** ** The life cycle *)

(** X13: [ntp_init] fails with NTP_ERROR_INVALID_PARAM on a NULL
    configuration and with NTP_ERROR_NETWORK when the mutex cannot be
    created, leaving the state as it was. When it succeeds the client holds
    the given configuration and has never synced, whatever it held before:
    the current time is 0, the time since the last sync is -1 and no server
    name is given out, until the next successful sync. *)
Theorem init_forgets_sync
    (cfg : option ntp_config_t) (mutex_init_ret : Z)
    (st : ntp_client_state_t) (now : timeval) (past : Mem.bytes)
    (buffer : option Mem.bytes) (buffer_size : Z) :
  let status := fst (ntp_init cfg mutex_init_ret st) in
  let st' := snd (ntp_init cfg mutex_init_ret st) in
  (status = NTP_ERROR_INVALID_PARAM <-> cfg = None) /\
  (status = NTP_ERROR_NETWORK <-> cfg <> None /\ mutex_init_ret <> 0) /\
  (status = NTP_OK \/ st' = st) /\
  (status = NTP_OK <->
   cfg = Some (config st') /\ mutex_init_ret = 0 /\ initialized st' = true /\
   ntp_hasEverSynced st' = false /\
   ntp_getCurrentTime st' now = 0 /\
   ntp_getTimeSinceLastSync st' now = -1 /\
   ntp_getServerName st' past buffer buffer_size = (false, buffer) /\
   time_offset st' = 0).
Proof.
  cbv zeta. unfold ntp_init.
  destruct cfg as [c|]; cbn [fst snd].
  2:{ repeat split; intros; try discriminate; try contradiction; auto.
      - destruct H as [H _]. contradiction.
      - destruct H as [H _]. discriminate. }
  destruct (Z.eqb_spec mutex_init_ret 0) as [->|Hne]; cbn [negb fst snd].
  - split; [split; discriminate|].
    split; [split; [discriminate | intros [_ H]; contradiction]|].
    split; [left; reflexivity|].
    split; [intros _|reflexivity].
    unfold ntp_hasEverSynced, ntp_getCurrentTime, ntp_getTimeSinceLastSync,
      ntp_getServerName.
    cbn [config initialized ever_synced time_offset negb orb andb].
    repeat split.
    destruct buffer as [b|]; [|reflexivity].
    destruct (buffer_size =? 0); reflexivity.
  - split; [split; discriminate|].
    split; [split; [intros _; split; [discriminate | assumption]
                   | reflexivity]|].
    split; [right; reflexivity|].
    split; [discriminate|].
    intros (_ & H & _). contradiction.
Qed.

(** X14: on a client that has been cleaned up, [ntp_sync] returns
    NTP_ERROR_NOT_INIT at once, with the lock taken and released and no
    exchange, pause or network call made, and [ntp_setServer] fails too;
    both leave the state as [ntp_cleanup] left it, which is the state
    before it but for [initialized]. *)
Theorem cleaned_up_client_refuses
    (w : world) (name : option Mem.bytes) (st : ntp_client_state_t) :
  let st' := ntp_cleanup st in
  ntp_sync w st'
  = Some {| sr_status := NTP_ERROR_NOT_INIT; sr_state := st';
            sr_attempts := 0; sr_trace := [EvLock; EvUnlock] |} /\
  fst (ntp_setServer name st') <> NTP_OK /\
  snd (ntp_setServer name st') = st' /\
  ntp_cleanup st' = st' /\
  config st' = config st /\
  time_offset st' = time_offset st /\
  last_sync_time st' = last_sync_time st /\
  ever_synced st' = ever_synced st.
Proof.
  cbv zeta. split; [reflexivity|].
  unfold ntp_setServer.
  destruct name; cbn [ntp_cleanup initialized negb fst snd];
    repeat split; discriminate.
Qed.

(* ------------------------------------------------------------------ *)
(** * Properties of the display *)

(** ** When the display syncs *)

Lemma to_int_id (z : Z) :
  - 2 ^ 31 <= z <= Display.INT_MAX -> Display.to_int z = z.
Proof.
  unfold Display.to_int, Display.INT_MAX. intros H.
  rewrite Z.mod_small; lia.
Qed.

(** X15: the main loop syncs again when the time since the last sync, as
    an [int], is negative or at least 7200 seconds. After a successful sync
    made when the local clock read T, that time is, when the local clock
    reads L, the low 32 bits of L - T as a signed number: no sync is due
    exactly when (L - T) mod 2^32 is below 7200. So the loop does not sync
    during the 7200 seconds that follow T, does from T + 7200 up to
    T + 2^31 - 1, and does when the clock reads up to 2^31 seconds earlier
    than T; further away the conversion to [int] wraps around, and at
    L = T + 2^32 the time since the sync reads 0 and no sync is due. A
    client that has never synced, or is not initialised, is always due. *)
Theorem sync_policy
    (w : world) (st : ntp_client_state_t) (r : sync_result) (now : timeval) :
  initialized st = true ->
  is_uint32 (retry_count (config st)) ->
  well_formed_world w ->
  ntp_sync w st = Some r ->
  sr_status r = NTP_OK ->
  0 <= tv_sec (sync_clock w) < 2 ^ 62 ->
  0 <= tv_sec now < 2 ^ 62 ->
  let T := tv_sec (sync_clock w) in
  let L := tv_sec now in
  (T <= L < T + 7200 ->
   Display.sync_due (Display.time_since_sync (sr_state r) now) = false) /\
  (T + 7200 <= L < T + 2 ^ 31 ->
   Display.sync_due (Display.time_since_sync (sr_state r) now) = true) /\
  (T - 2 ^ 31 <= L < T ->
   Display.sync_due (Display.time_since_sync (sr_state r) now) = true) /\
  (forall st0 now0,
      initialized st0 = false \/ ever_synced st0 = false ->
      Display.sync_due (Display.time_since_sync st0 now0) = true) /\
  Display.time_since_sync (sr_state r) now = Display.to_int (L - T) /\
  (Display.sync_due (Display.time_since_sync (sr_state r) now) = false
   <-> (L - T) mod 2 ^ 32 < 7200) /\
  (L = T + 2 ^ 32 ->
   Display.time_since_sync (sr_state r) now = 0 /\
   Display.sync_due (Display.time_since_sync (sr_state r) now) = false) /\
  (L = T + 2 ^ 31 ->
   Display.time_since_sync (sr_state r) now = - 2 ^ 31 /\
   Display.sync_due (Display.time_since_sync (sr_state r) now) = true).
Proof.
  intros Hinit HR Hw E Hs HT Hnow. cbv zeta.
  destruct (sync_ok_commit w st r Hinit HR Hw E Hs) as [Est _].
  assert (Et : ntp_getTimeSinceLastSync (sr_state r) now
               = tv_sec now - tv_sec (sync_clock w)).
  { rewrite Est. unfold ntp_getTimeSinceLastSync, commit.
    cbn [initialized ever_synced last_sync_time].
    rewrite Hinit. cbn [negb orb].
    change (2 ^ 62) with 4611686018427387904 in *.
    apply to_int64_id. unfold is_int64, INT64_MIN, INT64_MAX.
    change (2 ^ 63) with 9223372036854775808. lia. }
  unfold Display.time_since_sync, Display.sync_due. rewrite Et.
  set (z := tv_sec now - tv_sec (sync_clock w)).
  assert (Hdue : forall v,
             (v >=? 7200) || (v <? 0) = false <-> 0 <= v < 7200).
  { intros v. rewrite orb_false_iff, Z.geb_leb, Z.leb_gt, Z.ltb_ge. lia. }
  assert (Hdue' : forall v,
             v < 0 \/ 7200 <= v -> (v >=? 7200) || (v <? 0) = true).
  { intros v Hv. apply orb_true_iff. rewrite Z.geb_leb, Z.leb_le, Z.ltb_lt.
    lia. }
  assert (Hwrap : 0 <= Display.to_int z < 7200 <-> z mod 2 ^ 32 < 7200).
  { unfold Display.to_int. change (2 ^ 31) with 2147483648.
    change (2 ^ 32) with 4294967296.
    Z.div_mod_to_equations. lia. }
  change (2 ^ 31) with 2147483648 in *.
  change (2 ^ 32) with 4294967296 in *.
  split; [|split; [|split; [|split; [|split; [|split; [|split]]]]]].
  - intros H. rewrite to_int_id
      by (unfold Display.INT_MAX; change (2 ^ 31) with 2147483648;
          unfold z; lia).
    apply Hdue. unfold z. lia.
  - intros H. rewrite to_int_id
      by (unfold Display.INT_MAX; change (2 ^ 31) with 2147483648;
          unfold z; lia).
    apply Hdue'. unfold z. lia.
  - intros H. rewrite to_int_id
      by (unfold Display.INT_MAX; change (2 ^ 31) with 2147483648;
          unfold z; lia).
    apply Hdue'. unfold z. lia.
  - intros st0 now0 H0.
    assert (E0 : ntp_getTimeSinceLastSync st0 now0 = -1).
    { unfold ntp_getTimeSinceLastSync.
      destruct H0 as [-> | ->]; [reflexivity|].
      destruct (initialized st0); reflexivity. }
    rewrite E0. reflexivity.
  - reflexivity.
  - rewrite Hdue. exact Hwrap.
  - intros HL.
    assert (Ez : z = 4294967296) by (unfold z; lia).
    rewrite Ez. split; reflexivity.
  - intros HL.
    assert (Ez : z = 2147483648) by (unfold z; lia).
    rewrite Ez. split; reflexivity.
Qed.

Lemma sync_policy_witness :
  exists r,
    ntp_sync Scenario.world_ok (Scenario.initial 3) = Some r /\
    Display.sync_due
      (Display.time_since_sync (sr_state r) (Scenario.clock_at 1700003595 0))
    = false.
Proof.
  destruct (ntp_sync Scenario.world_ok (Scenario.initial 3)) as [r|] eqn:E;
    [|vm_compute in E; discriminate].
  exists r. split; [reflexivity|].
  refine (proj1
    (sync_policy
       Scenario.world_ok (Scenario.initial 3) r
       (Scenario.clock_at 1700003595 0) eq_refl _ well_formed_world_ok
       E _ _ _) _).
  - vm_compute. split; [discriminate | reflexivity].
  - revert E. vm_compute. intros E. injection E as <-. reflexivity.
  - vm_compute. split; [discriminate | reflexivity].
  - vm_compute. split; [discriminate | reflexivity].
  - simpl. lia.
Defined.

Lemma status_code_zero (s : ntp_status_t) :
  status_code s = 0 <-> s = NTP_OK.
Proof. destruct s; simpl; split; intros H; try discriminate; reflexivity. Qed.

(** X16: [sync_with_ntp] returns 1 when [ntp_sync] returns NTP_OK and 0
    otherwise, and leaves the state [ntp_sync] leaves. The line it prints
    first is made before the sync: on a client that has not synced yet, as
    at start-up, it reads "Syncing with NTP server: Not connected."
    whatever server is configured; on a synced client it names the
    configured server, cut to 255 characters: the string that starts at
    [config.server_name], which is the configured name, the name being the
    array of 256 bytes it is in C. *)
Theorem sync_with_ntp_reports
    (w : world) (stack past : Mem.bytes) (st : ntp_client_state_t) :
  is_uint32 (retry_count (config st)) ->
  (256 <= length stack)%nat ->
  exists r ret out,
    ntp_sync w st = Some r /\
    Display.sync_with_ntp w stack past st = Some (ret, sr_state r, out) /\
    (ret = 1 <-> sr_status r = NTP_OK) /\
    (ret = 0 <-> sr_status r <> NTP_OK) /\
    length out = 2%nat /\
    (ntp_hasEverSynced st = false ->
     hd [] out
     = Display.bytes_of_string
         "Syncing with NTP server: Not connected."%string) /\
    (ntp_hasEverSynced st = true ->
     length (server_name (config st)) = SERVER_NAME_SIZE ->
     hd [] out
     = Display.bytes_of_string "Syncing with NTP server: "%string
       ++ firstn 255 (Mem.c_string (server_name (config st)))) /\
    (ntp_hasEverSynced st = true ->
     hd [] out
     = Display.bytes_of_string "Syncing with NTP server: "%string
       ++ firstn 255 (Mem.c_string (server_name_memory st past))).
Proof.
  intros HR Hstack.
  destruct (ntp_sync_total w st HR) as [r E].
  unfold Display.sync_with_ntp. rewrite E. cbv zeta.
  assert (Hmsg :
    forall b : Mem.bytes,
      (ntp_hasEverSynced st = false ->
       Display.bytes_of_string "Syncing with NTP server: "%string
       ++ Mem.c_string
            (match ntp_getServerName st past (Some stack) 256 with
             | (true, Some b) => b
             | _ => Display.strcpy stack
                      (Display.bytes_of_string "Not connected."%string)
             end)
       = Display.bytes_of_string
           "Syncing with NTP server: Not connected."%string) /\
      (ntp_hasEverSynced st = true ->
       length (server_name (config st)) = SERVER_NAME_SIZE ->
       Display.bytes_of_string "Syncing with NTP server: "%string
       ++ Mem.c_string
            (match ntp_getServerName st past (Some stack) 256 with
             | (true, Some b) => b
             | _ => Display.strcpy stack
                      (Display.bytes_of_string "Not connected."%string)
             end)
       = Display.bytes_of_string "Syncing with NTP server: "%string
         ++ firstn 255 (Mem.c_string (server_name (config st)))) /\
      (ntp_hasEverSynced st = true ->
       Display.bytes_of_string "Syncing with NTP server: "%string
       ++ Mem.c_string
            (match ntp_getServerName st past (Some stack) 256 with
             | (true, Some b) => b
             | _ => Display.strcpy stack
                      (Display.bytes_of_string "Not connected."%string)
             end)
       = Display.bytes_of_string "Syncing with NTP server: "%string
         ++ firstn 255 (Mem.c_string (server_name_memory st past)))).
  { intros _. unfold ntp_hasEverSynced, ntp_getServerName.
    change (256 =? 0) with false. cbv iota.
    split; [intros H | split; [intros H Hlen | intros H]].
    - assert (Hn : negb (initialized st) || negb (ever_synced st) = true)
        by (destruct (initialized st), (ever_synced st);
            simpl in *; congruence).
      rewrite Hn. reflexivity.
    - apply andb_true_iff in H. destruct H as [-> ->]. cbn [negb orb].
      change (Z.to_nat (256 - 1)) with 255%nat.
      rewrite store_after_strncpy by lia.
      rewrite c_string_strncpy_bytes. unfold server_name_memory.
      rewrite firstn_c_string_app; [reflexivity|].
      right. rewrite Hlen. unfold SERVER_NAME_SIZE. lia.
    - apply andb_true_iff in H. destruct H as [-> ->]. cbn [negb orb].
      change (Z.to_nat (256 - 1)) with 255%nat.
      rewrite store_after_strncpy by lia.
      rewrite c_string_strncpy_bytes. reflexivity. }
  specialize (Hmsg []).
  destruct (status_code (sr_status r) =? 0) eqn:Ec.
  - apply Z.eqb_eq, status_code_zero in Ec.
    exists r, 1. eexists. split; [reflexivity|]. split; [reflexivity|].
    split; [tauto|]. split; [split; [discriminate | contradiction]|].
    split; [reflexivity|]. exact Hmsg.
  - apply Z.eqb_neq in Ec. rewrite status_code_zero in Ec.
    exists r, 0. eexists. split; [reflexivity|]. split; [reflexivity|].
    split; [split; [discriminate | contradiction]|]. split; [tauto|].
    split; [reflexivity|]. exact Hmsg.
Qed.

Lemma sync_with_ntp_reports_witness :
  exists r ret out,
    ntp_sync Scenario.world_ok (Scenario.initial 3) = Some r /\
    Display.sync_with_ntp Scenario.world_ok (repeat 170 256) []
                          (Scenario.initial 3)
    = Some (ret, sr_state r, out) /\
    hd [] out
    = Display.bytes_of_string
        "Syncing with NTP server: Not connected."%string.
Proof.
  assert (H1 : is_uint32 (retry_count (config (Scenario.initial 3))))
    by (vm_compute; split; [discriminate | reflexivity]).
  assert (H2 : (256 <= length (repeat 170 256))%nat)
    by (rewrite repeat_length; apply Nat.le_refl).
  destruct (sync_with_ntp_reports
              Scenario.world_ok (repeat 170 256) [] (Scenario.initial 3)
              H1 H2)
    as (r & ret & out & E & Es & _ & _ & _ & Hn & _).
  exists r, ret, out. split; [exact E|]. split; [exact Es|].
  apply Hn. reflexivity.
Defined.

(* ------------------------------------------------------------------ *)
(** ** The times of the status bar *)

(** X17: hours, minutes and seconds of the time since the last sync
    decompose it exactly, with minutes and seconds below 60. *)
Theorem time_since_sync_decomposes (t : Z) :
  0 <= t ->
  0 <= Display.hours_since t /\
  0 <= Display.mins_since t < 60 /\
  0 <= Display.secs_since t < 60 /\
  Display.hours_since t * 3600 + Display.mins_since t * 60
  + Display.secs_since t = t.
Proof.
  intros Ht. unfold Display.hours_since, Display.mins_since,
    Display.secs_since.
  Z.quot_rem_to_equations. lia.
Qed.

Lemma time_since_sync_decomposes_witness :
  Display.hours_since 3725 * 3600 + Display.mins_since 3725 * 60
  + Display.secs_since 3725 = 3725.
Proof.
  apply (time_since_sync_decomposes 3725). lia.
Defined.

(** X18: the seconds to the next sync are from 1 to 7200 and never 0.
    The divisor of the progress, the [int] sum of the time since the last
    sync and of them, is a positive multiple of 7200 within the range of
    [int], so the division never divides by zero, as long as that time is
    below 2147479200; from there on the sum is more than INT_MAX and the
    addition of the two [int]s overflows. Within the first 7200 seconds
    the sum is 7200. When the client has never synced the seconds to the
    next sync are 7200. *)
Theorem seconds_to_next_sync_range (t t' : Z) :
  0 <= t ->
  t' < 0 ->
  1 <= Display.seconds_to_next_sync t <= 7200 /\
  (t < 2147479200 ->
   0 < t + Display.seconds_to_next_sync t <= Display.INT_MAX /\
   Display.to_int (t + Display.seconds_to_next_sync t)
   = t + Display.seconds_to_next_sync t /\
   (t + Display.seconds_to_next_sync t) mod 7200 = 0) /\
  (2147479200 <= t ->
   Display.INT_MAX < t + Display.seconds_to_next_sync t) /\
  (t < 7200 -> t + Display.seconds_to_next_sync t = 7200) /\
  Display.seconds_to_next_sync t' = 7200.
Proof.
  intros Ht Ht'. unfold Display.seconds_to_next_sync. cbv zeta.
  destruct (Z.ltb_spec t 0); [lia|].
  destruct (Z.ltb_spec t' 0); [|lia].
  assert (E : Z.rem t 7200 = t mod 7200) by (apply Z.rem_mod_nonneg; lia).
  rewrite E.
  pose proof (Z.mod_pos_bound t 7200 ltac:(lia)) as Hb.
  pose proof (Z.div_mod t 7200 ltac:(lia)) as Hd.
  assert (Esum : t + (7200 - t mod 7200) = 7200 * (t / 7200 + 1)) by lia.
  unfold Display.INT_MAX. change (2 ^ 31) with 2147483648.
  split; [lia|].
  split.
  { intros Hlt.
    assert (Hq : t / 7200 < 298261)
      by (apply Z.div_lt_upper_bound; lia).
    assert (Hrange : 0 < t + (7200 - t mod 7200) <= 2147483648 - 1) by lia.
    split; [exact Hrange|].
    split.
    - apply to_int_id. unfold Display.INT_MAX.
      change (2 ^ 31) with 2147483648. lia.
    - rewrite Esum, Z.mul_comm. apply Z.mod_mul. lia. }
  split.
  { intros Hge.
    assert (Hq : 298261 <= t / 7200)
      by (apply Z.div_le_lower_bound; lia).
    lia. }
  split; [|reflexivity].
  intros Hlt. rewrite Z.mod_small by lia. lia.
Qed.

Lemma seconds_to_next_sync_range_witness :
  1 <= Display.seconds_to_next_sync 7300 <= 7200 /\
  (7300 + Display.seconds_to_next_sync 7300) mod 7200 = 0 /\
  Display.INT_MAX < 2147479200 + Display.seconds_to_next_sync 2147479200 /\
  Display.seconds_to_next_sync (-1) = 7200.
Proof.
  destruct (seconds_to_next_sync_range 7300 (-1)) as (H & Hs & _ & _ & H');
    [lia | lia |].
  destruct (seconds_to_next_sync_range 2147479200 (-1)) as (_ & _ & Ho & _);
    [lia | lia |].
  split; [exact H|].
  split; [apply Hs; lia|].
  split; [apply Ho; lia | exact H'].
Defined.

(** A number of one digit, and of two, as printf writes them. *)
Lemma format_d_one_digit (z : Z) :
  0 <= z < 10 -> Display.format_d z = [48 + z].
Proof.
  intros H. unfold Display.format_d.
  destruct (Z.ltb_spec z 0); [lia|]. cbn [Display.digits].
  destruct (Z.ltb_spec z 10); [|lia].
  rewrite Z.mod_small by lia. reflexivity.
Qed.

Lemma format_d_two_digits (z : Z) :
  10 <= z < 100 -> Display.format_d z = [48 + z / 10; 48 + z mod 10].
Proof.
  intros H. unfold Display.format_d.
  destruct (Z.ltb_spec z 0); [lia|]. cbn [Display.digits].
  destruct (Z.ltb_spec z 10); [lia|].
  assert (Hq : 0 <= z / 10 < 10) by (Z.div_mod_to_equations; lia).
  destruct (Z.ltb_spec (z / 10) 10); [|lia].
  rewrite (Z.mod_small (z / 10)) by lia. reflexivity.
Qed.

Lemma format_02d_two_digits (z : Z) :
  0 <= z < 100 -> Display.format_02d z = [48 + z / 10; 48 + z mod 10].
Proof.
  intros H. unfold Display.format_02d.
  destruct (Z.leb_spec 0 z); [|lia]. cbn [andb].
  destruct (Z.ltb_spec z 10).
  - rewrite format_d_one_digit by lia.
    rewrite Z.div_small, Z.mod_small by lia. reflexivity.
  - apply format_d_two_digits. lia.
Qed.

(** The digits of a number below 10^k are at most k. *)
Lemma digits_length (k : nat) :
  forall (fuel : nat) (z : Z) (acc : Mem.bytes),
    (1 <= k <= fuel)%nat -> 0 <= z < 10 ^ Z.of_nat k ->
    (length (Display.digits fuel z acc) <= length acc + k)%nat.
Proof.
  induction k as [|k IH]; intros fuel z acc Hk Hz; [lia|].
  destruct fuel as [|fuel]; [lia|]. cbn [Display.digits].
  destruct (Z.ltb_spec z 10); [cbn [length]; lia|].
  destruct k as [|k'].
  { change (10 ^ Z.of_nat 1) with 10 in Hz. lia. }
  etransitivity; [apply IH|cbn [length]; lia].
  - lia.
  - rewrite Nat2Z.inj_succ, Z.pow_succ_r in Hz by lia.
    Z.div_mod_to_equations. lia.
Qed.

(** X19: the two time texts of the status bar fit their buffers of 20 bytes
    untruncated. The time to the next sync is always seven characters,
    "H:MM:SS" with H from 0 to 2; the time since the last sync is "Never"
    for a negative value and otherwise the hours followed by ":MM:SS", at
    most twelve characters for any [int]. *)
Theorem status_bar_times_fit (t : Z) :
  0 <= t <= Display.INT_MAX ->
  let s := Display.seconds_to_next_sync t in
  Display.time_until_str t
  = [48 + Z.quot s 3600; 58;
     48 + Z.quot (Z.rem s 3600) 60 / 10; 48 + Z.quot (Z.rem s 3600) 60 mod 10;
     58; 48 + Z.rem s 60 / 10; 48 + Z.rem s 60 mod 10] /\
  0 <= Z.quot s 3600 <= 2 /\
  Display.time_since_str t
  = Display.format_d (Display.hours_since t)
    ++ [58; 48 + Display.mins_since t / 10; 48 + Display.mins_since t mod 10;
        58; 48 + Display.secs_since t / 10; 48 + Display.secs_since t mod 10]
  /\
  (length (Display.time_since_str t) <= 12)%nat /\
  Display.time_since_str (- t - 1) = Display.bytes_of_string "Never"%string.
Proof.
  intros Ht. cbv zeta. unfold Display.INT_MAX in Ht.
  change (2 ^ 31) with 2147483648 in Ht.
  assert (Hs : 1 <= Display.seconds_to_next_sync t <= 7200).
  { unfold Display.seconds_to_next_sync. cbv zeta.
    destruct (Z.ltb_spec t 0); [lia|].
    Z.quot_rem_to_equations. lia. }
  set (s := Display.seconds_to_next_sync t) in *.
  assert (Hh : 0 <= Z.quot s 3600 <= 2) by (Z.quot_rem_to_equations; lia).
  assert (Hm : 0 <= Z.quot (Z.rem s 3600) 60 < 60)
    by (Z.quot_rem_to_equations; lia).
  assert (Hc : 0 <= Z.rem s 60 < 60) by (Z.quot_rem_to_equations; lia).
  assert (Hh' : 0 <= Display.hours_since t < 10 ^ Z.of_nat 6).
  { unfold Display.hours_since. change (10 ^ Z.of_nat 6) with 1000000.
    Z.quot_rem_to_equations. lia. }
  assert (Hm' : 0 <= Display.mins_since t < 60).
  { unfold Display.mins_since. Z.quot_rem_to_equations. lia. }
  assert (Hc' : 0 <= Display.secs_since t < 60).
  { unfold Display.secs_since. Z.quot_rem_to_equations. lia. }
  assert (Hl : (length (Display.format_d (Display.hours_since t)) <= 6)%nat).
  { unfold Display.format_d.
    destruct (Z.ltb_spec (Display.hours_since t) 0); [lia|].
    apply (digits_length 6 20 _ []); [lia | assumption]. }
  split.
  { unfold Display.time_until_str. cbv zeta. fold s.
    unfold Display.format_hms, Display.snprintf.
    rewrite format_d_one_digit, !format_02d_two_digits by lia.
    reflexivity. }
  split; [assumption|].
  assert (Esince :
    Display.time_since_str t
    = Display.format_d (Display.hours_since t)
      ++ [58; 48 + Display.mins_since t / 10;
          48 + Display.mins_since t mod 10;
          58; 48 + Display.secs_since t / 10;
          48 + Display.secs_since t mod 10]).
  { unfold Display.time_since_str.
    destruct (Z.ltb_spec t 0); [lia|].
    unfold Display.format_hms, Display.snprintf.
    rewrite !format_02d_two_digits by lia.
    apply firstn_all2. rewrite length_app. cbn [app length]. lia. }
  split; [exact Esince|].
  split.
  { rewrite Esince, length_app. cbn [length]. lia. }
  unfold Display.time_since_str.
  destruct (Z.ltb_spec (- t - 1) 0); [reflexivity | lia].
Qed.

Lemma status_bar_times_fit_witness :
  Display.time_until_str 3725 = Display.bytes_of_string "0:57:55"%string /\
  Display.time_since_str 3725 = Display.bytes_of_string "1:02:05"%string.
Proof.
  assert (H : 0 <= 3725 <= Display.INT_MAX)
    by (vm_compute; split; discriminate).
  destruct (status_bar_times_fit 3725 H) as (H1 & _ & H2 & _).
  split; [exact H1 | exact H2].
Defined.

(* ------------------------------------------------------------------ *)
(** ** The hundredths on the screen *)

(** The text of the hundredths: 32 bytes of colour codes and letters around
    the number. *)
Lemma hundredths_buffer_length (h : Z) :
  length (Display.hundredths_buffer h)
  = (32 + length (Display.snprintf 16 (Display.format_d h)))%nat.
Proof.
  unfold Display.hundredths_buffer.
  rewrite !length_app. cbn [length Display.bytes_of_string map
    String.list_ascii_of_string]. lia.
Qed.

(** X20: the number [draw_full_clock] and [direct_draw_status_bar] show
    after the dot is the hundredths divided by 10, from -9 to 9, and 0 on a
    client that has never synced. For every such number the text built in
    the 40-byte [hundredths_buffer] is "." followed by the number and
    " UTC" between colour codes, 34 bytes at most, so the buffer is never
    overrun. *)
Theorem hundredths_text_fits (st : ntp_client_state_t) (now : timeval) :
  let tenths := Display.displayed_tenths st now in
  -9 <= tenths <= 9 /\
  Z.of_nat (length (Display.hundredths_buffer tenths))
  < Display.HUNDREDTHS_BUFFER_SIZE /\
  (length (Display.hundredths_buffer tenths) <= 34)%nat /\
  Display.hundredths_buffer tenths
  = (Display.ESC :: Display.bytes_of_string "[90m"%string)
    ++ Display.bytes_of_string "."%string
    ++ (Display.ESC :: Display.bytes_of_string "[0m"%string)
    ++ (Display.ESC :: Display.bytes_of_string "[91m"%string)
    ++ Display.format_d tenths
    ++ (Display.ESC :: Display.bytes_of_string "[0m"%string)
    ++ (Display.ESC :: Display.bytes_of_string "[97m"%string)
    ++ Display.bytes_of_string " UTC"%string
    ++ (Display.ESC :: Display.bytes_of_string "[0m"%string) /\
  (ntp_hasEverSynced st = false -> tenths = 0).
Proof.
  cbv zeta.
  pose proof (hundredths_range st now) as Hr.
  assert (Ht : -9 <= Display.displayed_tenths st now <= 9).
  { unfold Display.displayed_tenths. Z.quot_rem_to_equations. lia. }
  set (t := Display.displayed_tenths st now) in *.
  assert (Hf : (length (Display.format_d t) <= 2)%nat).
  { unfold Display.format_d. destruct (Z.ltb_spec t 0).
    - cbn [Display.digits]. destruct (Z.ltb_spec (- t) 10); [|lia].
      cbn [length]. lia.
    - cbn [Display.digits]. destruct (Z.ltb_spec t 10); [|lia].
      cbn [length]. lia. }
  assert (Es : Display.snprintf 16 (Display.format_d t) = Display.format_d t).
  { unfold Display.snprintf. apply firstn_all2. lia. }
  split; [assumption|].
  split.
  { rewrite hundredths_buffer_length, Es.
    unfold Display.HUNDREDTHS_BUFFER_SIZE. lia. }
  split; [rewrite hundredths_buffer_length, Es; lia|].
  split; [unfold Display.hundredths_buffer; rewrite Es; reflexivity|].
  intros Hn. subst t. unfold Display.displayed_tenths.
  assert (E : ntp_getCurrentHundredths st now = 0).
  { apply hundredths_zero_unless_synced.
    unfold ntp_hasEverSynced in Hn. apply andb_false_iff in Hn. exact Hn. }
  rewrite E. reflexivity.
Qed.

(* ------------------------------------------------------------------ *)
(** ** The place of the clock on the screen *)

(** The columns of the text of the hundredths: six, and seven with a
    minus sign. *)
Lemma hundredths_columns (tenths : Z) :
  -9 <= tenths <= 9 ->
  ClockArt.columns (Display.hundredths_buffer tenths)
  = if tenths <? 0 then 7%nat else 6%nat.
Proof.
  intros H.
  assert (E : tenths = -9 \/ tenths = -8 \/ tenths = -7 \/ tenths = -6
              \/ tenths = -5 \/ tenths = -4 \/ tenths = -3 \/ tenths = -2
              \/ tenths = -1 \/ tenths = 0 \/ tenths = 1 \/ tenths = 2
              \/ tenths = 3 \/ tenths = 4 \/ tenths = 5 \/ tenths = 6
              \/ tenths = 7 \/ tenths = 8 \/ tenths = 9) by lia.
  repeat (destruct E as [E|E]; [subst tenths; vm_compute; reflexivity|]).
  subst tenths. vm_compute. reflexivity.
Qed.

(** X21: the clock is never placed above row 1 or left of column 1. On a
    terminal of at least 54 columns and 6 rows the five rows of digits end
    above the status bar, which is on the last row, the hundredths start
    right of the 47 columns of digits, and the six columns the layout
    reserves for them end within the width of the terminal. The text drawn
    there takes those six columns when the number after the dot is from 0
    to 9, and then ends within the width. When that number is negative,
    from -9 to -1, the text takes seven columns: it ends within the width
    from 55 columns on, and at column 55 of a terminal of 54 columns. *)
Theorem clock_fits_terminal (term_width term_height tenths : Z) :
  54 <= term_width ->
  6 <= term_height ->
  1 <= Display.start_row term_height /\
  Display.start_row term_height + 4 < term_height /\
  1 <= Display.start_col term_width /\
  Display.start_col term_width + Display.clock_display_width - 1
  < Display.hundredths_col term_width /\
  Display.hundredths_col term_width + Display.hundredths_display_width - 1
  <= term_width /\
  (forall w h, 1 <= Display.start_row h /\ 1 <= Display.start_col w) /\
  (0 <= tenths <= 9 ->
   Z.of_nat (ClockArt.columns (Display.hundredths_buffer tenths))
   = Display.hundredths_display_width /\
   Display.hundredths_col term_width
   + Z.of_nat (ClockArt.columns (Display.hundredths_buffer tenths)) - 1
   <= term_width) /\
  (-9 <= tenths < 0 ->
   Z.of_nat (ClockArt.columns (Display.hundredths_buffer tenths))
   = Display.hundredths_display_width + 1 /\
   (55 <= term_width ->
    Display.hundredths_col term_width
    + Z.of_nat (ClockArt.columns (Display.hundredths_buffer tenths)) - 1
    <= term_width) /\
   (term_width = 54 ->
    Display.hundredths_col term_width
    + Z.of_nat (ClockArt.columns (Display.hundredths_buffer tenths)) - 1
    = 55)).
Proof.
  intros Hw Hh.
  assert (Hcols : -9 <= tenths <= 9 ->
            Z.of_nat (ClockArt.columns (Display.hundredths_buffer tenths))
            = if tenths <? 0 then 7 else 6).
  { intros H. rewrite (hundredths_columns tenths H).
    destruct (tenths <? 0); reflexivity. }
  unfold Display.hundredths_col, Display.start_row, Display.start_col,
    Display.total_display_width, Display.clock_display_width,
    Display.hundredths_display_width. cbv zeta.
  change (6 * 6 + 2 * 2 + 7) with 47. change (47 + 3 + 6) with 56.
  assert (Hc : forall w h,
             1 <= (if Z.quot (h - 5) 2 - 2 <? 1 then 1
                   else Z.quot (h - 5) 2 - 2) /\
             1 <= (if Z.quot (w - 56) 2 <? 1 then 1
                   else Z.quot (w - 56) 2)).
  { intros w h.
    destruct (Z.ltb_spec (Z.quot (h - 5) 2 - 2) 1);
      destruct (Z.ltb_spec (Z.quot (w - 56) 2) 1); lia. }
  assert (Hmain :
    1 <= (if Z.quot (term_height - 5) 2 - 2 <? 1 then 1
          else Z.quot (term_height - 5) 2 - 2) /\
    (if Z.quot (term_height - 5) 2 - 2 <? 1 then 1
     else Z.quot (term_height - 5) 2 - 2) + 4 < term_height /\
    1 <= (if Z.quot (term_width - 56) 2 <? 1 then 1
          else Z.quot (term_width - 56) 2) /\
    (if Z.quot (term_width - 56) 2 <? 1 then 1
     else Z.quot (term_width - 56) 2) + 47 - 1
    < (if Z.quot (term_width - 56) 2 <? 1 then 1
       else Z.quot (term_width - 56) 2) + 47 + 1 /\
    (if Z.quot (term_width - 56) 2 <? 1 then 1
     else Z.quot (term_width - 56) 2) + 47 + 1 + 6 - 1 <= term_width /\
    (55 <= term_width ->
     (if Z.quot (term_width - 56) 2 <? 1 then 1
      else Z.quot (term_width - 56) 2) + 47 + 1 + 7 - 1 <= term_width) /\
    (term_width = 54 ->
     (if Z.quot (term_width - 56) 2 <? 1 then 1
      else Z.quot (term_width - 56) 2) + 47 + 1 + 7 - 1 = 55)).
  { destruct (Z.ltb_spec (Z.quot (term_height - 5) 2 - 2) 1);
      destruct (Z.ltb_spec (Z.quot (term_width - 56) 2) 1);
      repeat split; intros; try lia; Z.quot_rem_to_equations; lia. }
  destruct Hmain as (H1 & H2 & H3 & H4 & H5 & H6 & H7).
  split; [exact H1|]. split; [exact H2|]. split; [exact H3|].
  split; [exact H4|]. split; [exact H5|]. split; [exact Hc|].
  split.
  - intros Ht. rewrite Hcols by lia.
    destruct (Z.ltb_spec tenths 0); [lia|].
    split; [reflexivity | exact H5].
  - intros Ht. rewrite Hcols by lia.
    destruct (Z.ltb_spec tenths 0); [|lia].
    split; [reflexivity|]. split; assumption.
Qed.

Lemma clock_fits_terminal_witness :
  Display.start_row 24 = 7 /\
  Display.start_col 80 = 12 /\
  Display.hundredths_col 80 + Display.hundredths_display_width - 1 <= 80 /\
  Display.hundredths_col 80
  + Z.of_nat (ClockArt.columns (Display.hundredths_buffer 5)) - 1 <= 80 /\
  Display.hundredths_col 54
  + Z.of_nat (ClockArt.columns (Display.hundredths_buffer (-5))) - 1 = 55.
Proof.
  split; [reflexivity|]. split; [reflexivity|].
  destruct (clock_fits_terminal 80 24 5) as (_ & _ & _ & _ & H & _ & Hp & _);
    [lia | lia |].
  destruct (clock_fits_terminal 54 24 (-5)) as (_ & _ & _ & _ & _ & _ & _ & Hn);
    [lia | lia |].
  split; [exact H|].
  split; [apply Hp; lia|].
  apply Hn; [lia | reflexivity].
Defined.

(** X22: a string no longer than the terminal is wide is drawn centred:
    it lies within the width, and the free columns on its right are as many
    as on its left, or one more. A longer string starts in column 1. *)
Theorem centered_string_is_centered (term_width len len' : Z) :
  0 <= len <= term_width ->
  term_width < len' ->
  let col := Display.centered_col term_width len in
  let left := col - 1 in
  let right := term_width - (col + len - 1) in
  1 <= col /\
  col + len - 1 <= term_width /\
  left <= right <= left + 1 /\
  Display.centered_col term_width len' = 1.
Proof.
  intros Hl Hl'. cbv zeta. unfold Display.centered_col. cbv zeta.
  destruct (Z.ltb_spec (Z.quot (term_width - len) 2) 0);
    destruct (Z.ltb_spec (Z.quot (term_width - len') 2) 0);
    repeat split; Z.quot_rem_to_equations; lia.
Qed.

Lemma centered_string_is_centered_witness :
  Display.centered_col 80 25 = 28 /\ Display.centered_col 80 100 = 1.
Proof.
  split; [reflexivity|].
  destruct (centered_string_is_centered 80 25 100) as (_ & _ & _ & H);
    [lia | lia | exact H].
Defined.

(* ------------------------------------------------------------------ *)
(** ** The rows of the clock *)

Lemma escape_after_app (a b : Mem.bytes) (e : bool) :
  ClockArt.escape_after e (a ++ b)
  = ClockArt.escape_after (ClockArt.escape_after e a) b.
Proof.
  revert e. induction a as [|x a IH]; intros e; [reflexivity|].
  cbn [app ClockArt.escape_after]. destruct e; apply IH.
Qed.

Lemma columns_from_app (a b : Mem.bytes) (e : bool) :
  ClockArt.columns_from e (a ++ b)
  = (ClockArt.columns_from e a
     + ClockArt.columns_from (ClockArt.escape_after e a) b)%nat.
Proof.
  revert e. induction a as [|x a IH]; intros e; [reflexivity|].
  cbn [app ClockArt.columns_from ClockArt.escape_after].
  destruct e; [apply IH|].
  destruct (x =? Display.ESC); [apply IH|].
  destruct (Z.land x 192 =? 128); rewrite IH; reflexivity.
Qed.

(** Every row of every digit is six columns wide, and every row of the
    colon two. *)
Lemma digit_art_ok (digit line : Z) :
  0 <= digit <= 9 -> 0 <= line <= 4 ->
  ClockArt.glyph_ok 6 (ClockArt.digit_art digit line) = true.
Proof.
  intros Hd Hl.
  assert (Ed : digit = 0 \/ digit = 1 \/ digit = 2 \/ digit = 3 \/ digit = 4
               \/ digit = 5 \/ digit = 6 \/ digit = 7 \/ digit = 8
               \/ digit = 9) by lia.
  assert (El : line = 0 \/ line = 1 \/ line = 2 \/ line = 3 \/ line = 4)
    by lia.
  clear Hd Hl.
  repeat (destruct Ed as [->|Ed]);
    try subst digit;
    repeat (destruct El as [->|El]); try subst line;
    vm_compute; reflexivity.
Qed.

Lemma colon_art_ok (line : Z) :
  0 <= line <= 4 -> ClockArt.glyph_ok 2 (ClockArt.colon_art line) = true.
Proof.
  intros Hl.
  assert (El : line = 0 \/ line = 1 \/ line = 2 \/ line = 3 \/ line = 4)
    by lia.
  clear Hl.
  repeat (destruct El as [->|El]); try subst line; vm_compute; reflexivity.
Qed.

(** A glyph between a colour code and a reset: the columns of the glyph and
    of the reset, and no open ANSI sequence at the end. *)
Lemma glyph_columns (width : nat) (color art reset : Mem.bytes) :
  ClockArt.glyph_ok width art = true ->
  ClockArt.escape_after false color = false ->
  ClockArt.columns color = 0%nat ->
  ClockArt.escape_after false reset = false ->
  ClockArt.escape_after false (ClockArt.glyph color art reset) = false /\
  ClockArt.columns (ClockArt.glyph color art reset)
  = (width + ClockArt.columns reset)%nat /\
  (length (ClockArt.glyph color art reset)
   <= length color + 3 * width + length reset)%nat.
Proof.
  unfold ClockArt.glyph_ok, ClockArt.glyph, ClockArt.columns.
  intros Hok Hc Hc0 Hr.
  apply andb_true_iff in Hok. destruct Hok as [Hok Hlen].
  apply andb_true_iff in Hok. destruct Hok as [Hesc Hcol].
  apply negb_true_iff in Hesc. apply Nat.eqb_eq in Hcol.
  apply Nat.leb_le in Hlen.
  split; [rewrite !escape_after_app, Hc, Hesc; exact Hr|].
  split.
  - rewrite !columns_from_app, Hc, Hesc, Hc0, Hcol. reflexivity.
  - rewrite !length_app. lia.
Qed.

(** X23: for every time of day (hours 0 to 23, minutes 0 to 59, seconds 0
    to 60) each of the five rows of the clock takes 47 columns on the
    terminal, the width [draw_full_clock] reckons with, so the rows line
    up; and each row is at most 200 bytes, well within its buffer of 512
    bytes. *)
Theorem clock_rows_line_up (tm_hour tm_min tm_sec line : Z) :
  0 <= tm_hour <= 23 ->
  0 <= tm_min <= 59 ->
  0 <= tm_sec <= 60 ->
  0 <= line <= 4 ->
  Z.of_nat (ClockArt.columns (ClockArt.clock_row tm_hour tm_min tm_sec line))
  = Display.clock_display_width /\
  (length (ClockArt.clock_row tm_hour tm_min tm_sec line) <= 200)%nat /\
  Z.of_nat (length (ClockArt.clock_row tm_hour tm_min tm_sec line))
  < ClockArt.BUFFER_SIZE.
Proof.
  intros Hh Hm Hs Hl.
  assert (D1 : 0 <= Z.quot tm_hour 10 <= 9) by (Z.quot_rem_to_equations; lia).
  assert (D2 : 0 <= Z.rem tm_hour 10 <= 9) by (Z.quot_rem_to_equations; lia).
  assert (D3 : 0 <= Z.quot tm_min 10 <= 9) by (Z.quot_rem_to_equations; lia).
  assert (D4 : 0 <= Z.rem tm_min 10 <= 9) by (Z.quot_rem_to_equations; lia).
  assert (D5 : 0 <= Z.quot tm_sec 10 <= 9) by (Z.quot_rem_to_equations; lia).
  assert (D6 : 0 <= Z.rem tm_sec 10 <= 9) by (Z.quot_rem_to_equations; lia).
  pose proof (fun d Hd =>
    glyph_columns 6 ClockArt.RED (ClockArt.digit_art d line)
      ClockArt.RESET_SPACE (digit_art_ok d line Hd Hl)
      eq_refl eq_refl eq_refl) as Gd.
  pose proof (glyph_columns 2 ClockArt.GRAY (ClockArt.colon_art line)
      ClockArt.RESET_SPACE (colon_art_ok line Hl)
      eq_refl eq_refl eq_refl) as Gc.
  pose proof (glyph_columns 6 ClockArt.RED
      (ClockArt.digit_art (Z.rem tm_sec 10) line)
      ClockArt.RESET (digit_art_ok _ line D6 Hl)
      eq_refl eq_refl eq_refl) as Gl.
  destruct (Gd _ D1) as (A1 & B1 & C1). destruct (Gd _ D2) as (A2 & B2 & C2).
  destruct (Gd _ D3) as (A3 & B3 & C3). destruct (Gd _ D4) as (A4 & B4 & C4).
  destruct (Gd _ D5) as (A5 & B5 & C5).
  destruct Gc as (Ac & Bc & Cc). destruct Gl as (Al & Bl & Cl).
  clear Gd.
  change (ClockArt.columns ClockArt.RESET_SPACE) with 1%nat in *.
  change (ClockArt.columns ClockArt.RESET) with 0%nat in *.
  change (length ClockArt.RED) with 5%nat in *.
  change (length ClockArt.GRAY) with 5%nat in *.
  change (length ClockArt.RESET_SPACE) with 5%nat in *.
  change (length ClockArt.RESET) with 4%nat in *.
  unfold ClockArt.columns in *. unfold ClockArt.clock_row.
  assert (Ecol :
    ClockArt.columns_from false
      (ClockArt.glyph ClockArt.RED
         (ClockArt.digit_art (Z.quot tm_hour 10) line) ClockArt.RESET_SPACE
       ++ ClockArt.glyph ClockArt.RED
            (ClockArt.digit_art (Z.rem tm_hour 10) line) ClockArt.RESET_SPACE
       ++ ClockArt.glyph ClockArt.GRAY (ClockArt.colon_art line)
            ClockArt.RESET_SPACE
       ++ ClockArt.glyph ClockArt.RED
            (ClockArt.digit_art (Z.quot tm_min 10) line) ClockArt.RESET_SPACE
       ++ ClockArt.glyph ClockArt.RED
            (ClockArt.digit_art (Z.rem tm_min 10) line) ClockArt.RESET_SPACE
       ++ ClockArt.glyph ClockArt.GRAY (ClockArt.colon_art line)
            ClockArt.RESET_SPACE
       ++ ClockArt.glyph ClockArt.RED
            (ClockArt.digit_art (Z.quot tm_sec 10) line) ClockArt.RESET_SPACE
       ++ ClockArt.glyph ClockArt.RED
            (ClockArt.digit_art (Z.rem tm_sec 10) line) ClockArt.RESET)
    = 47%nat).
  { rewrite columns_from_app, A1, B1.
    rewrite columns_from_app, A2, B2.
    rewrite columns_from_app, Ac, Bc.
    rewrite columns_from_app, A3, B3.
    rewrite columns_from_app, A4, B4.
    rewrite columns_from_app, Ac, Bc.
    rewrite columns_from_app, A5, B5.
    rewrite Bl. reflexivity. }
  split; [rewrite Ecol; reflexivity|].
  assert (Hlen :
    (length
       (ClockArt.glyph ClockArt.RED
          (ClockArt.digit_art (Z.quot tm_hour 10) line) ClockArt.RESET_SPACE
        ++ ClockArt.glyph ClockArt.RED
             (ClockArt.digit_art (Z.rem tm_hour 10) line) ClockArt.RESET_SPACE
        ++ ClockArt.glyph ClockArt.GRAY (ClockArt.colon_art line)
             ClockArt.RESET_SPACE
        ++ ClockArt.glyph ClockArt.RED
             (ClockArt.digit_art (Z.quot tm_min 10) line) ClockArt.RESET_SPACE
        ++ ClockArt.glyph ClockArt.RED
             (ClockArt.digit_art (Z.rem tm_min 10) line) ClockArt.RESET_SPACE
        ++ ClockArt.glyph ClockArt.GRAY (ClockArt.colon_art line)
             ClockArt.RESET_SPACE
        ++ ClockArt.glyph ClockArt.RED
             (ClockArt.digit_art (Z.quot tm_sec 10) line) ClockArt.RESET_SPACE
        ++ ClockArt.glyph ClockArt.RED
             (ClockArt.digit_art (Z.rem tm_sec 10) line) ClockArt.RESET)
     <= 200)%nat).
  { rewrite !length_app. lia. }
  split; [exact Hlen|].
  unfold ClockArt.BUFFER_SIZE. lia.
Qed.

Lemma clock_rows_line_up_witness :
  Z.of_nat (ClockArt.columns (ClockArt.clock_row 23 59 58 2))
  = Display.clock_display_width /\
  (length (ClockArt.clock_row 23 59 58 2) <= 200)%nat.
Proof.
  assert (Hh : 0 <= 23 <= 23) by lia. assert (Hm : 0 <= 59 <= 59) by lia.
  assert (Hs : 0 <= 58 <= 60) by lia. assert (Hl : 0 <= 2 <= 4) by lia.
  destruct (clock_rows_line_up 23 59 58 2 Hh Hm Hs Hl) as (H1 & H2 & _).
  split; [exact H1 | exact H2].
Defined.
